(** * dns-tools: the Cloudflare bulk orchestration code, embedded and verified

    The definitions below are a shallow embedding of
    [CloudFlare/cloudflare.mjs] (and of the line parser of
    [porkbun/porkbun.ts]).  Every definition carries the name of the
    JavaScript function it is translated from and the lines it covers.

    Conventions of the embedding:
    - a JavaScript string is a [string] whose characters are code units
      0..255 (Latin-1); the white space of [trim] and of the regular
      expression class [\s] is therefore the tab, LF, VT, FF, CR, space and
      NBSP code units;
    - numbers that count pages and items are integers ([Z]);
    - [console.log], [console.error] and the error log file are not part of
      the state, except where a function's report is what a property is
      about (the mapping builder);
    - an [async] function is a computation in the monad [M] of the section
      [Orchestration]: it threads the remote account and the shared record
      objects, may throw, and emits the API requests it issues. *)

From Stdlib Require Import Ascii ZArith.
From stdpp Require Import gmap strings list fin_maps pretty.

(** ** JavaScript string primitives *)

Module Js.

(** White space as [String.prototype.trim] and [\s] see it. *)
Definition is_ws (c : ascii) : bool :=
  let n := Ascii.nat_of_ascii c in
  (Nat.leb 9 n && Nat.leb n 13) || Nat.eqb n 32 || Nat.eqb n 160.

Definition is_tab (c : ascii) : bool := Ascii.eqb c "009"%char.

Definition is_empty (s : string) : bool :=
  match s with EmptyString => true | String _ _ => false end.

Fixpoint trimStart (s : string) : string :=
  match s with
  | EmptyString => EmptyString
  | String c s' => if is_ws c then trimStart s' else s
  end.

Fixpoint trimEnd (s : string) : string :=
  match s with
  | EmptyString => EmptyString
  | String c s' =>
      let t := trimEnd s' in
      if is_ws c && is_empty t then EmptyString else String c t
  end.

Definition trim (s : string) : string := trimEnd (trimStart s).

(** [s.startsWith(p)] *)
Definition startsWith (s p : string) : bool := String.prefix p s.

(** [s.includes(sub)] : [sub] occurs somewhere in [s]. *)
Fixpoint includes (s sub : string) : bool :=
  String.prefix sub s ||
  match s with
  | EmptyString => false
  | String _ s' => includes s' sub
  end.

(** [s.endsWith(p)] *)
Definition endsWith (s p : string) : bool :=
  Nat.leb (String.length p) (String.length s) &&
  String.eqb (String.substring (String.length s - String.length p)
                               (String.length p) s) p.

(** [s.slice(0, -1)] : all but the last code unit. *)
Fixpoint dropLast (s : string) : string :=
  match s with
  | EmptyString => EmptyString
  | String c EmptyString => EmptyString
  | String c s' => String c (dropLast s')
  end.

(** [s.split(c)] for a one-character separator; the empty string splits
    into one empty field. *)
Fixpoint split (sep : ascii) (s : string) : list string :=
  match s with
  | EmptyString => [EmptyString]
  | String c s' =>
      if Ascii.eqb c sep then EmptyString :: split sep s'
      else match split sep s' with
           | x :: xs => String c x :: xs
           | [] => [String c EmptyString]
           end
  end.

(** [s.split(/C+/)] for a character class [C]: the fields between the
    maximal runs of separator characters.  A leading (trailing) run
    leaves a leading (trailing) empty field, as in JavaScript.
    [in_run] tells that the previous character was a separator. *)
Fixpoint split_runs_from (issep : ascii → bool) (in_run : bool) (s : string)
  : list string :=
  match s with
  | EmptyString => [EmptyString]
  | String c s' =>
      if issep c then
        if in_run then split_runs_from issep true s'
        else EmptyString :: split_runs_from issep true s'
      else match split_runs_from issep false s' with
           | x :: xs => String c x :: xs
           | [] => [String c EmptyString]
           end
  end.

Definition split_runs (issep : ascii → bool) (s : string) : list string :=
  split_runs_from issep false s.

(** [s.toUpperCase()] on strings of Latin-1 code units: the letters a-z
    and the accented letters 224-254 (but the division sign, 247) lose
    32, the sharp s (223) becomes [SS].  The upper-case forms of the micro
    sign (181) and of the y with diaeresis (255) are beyond Latin-1: the
    strings of this file do not hold them, and the two are left as they
    are. *)
Definition upper_char (c : ascii) : string :=
  let n := Ascii.nat_of_ascii c in
  if (Nat.leb 97 n && Nat.leb n 122)
     || (Nat.leb 224 n && Nat.leb n 254 && negb (Nat.eqb n 247))
  then String (Ascii.ascii_of_nat (n - 32)) EmptyString
  else if Nat.eqb n 223 then "SS"
  else String c EmptyString.

Fixpoint toUpperCase (s : string) : string :=
  match s with
  | EmptyString => EmptyString
  | String c s' => upper_char c +:+ toUpperCase s'
  end.

(** The tab and the line feed as one-character strings. *)
Definition TAB : string := String "009"%char EmptyString.
Definition LF : string := String "010"%char EmptyString.

(** An insertion-ordered [Map]: [set] keeps the position of a key that
    is already present, [delete] removes the key. *)
Section OrderedMap.
Context {V : Type}.

Fixpoint map_set (k : string) (v : V) (m : list (string * V))
  : list (string * V) :=
  match m with
  | [] => [(k, v)]
  | (k', v') :: m' =>
      if String.eqb k' k then (k', v) :: m' else (k', v') :: map_set k v m'
  end.

Definition map_delete (k : string) (m : list (string * V))
  : list (string * V) :=
  filter (λ kv, kv.1 ≠ k) m.

(** [new Map(entries)] *)
Definition map_of_entries (l : list (string * V)) : list (string * V) :=
  foldl (λ m kv, map_set kv.1 kv.2 m) [] l.
End OrderedMap.

End Js.

(** ** Data model *)

(** A DNS record as the caller writes it (the objects of
    [gwsResellerDnsRecords], lines 725-742, and of the mapping builder). *)
Module DNSRecord.
Record t := mk {
  type : string;
  host : string;
  value : string;
  ttl : option Z;
  priority : option Z;
  proxied : option bool
}.

(** [record.host = h] *)
Definition set_host (h : string) (r : t) : t :=
  mk (type r) h (value r) (ttl r) (priority r) (proxied r).
End DNSRecord.

(** A DNS record as the API lists it. *)
Module RemoteDNSRecord.
Record t := mk { id : string; type : string; name : string; content : string }.
End RemoteDNSRecord.

(** An entry of a domain snapshot file: [{ id, name }]. *)
Module DomainEntry.
Record t := mk { id : string; name : string }.
End DomainEntry.

(** ** Content filter: the callback of [getFilteredDNSRecords] (lines 519-525) *)

Definition dnsRecordMatches (content type : string) (record : RemoteDNSRecord.t)
  : bool :=
  if String.eqb type "TXT" && String.eqb content "dkim" then
    Js.includes (RemoteDNSRecord.content record) content
    || Js.includes (RemoteDNSRecord.name record) "_domainkey"
  else Js.includes (RemoteDNSRecord.content record) content.

(** ** Mapping builder: [createDomainRecordsMapFromTextFile] (lines 381-426) *)

(** The record object of lines 410-415. *)
Definition txtRecord (value : string) : DNSRecord.t :=
  DNSRecord.mk "TXT" EmptyString value (Some 3600%Z) None None.

(** The report of line 397. *)
Definition invalidLineReport (line : string) : string :=
  "Invalid line format in records file: " +:+ line.

(** [parts[i]] *)
Definition part (parts : list string) (i : nat) : string :=
  nth i parts EmptyString.

(** The property names that every object inherits from
    [Object.prototype]: for such a key, [recordsMap[domain]] is an
    inherited value, which is truthy and has no [push]. *)
Definition objectPrototypeKeys : list string :=
  ["constructor"; "__proto__"; "hasOwnProperty"; "isPrototypeOf";
   "propertyIsEnumerable"; "toString"; "toLocaleString"; "valueOf";
   "__defineGetter__"; "__defineSetter__"; "__lookupGetter__";
   "__lookupSetter__"].

Definition isInherited (key : string) : bool :=
  existsb (String.eqb key) objectPrototypeKeys.

(** One turn of the [for (const line of lines)] loop (lines 388-419), on
    the records map and the reports written so far; [inl] is the message
    of the error the turn throws.  A key of the map is initialised with
    the empty list when it is first seen (lines 405-407) and the record is
    pushed on its list (line 418). *)
Definition mappingLine (fields : string → list string)
    (acc : gmap string (list DNSRecord.t) * list string) (line : string)
  : string + gmap string (list DNSRecord.t) * list string :=
  let '(recordsMap, reports) := acc in
  if Js.is_empty (Js.trim line) || Js.startsWith (Js.trim line) "#" then inr acc
  else
    let parts := fields (Js.trim line) in
    if Nat.ltb (length parts) 2 then
      inr (recordsMap, reports ++ [invalidLineReport line])
    else
      let domain := part parts 0 in
      let value := part parts 1 in
      if isInherited domain then inl "recordsMap[domain].push is not a function"
      else
        let recordsMap :=
          match recordsMap !! domain with
          | None => <[domain := []]> recordsMap
          | Some _ => recordsMap
          end in
        inr (<[domain := default [] (recordsMap !! domain) ++ [txtRecord value]]>
               recordsMap, reports).

(** The loop: the map when every turn ends, or the message of the error
    that ends the loop; the reports written so far in both cases. *)
Fixpoint mappingLines (fields : string → list string) (lines : list string)
    (acc : gmap string (list DNSRecord.t) * list string)
  : (string + gmap string (list DNSRecord.t)) * list string :=
  match lines with
  | [] => (inr acc.1, acc.2)
  | line :: lines' =>
      match mappingLine fields acc line with
      | inl message => (inl message, acc.2)
      | inr acc' => mappingLines fields lines' acc'
      end
  end.

(** [line.trim().split(/\t+/)] (line 393). *)
Definition tabFields (trimmed : string) : list string :=
  Js.split_runs Js.is_tab trimmed.

(** The report of line 423. *)
Definition readErrorReport (message : string) : string :=
  "Error reading domain records text file: " +:+ message.

(** The function.  [readFile] is the file system: the text of a path, or
    the message of the error that reading it raises.  The result is the
    returned value ([None] is [null]) and the reports of [console.error]. *)
Definition createDomainRecordsMapFromTextFile
    (readFile : string → string + string) (filePath : string)
  : option (gmap string (list DNSRecord.t)) * list string :=
  match readFile filePath with
  | inr content =>
      match mappingLines tabFields (Js.split "010"%char content) (∅, []) with
      | (inr recordsMap, reports) => (Some recordsMap, reports)
      | (inl message, reports) => (None, reports ++ [readErrorReport message])
      end
  | inl message => (None, [readErrorReport message])
  end.

(** The line loop of [processDomainFile] of porkbun.ts (lines 128-139):
    the pairs handed to [processRecord], and the reports.  The line is
    split on white space, and it is not trimmed before. *)
Definition processDomainFile_lines (text : string)
  : list (string * string) * list string :=
  foldl (λ acc line,
           if Js.is_empty (Js.trim line) || Js.startsWith (Js.trim line) "#"
           then acc
           else
             let parts := Js.split_runs Js.is_ws line in
             if Js.is_empty (part parts 0) || Js.is_empty (part parts 1)
             then (acc.1, acc.2 ++ ["Invalid line format: " +:+ line])
             else (acc.1 ++ [(part parts 0, part parts 1)], acc.2))
        ([], []) (Js.split "010"%char text).

(** ** Set-difference reconciler: [writeDomainsToFileByExclusion] (lines 170-195) *)

(** A directory is the list of its files, each with the snapshot that
    [JSON.parse] reads from it. *)
Definition isExclusionFile (file : string) : bool :=
  negb (String.eqb file "all.txt") && Js.endsWith file ".txt".

(** Lines 180-188: every name of every other [.txt] file is deleted. *)
Definition subtractFiles (allDomains : list (string * string))
    (files : list (string * list DomainEntry.t)) : list (string * string) :=
  foldl (λ allDomains file,
           if isExclusionFile file.1 then
             foldl (λ m domain, Js.map_delete domain m) allDomains
                   (map DomainEntry.name file.2)
           else allDomains)
        allDomains files.

(** Lines 177 and 191: the map of the full snapshot, and the entries that
    are left in it. *)
Definition filteredDomains (allFile : list DomainEntry.t)
    (files : list (string * list DomainEntry.t)) : list DomainEntry.t :=
  let allDomains :=
    Js.map_of_entries
      (map (λ domain, (DomainEntry.name domain, DomainEntry.id domain)) allFile) in
  map (λ kv, DomainEntry.mk kv.2 kv.1) (subtractFiles allDomains files).

(** The function on a directory: [None] when [all.txt] cannot be read (the
    promise is rejected), else the directory after the result was written. *)
Definition writeDomainsToFileByExclusion
    (dir : list (string * list DomainEntry.t)) (outputFileName : string)
  : option (list (string * list DomainEntry.t)) :=
  match list_find (λ file, file.1 = "all.txt") dir with
  | Some (_, (_, allFile)) =>
      Some (Js.map_set outputFileName (filteredDomains allFile dir) dir)
  | None => None
  end.

(** ** The remote API *)

Module Zone.
Record t := mk { id : string; name : string; created_on : string; status : string }.
End Zone.

Module ResultInfo.
Record t := mk { page : Z; per_page : Z; total_count : Z }.
End ResultInfo.

(** One page of the zone listing: [{ result, result_info }]. *)
Module ZonesPage.
Record t := mk { result : list Zone.t; result_info : ResultInfo.t }.
End ZonesPage.

(** The body of a record creation (lines 227-234). *)
Module FormattedRecord.
Record t := mk {
  type : string;
  name : string;
  content : string;
  ttl : Z;
  priority : option Z;
  proxied : bool
}.
End FormattedRecord.

Module Action.
Record t := mk { id : string; url : string; status_code : Z }.
End Action.

Module Target.
Record t := mk { target : string; operator : string; value : string }.
End Target.

Module PageRule.
Record t := mk {
  id : string;
  targets : list Target.t;
  actions : list Action.t;
  priority : Z;
  status : string
}.
End PageRule.

(** The body of a page rule creation (lines 614-635). *)
Module NewRule.
Record t := mk {
  targets : list Target.t;
  actions : list Action.t;
  priority : Z;
  status : string
}.
End NewRule.

(** A JSON value the code only passes on or prints is kept as its text,
    which is what [JSON.stringify] gives. *)
Definition Json : Type := string.

(** [{ success, result }] *)
Module Response.
Record t (A : Type) := mk { success : bool; result : A }.
Arguments mk {A}.
Arguments success {A}.
Arguments result {A}.
End Response.

(** The requests the code sends, each with the type of the data that
    answers it. *)
Inductive Request : Type → Type :=
| ListZones (per_page page : Z) (contains : option string)
    : Request ZonesPage.t                    (* GET zones?per_page&page[&name] *)
| ZoneByName (domain : string)
    : Request (Response.t (list Zone.t))     (* GET zones?name=domain *)
| CreateDnsRecord (zoneId : string) (body : FormattedRecord.t)
    : Request (Response.t Json)              (* POST zones/:id/dns_records *)
| ListDnsRecords (zoneId type : string)
    : Request (Response.t (list RemoteDNSRecord.t))
                                             (* GET zones/:id/dns_records *)
| DeleteZone (zoneId : string)
    : Request (Response.t Json)              (* DELETE zones/:id *)
| PatchZone (zoneId : string) (paused : bool)
    : Request (Response.t Json)              (* PATCH zones/:id *)
| ListPageRules (zoneId : string)
    : Request (Response.t (list PageRule.t)) (* GET zones/:id/pagerules *)
| DeletePageRule (zoneId ruleId : string)
    : Request (Response.t Json)              (* DELETE zones/:id/pagerules/:rule *)
| CreatePageRule (zoneId : string) (body : NewRule.t)
    : Request (Response.t Json).             (* POST zones/:id/pagerules *)

(** A request that was sent. *)
Inductive Call : Type :=
| call {T : Type} (request : Request T).

(** The remote account: a state of type [R], and for every request either
    the message of the failure ([errorDetails], line 58) or the data, with
    the state the request leaves. *)
Class Api (R : Type) : Type :=
  api : ∀ T : Type, Request T → R → (string + T) * R.

(** ** Exceptions, state and the monad of [async] functions *)

Inductive Exn : Type :=
| Error (message : string)
| TypeError (message : string)
| ReferenceError (message : string).

(** [error.message] *)
Definition message (error : Exn) : string :=
  match error with
  | Error m | TypeError m | ReferenceError m => m
  end.

(** The remote account and the record objects the caller shares with the
    functions: a record list is a list of references into [heap]. *)
Record State (R : Type) : Type :=
  mkState { remote : R; heap : list DNSRecord.t }.
Arguments mkState {R}.
Arguments remote {R}.
Arguments heap {R}.

Record Outcome (R A : Type) : Type :=
  mkOutcome { returned : Exn + A; final : State R; calls : list Call }.
Arguments mkOutcome {R A}.
Arguments returned {R A}.
Arguments final {R A}.
Arguments calls {R A}.

Definition M (R A : Type) : Type := State R → Outcome R A.

Definition ret {R A} (a : A) : M R A :=
  λ st, mkOutcome (inr a) st [].

Definition throw {R A} (error : Exn) : M R A :=
  λ st, mkOutcome (inl error) st [].

Definition bind {R A B} (m : M R A) (k : A → M R B) : M R B :=
  λ st,
    let o := m st in
    match returned o with
    | inl error => mkOutcome (inl error) (final o) (calls o)
    | inr a =>
        let o' := k a (final o) in
        mkOutcome (returned o') (final o') (calls o ++ calls o')
    end.

(** [try { m } catch (error) { handler error }] *)
Definition try_catch {R A} (m : M R A) (handler : Exn → M R A) : M R A :=
  λ st,
    let o := m st in
    match returned o with
    | inl error =>
        let o' := handler error (final o) in
        mkOutcome (returned o') (final o') (calls o ++ calls o')
    | inr _ => o
    end.

Notation "'let*' x ':=' m 'in' k" := (bind m (λ x, k))
  (at level 10, x binder, m at level 100, k at level 200).

(** [for (const x of xs) body]: the variables the body updates are the
    loop state [s]. *)
Fixpoint for_of {R A S} (xs : list A) (s : S) (body : S → A → M R S) : M R S :=
  match xs with
  | [] => ret s
  | x :: xs' => let* s' := body s x in for_of xs' s' body
  end.

(** [records[l]] read through its reference; a reference to no object
    stands for an [undefined] element, whose property access throws. *)
Definition readRecord {R} (l : nat) : M R DNSRecord.t :=
  λ st,
    match heap st !! l with
    | Some record => ret record st
    | None =>
        throw (TypeError "Cannot read properties of undefined (reading 'host')") st
    end.

(** [record.host = domain] on the shared object. *)
Definition assignHost {R} (l : nat) (domain : string) : M R unit :=
  λ st,
    mkOutcome (inr tt)
      (mkState (remote st) (alter (DNSRecord.set_host domain) l (heap st))) [].

(** The value of a function that ends without [return]. *)
Inductive JsValue (A : Type) : Type :=
| undefined
| defined (a : A).
Arguments undefined {A}.
Arguments defined {A}.

(** ** The operations of cloudflare.mjs *)

(** [{ success, domain, record?, error? }] *)
Module OperationResult.
Record summary := mkSummary { type : string; host : string; value : string }.
Record t := mk {
  success : bool;
  domain : string;
  record : option summary;
  error : option string
}.
End OperationResult.

Section Orchestration.
Context {R : Type} `{Api R}.

(** [cloudflareRequest] (lines 53-65): one request; a failure is thrown as
    [new Error(errorDetails)]. *)
Definition cloudflareRequest {T} (request : Request T) : M R T :=
  λ st,
    let '(answer, remote') := api T request (remote st) in
    mkOutcome
      (match answer with
       | inl errorDetails => inl (Error errorDetails)
       | inr data => inr data
       end)
      (mkState remote' (heap st)) [call request].

(** [getZoneId] (lines 197-206): [result[0].id], with no check that
    [result] has a first element. *)
Definition getZoneId (domain : string) : M R string :=
  let* data := cloudflareRequest (ZoneByName domain) in
  match Response.result data with
  | zone :: _ => ret (Zone.id zone)
  | [] => throw (TypeError "Cannot read properties of undefined (reading 'id')")
  end.

(** Lines 227-234. *)
Definition formatRecord (record : DNSRecord.t) : FormattedRecord.t :=
  FormattedRecord.mk
    (Js.toUpperCase (DNSRecord.type record))
    (DNSRecord.host record)
    (DNSRecord.value record)
    (match DNSRecord.ttl record with
     | Some t => if (t =? 0)%Z then 3600%Z else t
     | None => 3600%Z
     end)
    (DNSRecord.priority record)
    (default false (DNSRecord.proxied record)).

(** [insertDNSRecord] (lines 222-248).  The log of line 239 reads
    [result.name], which throws when the [result] of the answer is
    [null]. *)
Definition insertDNSRecord (zoneId : string) (record : DNSRecord.t)
  : M R (Response.t Json) :=
  try_catch
    (let* data := cloudflareRequest (CreateDnsRecord zoneId (formatRecord record)) in
     if Response.success data then
       if String.eqb (Response.result data) "null"
       then throw (TypeError "Cannot read properties of null (reading 'name')")
       else ret data
     else throw (Error ("Failed to create DNS record: " +:+ Response.result data)))
    (λ error, throw error).

(** Line 258. *)
Definition isApexHost (host : string) : bool :=
  String.eqb host "@" || String.eqb host EmptyString.

Definition summaryOf (record : DNSRecord.t) : OperationResult.summary :=
  OperationResult.mkSummary
    (DNSRecord.type record) (DNSRecord.host record) (DNSRecord.value record).

(** The body of the record loop of [insertDNSRecords] (lines 257-286). *)
Definition insertDNSRecords_body (domain zoneId : string)
    (results : list OperationResult.t) (l : nat) : M R (list OperationResult.t) :=
  let* record := readRecord l in
  let* _ :=
    if isApexHost (DNSRecord.host record) then assignHost l domain else ret tt in
  let* record := readRecord l in
  try_catch
    (let* _ := insertDNSRecord zoneId record in
     ret (results ++
            [OperationResult.mk true domain (Some (summaryOf record)) None]))
    (λ error,
       ret (results ++
              [OperationResult.mk false domain (Some (summaryOf record))
                 (Some (message error))])).

(** [insertDNSRecords] (lines 251-293). *)
Definition insertDNSRecords (domain : string) (records : list nat)
  : M R (list OperationResult.t) :=
  try_catch
    (let* zoneId := getZoneId domain in
     for_of records [] (insertDNSRecords_body domain zoneId))
    (λ error,
       ret [OperationResult.mk false domain None (Some (message error))]).

(** The body of the domain loop of lines 299-315 and 330-347. *)
Definition manyDomains_body (results : list OperationResult.t)
    (entry : string * list nat) : M R (list OperationResult.t) :=
  let '(domain, records) := entry in
  try_catch
    (let* domainResults := insertDNSRecords domain records in
     ret (results ++ domainResults))
    (λ error,
       ret (results ++
              [OperationResult.mk false domain None (Some (message error))])).

(** [createSameDNSRecordsForManyDomains] (lines 296-323): every domain is
    given the same list of references. *)
Definition createSameDNSRecordsForManyDomains (domains : list string)
    (records : list nat) : M R (list OperationResult.t) :=
  for_of (map (λ domain, (domain, records)) domains) [] manyDomains_body.

(** [createDifferentDNSRecordsForManyDomains] (lines 326-355): the map is
    the list of its keys, in the order of [Object.keys], each with its
    record list. *)
Definition createDifferentDNSRecordsForManyDomains
    (domainToRecordsMap : list (string * list nat))
  : M R (list OperationResult.t) :=
  for_of domainToRecordsMap [] manyDomains_body.

(** The page loop of [getDomains] (lines 69-90): [allResults] after the
    loop, which is the listing before the filters and the sort of lines
    92-109.  The loop runs as long as the answers tell it to, so the
    embedding counts its turns: [None] means that [fuel] turns did not end
    it. *)
Fixpoint getDomains_pages (fuel : nat) (contains : option string) (page : Z)
    (allResults : list Zone.t) : M R (option (list Zone.t)) :=
  match fuel with
  | O => ret None
  | S fuel' =>
      let* data := cloudflareRequest (ListZones 50 page contains) in
      let allResults := allResults ++ ZonesPage.result data in
      let result_info := ZonesPage.result_info data in
      if (ResultInfo.page result_info * ResultInfo.per_page result_info
          >=? ResultInfo.total_count result_info)%Z
      then ret (Some allResults)
      else getDomains_pages fuel' contains (page + 1)%Z allResults
  end.

(** [getFilteredDNSRecords] (lines 512-526). *)
Definition getFilteredDNSRecords (zoneId content type : string)
  : M R (list RemoteDNSRecord.t) :=
  let* data := cloudflareRequest (ListDnsRecords zoneId type) in
  ret (List.filter (dnsRecordMatches content type) (Response.result data)).

(** [deleteZone] (lines 439-446). *)
Definition deleteZone (domain : string) : M R (Response.t Json) :=
  let* zoneId := getZoneId domain in
  let* data := cloudflareRequest (DeleteZone zoneId) in
  ret data.

(** [pauseZone] (lines 448-467). *)
Definition pauseZone (domain : string) (pause : bool) : M R (Response.t Json) :=
  try_catch
    (let* zoneId := getZoneId domain in
     let* data := cloudflareRequest (PatchZone zoneId pause) in
     if Response.success data then ret data
     else throw (Error ("Failed to " +:+ (if pause then "pause" else "resume")
                          +:+ " zone")))
    (λ error, throw error).

(** The body of the loop of [pauseManyZones] (lines 472-479). *)
Definition pauseManyZones_body (pause : bool) (results : list OperationResult.t)
    (domain : string) : M R (list OperationResult.t) :=
  try_catch
    (let* result := pauseZone domain pause in
     ret (results ++
            [OperationResult.mk (Response.success result) domain None None]))
    (λ error,
       ret (results ++
              [OperationResult.mk false domain None (Some (message error))])).

(** [pauseManyZones] (lines 469-482). *)
Definition pauseManyZones (domains : list string) (pause : bool)
  : M R (list OperationResult.t) :=
  for_of domains [] (pauseManyZones_body pause).

(** The body of the loop of [deleteManyZones] (lines 487-492): a failure
    is logged and leaves [results] as it is. *)
Definition deleteManyZones_body (results : list (Response.t Json))
    (domain : string) : M R (list (Response.t Json)) :=
  try_catch
    (let* result := deleteZone domain in ret (results ++ [result]))
    (λ error, ret results).

(** The loop of [deleteManyZones] (lines 485-493): the local [results]. *)
Definition deleteManyZones_results (domains : list string)
  : M R (list (Response.t Json)) :=
  for_of domains [] deleteManyZones_body.

(** [deleteManyZones] (lines 484-494): the function ends after the loop. *)
Definition deleteManyZones (domains : list string)
  : M R (JsValue (list (Response.t Json))) :=
  let* _ := deleteManyZones_results domains in
  ret undefined.

(** [getPageRules] (lines 571-591). *)
Definition getPageRules (zoneId : string) : M R (list PageRule.t) :=
  try_catch
    (let* data := cloudflareRequest (ListPageRules zoneId) in
     if Response.success data then ret (Response.result data)
     else throw (Error "Failed to fetch page rules"))
    (λ error, throw error).

(** Line 601: the test of [pageRules.find]. *)
Definition isForwardingRule (rule : PageRule.t) : bool :=
  existsb (λ action, String.eqb (Action.id action) "forwarding_url")
          (PageRule.actions rule).

(** Lines 610-635. *)
Definition newForwardingRule (domain newRedirectUrl : string) : NewRule.t :=
  let formattedDomain :=
    if Js.endsWith domain "/" then Js.dropLast domain else domain in
  NewRule.mk
    [Target.mk "url" "matches" (formattedDomain +:+ "/*")]
    [Action.mk "forwarding_url" newRedirectUrl 301]
    1 "active".

(** [changeDomainRedirect] (lines 593-655).  [zoneId] is declared in the
    [try] block, so the handler, which reads it first (line 650), throws a
    [ReferenceError] in the place of the error it caught. *)
Definition changeDomainRedirect (domain newRedirectUrl : string) : M R unit :=
  try_catch
    (let* zoneId := getZoneId domain in
     let* pageRules := getPageRules zoneId in
     let forwardingRule := List.find isForwardingRule pageRules in
     let* _ :=
       match forwardingRule with
       | Some rule =>
           let* _ := cloudflareRequest (DeletePageRule zoneId (PageRule.id rule)) in
           ret tt
       | None => ret tt
       end in
     let* data :=
       cloudflareRequest
         (CreatePageRule zoneId (newForwardingRule domain newRedirectUrl)) in
     if negb (Response.success data)
     then throw (Error "Failed to change domain redirect")
     else ret tt)
    (λ error, throw (ReferenceError "zoneId is not defined")).

(** The body of the loop of [changeManyDomainRedirects] (lines 659-664). *)
Definition changeManyDomainRedirects_body (newRedirectUrl : string) (_ : unit)
    (domain : string) : M R unit :=
  try_catch (changeDomainRedirect domain newRedirectUrl) (λ error, ret tt).

(** [changeManyDomainRedirects] (lines 657-666). *)
Definition changeManyDomainRedirects (domainNames : list string)
    (newRedirectUrl : string) : M R unit :=
  for_of domainNames tt (changeManyDomainRedirects_body newRedirectUrl).

End Orchestration.

(** ** Vocabulary of the properties *)

(** What the mapping builder is to make of a line, for a given way of
    cutting the trimmed line into fields. *)
Inductive LineKind : Type :=
| Ignored
| Malformed
| Entry (domain value : string).

Definition classify (fields : string → list string) (line : string) : LineKind :=
  if Js.is_empty (Js.trim line) || Js.startsWith (Js.trim line) "#" then Ignored
  else match fields (Js.trim line) with
       | domain :: value :: _ => Entry domain value
       | _ => Malformed
       end.

(** The apex TXT records that the lines give to [domain], in file order. *)
Definition entriesFor (fields : string → list string) (domain : string)
    (lines : list string) : list DNSRecord.t :=
  omap (λ line,
          match classify fields line with
          | Entry d v => if decide (d = domain) then Some (txtRecord v) else None
          | _ => None
          end) lines.

(** The reports of the lines with fewer than two fields, in file order. *)
Definition malformedReports (fields : string → list string)
    (lines : list string) : list string :=
  omap (λ line,
          match classify fields line with
          | Malformed => Some (invalidLineReport line)
          | _ => None
          end) lines.

(** No line gives a record to a key that objects inherit. *)
Definition ownKeysOnly (fields : string → list string) (lines : list string)
  : bool :=
  forallb (λ line,
             match classify fields line with
             | Entry domain _ => negb (isInherited domain)
             | _ => true
             end) lines.

(** What a key holds after more records were pushed on it. *)
Definition pushed (old : option (list DNSRecord.t)) (new : list DNSRecord.t)
  : option (list DNSRecord.t) :=
  match new with
  | [] => old
  | _ => Some (default [] old ++ new)
  end.

(** A key is in the map exactly when some line gave it a record. *)
Definition keyOf (records : list DNSRecord.t) : option (list DNSRecord.t) :=
  match records with [] => None | _ => Some records end.

(** Fields cut on runs of white space, the reading of the specification. *)
Definition whitespaceFields (trimmed : string) : list string :=
  Js.split_runs Js.is_ws trimmed.

(** The mapping builder reads [text] as the specification of its format
    says, with the fields cut by [fields]. *)
Definition buildsMapping (fields : string → list string)
    (readFile : string → string + string) (filePath text : string) : Prop :=
  ∃ recordsMap,
    createDomainRecordsMapFromTextFile readFile filePath
    = (Some recordsMap, malformedReports fields (Js.split "010"%char text))
    ∧ ∀ domain,
        recordsMap !! domain
        = keyOf (entriesFor fields domain (Js.split "010"%char text)).

(** The names that the exclusion files of a directory list. *)
Definition excludedNames (files : list (string * list DomainEntry.t))
  : list string :=
  concat (map (λ file,
                 if isExclusionFile file.1 then map DomainEntry.name file.2
                 else [])
              files).

(** A listing of [length listing] zones served in pages of [P] items. *)
Definition servedPage (listing : list Zone.t) (P page : Z) : ZonesPage.t :=
  ZonesPage.mk
    (take (Z.to_nat P) (drop (Z.to_nat ((page - 1) * P)) listing))
    (ResultInfo.mk page P (Z.of_nat (length listing))).

(** [ceil (N / P)] *)
Definition ceilDiv (N P : Z) : Z := ((N + P - 1) / P)%Z.

(** The pages the loop asks for: the first one, then as many as the count
    of the listing calls for. *)
Definition pagesNeeded (listing : list Zone.t) (P : Z) : Z :=
  Z.max 1 (ceilDiv (Z.of_nat (length listing)) P).

(** The requests for the pages [from], [from + 1], ... *)
Fixpoint pageRequests (contains : option string) (from : Z) (count : nat)
  : list Call :=
  match count with
  | O => []
  | S count' =>
      call (ListZones 50 from contains) :: pageRequests contains (from + 1)%Z count'
  end.

(** The host normalisation of lines 258-260 as a function of the record. *)
Definition normalised (domain : string) (record : DNSRecord.t) : DNSRecord.t :=
  if isApexHost (DNSRecord.host record) then DNSRecord.set_host domain record
  else record.

(** What [insertDNSRecord] makes of an answer to its request (lines
    237-243): the answer, or the error it throws. *)
Definition answered (data : Response.t Json) : Exn + Response.t Json :=
  if Response.success data then
    if String.eqb (Response.result data) "null"
    then inl (TypeError "Cannot read properties of null (reading 'name')")
    else inr data
  else inl (Error ("Failed to create DNS record: " +:+ Response.result data)).

(** The OperationResult of a record, by the answer to its creation
    request (lines 238-243 and 264-284). *)
Definition recordResult (domain : string) (record : DNSRecord.t)
    (answer : string + Response.t Json) : OperationResult.t :=
  match answer with
  | inr data =>
      match answered data with
      | inr _ => OperationResult.mk true domain (Some (summaryOf record)) None
      | inl error =>
          OperationResult.mk false domain (Some (summaryOf record))
            (Some (message error))
      end
  | inl errorDetails =>
      OperationResult.mk false domain (Some (summaryOf record)) (Some errorDetails)
  end.

(** The OperationResult of a domain whose processing was given up. *)
Definition domainFailure (domain : string) (error : Exn) : OperationResult.t :=
  OperationResult.mk false domain None (Some (message error)).

(** The creation request that the record behind a reference is submitted
    with, for a domain and its zone. *)
Definition submitted (domain zoneId : string) (objects : list DNSRecord.t)
    (l : nat) : option Call :=
  (λ record, call (CreateDnsRecord zoneId (formatRecord (normalised domain record))))
    <$> objects !! l.

(** The record objects after every referenced one was normalised. *)
Definition normalisedAll (domain : string) (records : list nat)
    (objects : list DNSRecord.t) : list DNSRecord.t :=
  foldl (λ objects l, alter (normalised domain) l objects) objects records.

(** The references of a record list all point to record objects. *)
Definition validRefs {R} (records : list nat) (st : State R) : Prop :=
  Forall (λ l, l < length (heap st)) records.


(** ** A small remote account, to run the operations on *)

Module Demo.

Record Account : Type := mkAccount {
  zones : list string;           (* the names of the zones of the account *)
  unreachable : list string;     (* names whose lookup fails in transport *)
  listing : list Zone.t;         (* what the zone listing serves *)
  dnsRecords : list RemoteDNSRecord.t;
  pageRules : list PageRule.t;
  ruleQuota : nat;               (* page rules the zone may still create *)
  created : list (string * FormattedRecord.t)
}.

Definition zoneOf (domain : string) : Zone.t :=
  Zone.mk ("zone:" +:+ domain) domain "2025-01-01T00:00:00Z" "active".

Definition inList (x : string) (l : list string) : bool :=
  existsb (String.eqb x) l.

Definition serve (T : Type) (request : Request T) (a : Account)
  : (string + T) * Account :=
  match request in Request T return (string + T) * Account with
  | ListZones per_page page _ =>
      (inr (servedPage (listing a) per_page page), a)
  | ZoneByName domain =>
      if inList domain (unreachable a) then (inl "connect ETIMEDOUT", a)
      else if inList domain (zones a)
           then (inr (Response.mk true [zoneOf domain]), a)
           else (inr (Response.mk true []), a)
  | CreateDnsRecord zoneId body =>
      (inr (Response.mk true "{}"),
       mkAccount (zones a) (unreachable a) (listing a) (dnsRecords a)
                 (pageRules a) (ruleQuota a) (created a ++ [(zoneId, body)]))
  | ListDnsRecords _ _ => (inr (Response.mk true (dnsRecords a)), a)
  | DeleteZone _ => (inr (Response.mk true "{}"), a)
  | PatchZone _ _ => (inr (Response.mk true "{}"), a)
  | ListPageRules _ => (inr (Response.mk true (pageRules a)), a)
  | DeletePageRule _ ruleId =>
      (inr (Response.mk true "{}"),
       mkAccount (zones a) (unreachable a) (listing a) (dnsRecords a)
                 (List.filter (λ rule, negb (String.eqb (PageRule.id rule) ruleId))
                              (pageRules a))
                 (ruleQuota a) (created a))
  | CreatePageRule _ body =>
      match ruleQuota a with
      | O => (inr (Response.mk false "null"), a)
      | S quota =>
          (inr (Response.mk true "{}"),
           mkAccount (zones a) (unreachable a) (listing a) (dnsRecords a)
                     (pageRules a ++
                        [PageRule.mk "new" (NewRule.targets body)
                           (NewRule.actions body) (NewRule.priority body)
                           (NewRule.status body)])
                     quota (created a))
      end
  end.

#[global] Instance account_api : Api Account := serve.

(** Two zones, one forwarding rule, no quota left for page rules. *)
Definition oldRule : PageRule.t :=
  PageRule.mk "rule-1"
    [Target.mk "url" "matches" "a.com/*"]
    [Action.mk "forwarding_url" "https://old.example" 301]
    1 "active".

Definition account : Account :=
  mkAccount ["a.com"; "b.com"] ["down.example"] []
    [RemoteDNSRecord.mk "r1" "TXT" "mail._domainkey.a.com" "v=DKIM1; k=rsa";
     RemoteDNSRecord.mk "r2" "TXT" "a.com" "v=spf1 include:_spf.google.com ~all"]
    [oldRule] 0 [].

(** The record objects of the README example: an apex MX record, a
    [_dmarc] record and an apex TXT record. *)
Definition gwsRecords : list DNSRecord.t :=
  [DNSRecord.mk "MX" EmptyString "smtp.google.com" None (Some 1%Z) None;
   DNSRecord.mk "TXT" "_dmarc" "v=DMARC1; p=none" None None None;
   DNSRecord.mk "TXT" EmptyString "v=spf1 include:_spf.google.com ~all" None None None].

Definition start : State Account := mkState account gwsRecords.

(** An account whose zone listing has 120 zones: three pages of 50. *)
Definition manyZones : list Zone.t :=
  map (λ i, zoneOf ("zone-" +:+ pretty i +:+ ".example")) (seq 0 120).

Definition largeAccount : Account :=
  mkAccount [] [] manyZones [] [] 0 [].

Definition largeStart : State Account := mkState largeAccount [].

(** A file of five lines: a comment, two records for one domain, a line
    with one field, a blank line. *)
Definition domainsTxt : string :=
  "# verification" +:+ Js.LF +:+
  "a.com" +:+ Js.TAB +:+ "google-site-verification=abc" +:+ Js.LF +:+
  "broken-line" +:+ Js.LF +:+
  "a.com" +:+ Js.TAB +:+ Js.TAB +:+ "v=spf1 include:_spf.google.com ~all" +:+ Js.LF.

(** The directory of the set-difference example: the full snapshot, two
    exclusion files (the second also lists a name the snapshot does not
    have) and a file that is not a [.txt] file. *)
Definition snapshot : list DomainEntry.t :=
  [DomainEntry.mk "1" "a.com"; DomainEntry.mk "2" "b.com";
   DomainEntry.mk "3" "c.com"].

Definition domainsDir : list (string * list DomainEntry.t) :=
  [("all.txt", snapshot);
   ("first.txt", [DomainEntry.mk "1" "a.com"]);
   ("second.txt", [DomainEntry.mk "3" "c.com"; DomainEntry.mk "9" "z.com"]);
   ("notes.md", [DomainEntry.mk "2" "b.com"])].

End Demo.

(** * Further definitions *)

(** ** Vocabulary of the further properties *)

(** No code unit of [s] is in the class [p]. *)
Fixpoint noChar (p : ascii → bool) (s : string) : bool :=
  match s with
  | EmptyString => true
  | String c s' => negb (p c) && noChar p s'
  end.

(** Every code unit of [s] is in the class [p]. *)
Fixpoint allChars (p : ascii → bool) (s : string) : bool :=
  match s with
  | EmptyString => true
  | String c s' => p c && allChars p s'
  end.

(** The last code unit of [s] is not in the class [p] ([s] may be empty). *)
Fixpoint endsOutside (p : ascii → bool) (s : string) : bool :=
  match s with
  | EmptyString => true
  | String c EmptyString => negb (p c)
  | String _ s' => endsOutside p s'
  end.

(** What the mapping builder makes of a record: an apex TXT record with
    the default TTL and a value that is not empty and has no tab. *)
Definition isVerificationRecord (record : DNSRecord.t) : Prop :=
  DNSRecord.type record = "TXT"
  ∧ DNSRecord.host record = EmptyString
  ∧ DNSRecord.ttl record = Some 3600%Z
  ∧ DNSRecord.priority record = None
  ∧ DNSRecord.proxied record = None
  ∧ DNSRecord.value record ≠ EmptyString
  ∧ noChar Js.is_tab (DNSRecord.value record) = true.

(** The domain of a zone lookup request. *)
Definition lookupOf (c : Call) : option string :=
  match c with
  | call request =>
      match request with
      | ZoneByName domain => Some domain
      | _ => None
      end
  end.

(** A request of the record loop of [insertDNSRecords] for [domain]: the
    creation, in some zone, of a record object of the list as it was
    before the call, normalised for the domain. *)
Definition isSubmission (domain : string) (records : list nat)
    (objects : list DNSRecord.t) (c : Call) : Prop :=
  ∃ zoneId l record,
    l ∈ records ∧ objects !! l = Some record
    ∧ c = call (CreateDnsRecord zoneId (formatRecord (normalised domain record))).

(** What a call for [domain] may do to the record objects: normalise the
    referenced ones, and nothing else. *)
Definition normalisedSome (domain : string) (records : list nat)
    (before after : list DNSRecord.t) : Prop :=
  ∀ l, after !! l = before !! l
       ∨ l ∈ records ∧ after !! l = normalised domain <$> before !! l.

(** What a batch may do to the record objects: an object is left as it
    is, or it denoted the apex and now has, as host, the name of a domain
    whose list refers to it. *)
Definition hostsAssigned (entries : list (string * list nat))
    (before after : list DNSRecord.t) : Prop :=
  length after = length before
  ∧ ∀ l record,
      before !! l = Some record →
      after !! l = Some record
      ∨ isApexHost (DNSRecord.host record) = true
        ∧ ∃ domain records,
            (domain, records) ∈ entries ∧ l ∈ records
            ∧ after !! l = Some (DNSRecord.set_host domain record).

(** A request of a batch: the lookup of one of its domains, or the
    creation of one of the record objects of a domain, as [objects] has
    it, normalised for that domain. *)
Definition isBatchRequest (entries : list (string * list nat))
    (objects : list DNSRecord.t) (c : Call) : Prop :=
  is_Some (lookupOf c)
  ∨ ∃ domain records, (domain, records) ∈ entries
                      ∧ isSubmission domain records objects c.

(** The shapes of the request sequence of [changeDomainRedirect]. *)
Definition redirectRequests (domain newRedirectUrl : string) (cs : list Call)
  : Prop :=
  cs = [call (ZoneByName domain)]
  ∨ ∃ zoneId,
      let list := call (ListPageRules zoneId) in
      let create :=
        call (CreatePageRule zoneId (newForwardingRule domain newRedirectUrl)) in
      cs = [call (ZoneByName domain); list]
      ∨ cs = [call (ZoneByName domain); list; create]
      ∨ ∃ ruleId,
          cs = [call (ZoneByName domain); list; call (DeletePageRule zoneId ruleId)]
          ∨ cs = [call (ZoneByName domain); list;
                  call (DeletePageRule zoneId ruleId); create].

(** The answer tells the page loop of [getDomains] to go on (line 84),
    with the product and the comparison taken on the integers. *)
Definition hasMorePages (data : ZonesPage.t) : bool :=
  negb (ResultInfo.page (ZonesPage.result_info data)
        * ResultInfo.per_page (ZonesPage.result_info data)
        >=? ResultInfo.total_count (ZonesPage.result_info data))%Z.

(** The counts of the answer are numbers that JavaScript holds exactly,
    and so is the product of line 84: none is beyond 2^53 in absolute
    value.  For such counts the product and the comparison of the
    floating-point numbers of JavaScript are those of the integers. *)
Definition safeCounts (data : ZonesPage.t) : bool :=
  let info := ZonesPage.result_info data in
  forallb (λ n, (Z.abs n <=? 2 ^ 53)%Z)
          [ResultInfo.page info; ResultInfo.per_page info;
           ResultInfo.total_count info;
           (ResultInfo.page info * ResultInfo.per_page info)%Z].

(** ** porkbun.ts *)

Module Porkbun.

Definition API_BASE_URL : string := "https://api-ipv4.porkbun.com/api/json/v3".

(** [PorkbunAuth] *)
Module Auth.
Record t := mk { secretapikey : string; apikey : string }.
End Auth.

(** [DNSRecord] (lines 26-32) *)
Module DNSRecord.
Record t := mk {
  name : string;
  type : string;
  content : string;
  ttl : option string;
  prio : option string
}.
End DNSRecord.

(** [{ secretapikey, apikey, ...record }] (lines 83-87) *)
Module RequestBody.
Record t := mk { secretapikey : string; apikey : string; record : DNSRecord.t }.
End RequestBody.

(** [{ status, id?, message? }] *)
Module Reply.
Record t := mk { status : string; id : option string; message : option string }.
End Reply.

(** The [data] of the response of a failed request, as
    [formatErrorResponse] tells its values apart. *)
Inductive ResponseData : Type :=
| NoData                                   (* undefined, null, 0, false *)
| Text (text : string)
| Object (json : option string) (shown : string)
    (* an object: what JSON.stringify gives, if it does not throw, and
       what String gives *)
| Scalar.                                  (* any other truthy value *)

Module ErrorResponse.
Record t := mk { status : Z; data : ResponseData }.
End ErrorResponse.

(** What [axios.post] throws. *)
Inductive Thrown : Type :=
| AxiosError (response : option ErrorResponse.t) (message : string)
| OtherError (message : string)            (* an Error that is not of axios *)
| NotAnError (shown : string).             (* any other value, by String *)

(** Lines 62-69: the message of the error, when it has one, and the
    generic line. *)
Definition requestError (message : string) : string :=
  if Js.is_empty message then "Error: " +:+ message
  else "Request Error: " +:+ message.

(** [formatErrorResponse] (lines 37-73). *)
Definition formatErrorResponse (error : Thrown) : string :=
  match error with
  | AxiosError (Some response) message =>
      let status := ErrorResponse.status response in
      if (status =? 403)%Z then
        "Authentication failed (403 Forbidden). Please check your API credentials."
      else if (status =? 429)%Z then
        "Rate limit exceeded (429 Too Many Requests). Please wait and try again later."
      else
        match ErrorResponse.data response with
        | Text text =>
            if Js.is_empty text then requestError message
            else "API Error (" +:+ pretty status +:+ "): "
                 +:+ String.substring 0 200 text
        | Object (Some json) _ => "API Error (" +:+ pretty status +:+ "): " +:+ json
        | Object None shown => "API Error (" +:+ pretty status +:+ "): " +:+ shown
        | Scalar => "API Error (" +:+ pretty status +:+ ")"
        | NoData => requestError message
        end
  | AxiosError None message => requestError message
  | OtherError message => "Error: " +:+ message
  | NotAnError shown => "Error: " +:+ shown
  end.

(** The lines written on the console. *)
Inductive Console : Type :=
| Setting (recordType domain content : string)          (* line 162 *)
| Succeeded (id : option string)                        (* line 166 *)
| Failed (domain : string) (message : option string)    (* line 168 *)
| InvalidLine (line : string)                           (* line 135 *)
| FileError (message : string).                         (* line 141 *)

(** What the program does to the world, in order. *)
Inductive Event : Type :=
| Post (endpoint : string) (body : RequestBody.t)
| Sleep (ms : Z)
| Out (line : Console).

(** The registrar: the answer of [axios.post], or what it throws, and the
    state the request leaves. *)
Class Server (R : Type) : Type :=
  post : string → RequestBody.t → R → (Thrown + Reply.t) * R.

Section Driver.
Context {R : Type} `{Server R}.

(** [createDNSRecord] (lines 75-97): every failure becomes a reply. *)
Definition createDNSRecord (domain : string) (record : DNSRecord.t)
    (auth : Auth.t) (r : R) : Reply.t * R * list Event :=
  let endpoint := API_BASE_URL +:+ "/dns/create/" +:+ domain in
  let requestBody :=
    RequestBody.mk (Auth.secretapikey auth) (Auth.apikey auth) record in
  let '(answer, r') := post endpoint requestBody r in
  (match answer with
   | inr data => data
   | inl error => Reply.mk "ERROR" None (Some (formatErrorResponse error))
   end, r', [Post endpoint requestBody]).

(** [processRecord] (lines 153-173). *)
Definition processRecord (domain content : string) (auth : Auth.t)
    (recordType : string) (r : R) : R * list Event :=
  let record := DNSRecord.mk EmptyString recordType content (Some "600") None in
  let '(result, r', sent) := createDNSRecord domain record auth r in
  (r',
   [Out (Setting recordType domain content)] ++ sent
   ++ [Out (if String.eqb (Reply.status result) "SUCCESS"
            then Succeeded (Reply.id result)
            else Failed domain (Reply.message result));
       Sleep 1000]).

(** A loop of steps that return nothing. *)
Fixpoint each {A} (step : A → R → R * list Event) (xs : list A) (r : R)
  : R * list Event :=
  match xs with
  | [] => (r, [])
  | x :: xs' =>
      let '(r1, events1) := step x r in
      let '(r2, events2) := each step xs' r1 in
      (r2, events1 ++ events2)
  end.

(** [processDomainList] (lines 146-150). *)
Definition processDomainList (domains : list (string * string)) (auth : Auth.t)
    (recordType : string) : R → R * list Event :=
  each (λ pair, processRecord pair.1 pair.2 auth recordType) domains.

(** One turn of the line loop of [processDomainFile] (lines 129-139). *)
Definition processDomainFile_line (auth : Auth.t) (recordType : string)
    (line : string) (r : R) : R * list Event :=
  if Js.is_empty (Js.trim line) || Js.startsWith (Js.trim line) "#" then (r, [])
  else
    let parts := Js.split_runs Js.is_ws line in
    let domain := part parts 0 in
    let content := part parts 1 in
    if Js.is_empty domain || Js.is_empty content
    then (r, [Out (InvalidLine line)])
    else processRecord domain content auth recordType r.

(** [processDomainFile] (lines 122-143); [readFile] is the file system,
    as for the mapping builder. *)
Definition processDomainFile (readFile : string → string + string)
    (filepath : string) (auth : Auth.t) (recordType : string) (r : R)
  : R * list Event :=
  match readFile filepath with
  | inr text =>
      each (processDomainFile_line auth recordType) (Js.split "010"%char text) r
  | inl message => (r, [Out (FileError message)])
  end.

End Driver.

(** The requests and the pauses among the events. *)
Definition isEffect (e : Event) : bool :=
  match e with Out _ => false | _ => true end.

Definition effects (events : list Event) : list Event :=
  List.filter isEffect events.

(** The request that creates the verification record of a pair, and the
    pause after it. *)
Definition paced (auth : Auth.t) (recordType : string)
    (pairs : list (string * string)) : list Event :=
  concat
    (map (λ pair,
            [Post (API_BASE_URL +:+ "/dns/create/" +:+ pair.1)
                  (RequestBody.mk (Auth.secretapikey auth) (Auth.apikey auth)
                     (DNSRecord.mk EmptyString recordType pair.2 (Some "600") None));
             Sleep 1000])
         pairs).

(** The request that sets the apex record of [recordType] of a domain,
    with a domain and a content that are not empty and hold no white
    space; any event that is not a request. *)
Definition isVerificationRequest (auth : Auth.t) (recordType : string)
    (e : Event) : Prop :=
  match e with
  | Post endpoint body =>
      ∃ domain content,
        endpoint = API_BASE_URL +:+ "/dns/create/" +:+ domain
        ∧ body = RequestBody.mk (Auth.secretapikey auth) (Auth.apikey auth)
                   (DNSRecord.mk EmptyString recordType content (Some "600") None)
        ∧ domain ≠ EmptyString ∧ noChar Js.is_ws domain = true
        ∧ content ≠ EmptyString ∧ noChar Js.is_ws content = true
  | _ => True
  end.

(** The line begins with a white space character. *)
Definition isIndented (line : string) : bool :=
  match line with
  | String c _ => Js.is_ws c
  | EmptyString => false
  end.

(** The line is neither blank nor a comment (line 131). *)
Definition isRead (line : string) : bool :=
  negb (Js.is_empty (Js.trim line) || Js.startsWith (Js.trim line) "#").

(** A registrar that holds some domains and refuses the others. *)
Module Sample.

Record Registrar : Type := mk { owned : list string; created : list string }.

Definition serve (endpoint : string) (body : RequestBody.t) (r : Registrar)
  : (Thrown + Reply.t) * Registrar :=
  if existsb (λ domain, Js.endsWith endpoint ("/" +:+ domain)) (owned r)
  then (inr (Reply.mk "SUCCESS" (Some "106926659") None),
        mk (owned r) (created r ++ [DNSRecord.content (RequestBody.record body)]))
  else (inl (AxiosError
               (Some (ErrorResponse.mk 400
                        (Object (Some "{}") "[object Object]")))
               "Request failed with status code 400"), r).

#[global] Instance registrar_server : Server Registrar := serve.

Definition registrar : Registrar := mk ["a.com"; "c.com"] [].

Definition auth : Auth.t := Auth.mk "sk1_secret" "pk1_key".

(** Four lines: a record, an indented record, a record of a domain of
    another account whose value holds a space, a line with one field. *)
Definition domainsTxt : string :=
  "a.com google-site-verification=abc" +:+ Js.LF +:+
  "  c.com google-site-verification=def" +:+ Js.LF +:+
  "b.com" +:+ Js.TAB +:+ "v=spf1 -all" +:+ Js.LF +:+
  "broken-line".

End Sample.

End Porkbun.

(** ** The script of the file: the mapping builder, then the provisioner *)

(** One turn of the line loop of the mapping builder (lines 388-419) with
    the record objects it creates: every [push] of line 418 is given a
    new object (lines 410-415), which is put at the end of [objects], and
    the lists of the map hold references.  Otherwise as [mappingLine]. *)
Definition mappingLine_objects (fields : string → list string)
    (acc : gmap string (list nat) * list DNSRecord.t * list string)
    (line : string)
  : string + gmap string (list nat) * list DNSRecord.t * list string :=
  let '(recordsMap, objects, reports) := acc in
  if Js.is_empty (Js.trim line) || Js.startsWith (Js.trim line) "#" then inr acc
  else
    let parts := fields (Js.trim line) in
    if Nat.ltb (length parts) 2 then
      inr (recordsMap, objects, reports ++ [invalidLineReport line])
    else
      let domain := part parts 0 in
      let value := part parts 1 in
      if isInherited domain then inl "recordsMap[domain].push is not a function"
      else
        let recordsMap :=
          match recordsMap !! domain with
          | None => <[domain := []]> recordsMap
          | Some _ => recordsMap
          end in
        inr (<[domain := default [] (recordsMap !! domain) ++ [length objects]]>
               recordsMap,
             objects ++ [txtRecord value], reports).

Fixpoint mappingLines_objects (fields : string → list string)
    (lines : list string)
    (acc : gmap string (list nat) * list DNSRecord.t * list string)
  : option (gmap string (list nat)) * list DNSRecord.t :=
  match lines with
  | [] => (Some acc.1.1, acc.1.2)
  | line :: lines' =>
      match mappingLine_objects fields acc line with
      | inl message => (None, acc.1.2)
      | inr acc' => mappingLines_objects fields lines' acc'
      end
  end.

(** [createDomainRecordsMapFromTextFile] with the record objects: the
    returned map ([None] is [null]) and the objects after the call. *)
Definition createDomainRecordsMap_objects
    (readFile : string → string + string) (filePath : string)
    (objects : list DNSRecord.t)
  : option (gmap string (list nat)) * list DNSRecord.t :=
  match readFile filePath with
  | inr content =>
      mappingLines_objects tabFields (Js.split "010"%char content) (∅, objects, [])
  | inl message => (None, objects)
  end.

(** Lines 754-755 of the script: the map of the records file is handed
    to [createDifferentDNSRecordsForManyDomains].  [objectKeys] is
    [Object.keys] on the map; [Object.keys(null)] throws. *)
Definition provisionFromFile {R} `{Api R}
    (readFile : string → string + string)
    (objectKeys : gmap string (list nat) → list string)
  : M R (list OperationResult.t) :=
  λ st,
    match createDomainRecordsMap_objects readFile "domains.txt" (heap st) with
    | (Some recordsMap, objects) =>
        createDifferentDNSRecordsForManyDomains
          (map (λ domain, (domain, default [] (recordsMap !! domain)))
               (objectKeys recordsMap))
          (mkState (remote st) objects)
    | (None, objects) =>
        throw (TypeError "Cannot convert undefined or null to object")
              (mkState (remote st) objects)
    end.

(** [Object.keys] lists own keys of the map, each once. *)
Definition listsOwnKeys (objectKeys : gmap string (list nat) → list string)
  : Prop :=
  ∀ recordsMap,
    NoDup (objectKeys recordsMap)
    ∧ ∀ domain, domain ∈ objectKeys recordsMap → is_Some (recordsMap !! domain).

(** Some line of the text gives the value to the domain. *)
Definition givenBy (text domain value : string) : Prop :=
  ∃ line, line ∈ Js.split "010"%char text
          ∧ classify tabFields line = Entry domain value.

(** The lists of the map refer to record objects of their own: no object
    is referred to twice, and the object behind a reference of the list
    of a domain is the record of a value that the text gives to that
    domain. *)
Definition ownsObjects (text : string) (recordsMap : gmap string (list nat))
    (objects : list DNSRecord.t) : Prop :=
  (∀ domain ls,
     recordsMap !! domain = Some ls →
     NoDup ls
     ∧ Forall (λ l, ∃ value, givenBy text domain value
                             ∧ objects !! l = Some (txtRecord value)) ls)
  ∧ (∀ d1 d2 ls1 ls2 l,
       recordsMap !! d1 = Some ls1 → recordsMap !! d2 = Some ls2 →
       l ∈ ls1 → l ∈ ls2 → d1 = d2).

(** ** Further samples *)

Module Samples.

(** Two records, and between them a line whose first field is a property
    name that every object inherits. *)
Definition inheritedKeyTxt : string :=
  "a.com" +:+ Js.TAB +:+ "google-site-verification=abc" +:+ Js.LF +:+
  "toString" +:+ Js.TAB +:+ "google-site-verification=def" +:+ Js.LF +:+
  "b.com" +:+ Js.TAB +:+ "google-site-verification=ghi".

(** The records file of [Demo.domainsTxt] as an editor of another system
    leaves it: indented, with a carriage return before every line feed. *)
Definition indentedTxt : string :=
  "# verification" +:+ String "013"%char Js.LF +:+
  "  a.com" +:+ Js.TAB +:+ "google-site-verification=abc" +:+ String "013"%char Js.LF +:+
  "broken-line " +:+ String "013"%char Js.LF +:+
  Js.TAB +:+ "a.com" +:+ Js.TAB +:+ Js.TAB +:+ "v=spf1 include:_spf.google.com ~all"
  +:+ String "013"%char Js.LF.

(** A records file for two domains. *)
Definition twoDomainsTxt : string :=
  "a.com" +:+ Js.TAB +:+ "google-site-verification=abc" +:+ Js.LF +:+
  "b.com" +:+ Js.TAB +:+ "google-site-verification=def".


(** An account whose zone has a page rule, which forwards nothing, and
    the quota for one more. *)
Definition cacheRule : PageRule.t :=
  PageRule.mk "rule-7"
    [Target.mk "url" "matches" "a.com/static/*"]
    [Action.mk "cache_level" "cache_everything" 0]
    2 "active".

Definition plainAccount : Demo.Account :=
  Demo.mkAccount ["a.com"] [] [] [] [cacheRule] 1 [].

Definition plainStart : State Demo.Account := mkState plainAccount [].

(** An account whose zone forwards two paths, and has no quota for a new
    page rule. *)
Definition blogRule : PageRule.t :=
  PageRule.mk "rule-2"
    [Target.mk "url" "matches" "a.com/blog/*"]
    [Action.mk "forwarding_url" "https://blog.example" 302]
    2 "active".

Definition twoRulesStart : State Demo.Account :=
  mkState (Demo.mkAccount ["a.com"] [] [] [] [Demo.oldRule; blogRule] 0 []) [].

End Samples.

(** A remote that answers the zone listing by a script, page by page, and
    nothing else. *)
Module Scripted.

Record Remote : Type := mk { zonesPage : Z → string + ZonesPage.t }.

Definition serve (T : Type) (request : Request T) (r : Remote)
  : (string + T) * Remote :=
  match request in Request T return (string + T) * Remote with
  | ListZones _ page _ => (zonesPage r page, r)
  | ZoneByName _ => (inl "not scripted", r)
  | CreateDnsRecord _ _ => (inl "not scripted", r)
  | ListDnsRecords _ _ => (inl "not scripted", r)
  | DeleteZone _ => (inl "not scripted", r)
  | PatchZone _ _ => (inl "not scripted", r)
  | ListPageRules _ => (inl "not scripted", r)
  | DeletePageRule _ _ => (inl "not scripted", r)
  | CreatePageRule _ _ => (inl "not scripted", r)
  end.

#[global] Instance scripted_api : Api Remote := serve.

(** A remote that does not look at the page it is asked for: every
    answer is the first page of a listing of 120 zones. *)
Definition stuck : Remote :=
  mk (λ _, inr (servedPage Demo.manyZones 50 1)).


End Scripted.

(** ** The operations of cloudflare.mjs that send further requests *)

(** [{ id, name }] of the [result] of a zone creation. *)
Module ZoneDetails.
Record t := mk { id : string; name : string }.
End ZoneDetails.

(** [{ success, id, name }] (line 507) *)
Module CreatedZone.
Record t := mk { success : bool; id : string; name : string }.
End CreatedZone.

(** The requests of [deleteDNSRecord] and [createZone]; the [result] of a
    zone creation may be [null]. *)
Inductive FurtherRequest : Type → Type :=
| DeleteDnsRecord (zoneId id : string)
    : FurtherRequest (Response.t Json)       (* DELETE zones/:id/dns_records/:id *)
| CreateZone (accountId name : string)
    : FurtherRequest (Response.t (option ZoneDetails.t)).    (* POST zones *)

Class FurtherApi (R : Type) : Type :=
  furtherApi : ∀ T : Type, FurtherRequest T → R → (string + T) * R.

(** A request that was sent, of the ones above or of these. *)
Inductive Sent : Type :=
| known (c : Call)
| further {T : Type} (request : FurtherRequest T).

(** The monad of the [async] functions that send them: as [M], with the
    requests of both kinds in its trace. *)
Record Run (R A : Type) : Type :=
  mkRun { result : Exn + A; after : State R; sent : list Sent }.
Arguments mkRun {R A}.
Arguments result {R A}.
Arguments after {R A}.
Arguments sent {R A}.

Definition Async (R A : Type) : Type := State R → Run R A.

Definition pure {R A} (a : A) : Async R A :=
  λ st, mkRun (inr a) st [].

Definition raise {R A} (error : Exn) : Async R A :=
  λ st, mkRun (inl error) st [].

Definition andThen {R A B} (m : Async R A) (k : A → Async R B) : Async R B :=
  λ st,
    let o := m st in
    match result o with
    | inl error => mkRun (inl error) (after o) (sent o)
    | inr a =>
        let o' := k a (after o) in
        mkRun (result o') (after o') (sent o ++ sent o')
    end.

(** [try { m } catch (error) { handler error }] *)
Definition attempt {R A} (m : Async R A) (handler : Exn → Async R A) : Async R A :=
  λ st,
    let o := m st in
    match result o with
    | inl error =>
        let o' := handler error (after o) in
        mkRun (result o') (after o') (sent o ++ sent o')
    | inr _ => o
    end.

Notation "'let+' x ':=' m 'in' k" := (andThen m (λ x, k))
  (at level 10, x binder, m at level 100, k at level 200).

Fixpoint forEach {R A S} (xs : list A) (s : S) (body : S → A → Async R S)
  : Async R S :=
  match xs with
  | [] => pure s
  | x :: xs' => let+ s' := body s x in forEach xs' s' body
  end.

(** [await] of a function of [M]. *)
Definition await {R A} (m : M R A) : Async R A :=
  λ st,
    let o := m st in
    mkRun (returned o) (final o) (map known (calls o)).

Section FurtherOperations.
Context {R : Type} `{Api R} `{FurtherApi R}.

(** [cloudflareRequest] (lines 53-65) on the further requests. *)
Definition furtherRequest {T} (request : FurtherRequest T) : Async R T :=
  λ st,
    let '(answer, remote') := furtherApi T request (remote st) in
    mkRun
      (match answer with
       | inl errorDetails => inl (Error errorDetails)
       | inr data => inr data
       end)
      (mkState remote' (heap st)) [further request].

(** [deleteDNSRecord] (lines 528-541). *)
Definition deleteDNSRecord (dnsRecord : RemoteDNSRecord.t) (zoneId : string)
  : Async R Json :=
  let+ data := furtherRequest (DeleteDnsRecord zoneId (RemoteDNSRecord.id dnsRecord)) in
  if Response.success data then pure (Response.result data)
  else raise (Error "Failed to delete DNS record").

(** [deleteFilteredDNSRecords] (lines 543-559). *)
Definition deleteFilteredDNSRecords (domain content type : string) : Async R unit :=
  let+ zoneId := await (getZoneId domain) in
  let+ dnsRecords := await (getFilteredDNSRecords zoneId content type) in
  forEach dnsRecords tt
    (λ _ dnsRecord,
       attempt (let+ _ := deleteDNSRecord dnsRecord zoneId in pure tt)
               (λ error, pure tt)).

(** [deleteManyFilteredDNSRecords] (lines 561-569). *)
Definition deleteManyFilteredDNSRecords (domains : list string)
    (content type : string) : Async R unit :=
  forEach domains tt
    (λ _ domain,
       attempt (deleteFilteredDNSRecords domain content type) (λ error, pure tt)).

(** [createZone] (lines 209-219); [ACCOUNT_ID] is read from the
    environment. *)
Definition createZone (ACCOUNT_ID domain : string)
  : Async R (Response.t (option ZoneDetails.t)) :=
  let+ data := furtherRequest (CreateZone ACCOUNT_ID domain) in
  pure (Response.mk (Response.success data) (Response.result data)).

(** Lines 505-508: the callback of [results.map], which takes the
    [result] apart. *)
Definition createdZone (created : Response.t (option ZoneDetails.t))
  : Exn + CreatedZone.t :=
  match Response.result created with
  | Some details =>
      inr (CreatedZone.mk (Response.success created)
             (ZoneDetails.id details) (ZoneDetails.name details))
  | None =>
      inl (TypeError
             "Cannot destructure property 'id' of 'result' as it is null.")
  end.

(** [results.map(callback)]: the first call that throws ends it. *)
Fixpoint mapOrThrow {A B} (callback : A → Exn + B) (xs : list A) : Exn + list B :=
  match xs with
  | [] => inr []
  | x :: xs' =>
      match callback x with
      | inl error => inl error
      | inr y =>
          match mapOrThrow callback xs' with
          | inl error => inl error
          | inr ys => inr (y :: ys)
          end
      end
  end.

(** [createManyZones] (lines 496-510). *)
Definition createManyZones (ACCOUNT_ID : string) (domains : list string)
  : Async R (list CreatedZone.t) :=
  let+ results :=
    forEach domains []
      (λ results domain,
         attempt (let+ created := createZone ACCOUNT_ID domain in
                  pure (results ++ [created]))
                 (λ error, pure results)) in
  match mapOrThrow createdZone results with
  | inr zones => pure zones
  | inl error => raise error
  end.

End FurtherOperations.

(** The deletion request of a record of a zone. *)
Definition deletionOf (zoneId : string) (record : RemoteDNSRecord.t) : Sent :=
  further (DeleteDnsRecord zoneId (RemoteDNSRecord.id record)).

(** The request is a deletion. *)
Definition isDeletion (s : Sent) : bool :=
  match s with
  | further request =>
      match request with
      | DeleteDnsRecord _ _ => true
      | _ => false
      end
  | known _ => false
  end.

(** The name of the zone that a request creates. *)
Definition creationOf (s : Sent) : option string :=
  match s with
  | further request =>
      match request with
      | CreateZone _ name => Some name
      | _ => None
      end
  | known _ => None
  end.

(** The domain of a zone lookup among the requests of both kinds. *)
Definition lookupSent (s : Sent) : option string :=
  match s with
  | known c => lookupOf c
  | further _ => None
  end.

(** What [createManyZones] keeps of the answer to a creation request. *)
Definition keptAnswer (answer : string + Response.t (option ZoneDetails.t))
  : option (Response.t (option ZoneDetails.t)) :=
  match answer with
  | inr data => Some (Response.mk (Response.success data) (Response.result data))
  | inl _ => None
  end.

(** The account of [Demo] on the further requests: it deletes every
    record it is asked to, and answers a zone creation by the name alone:
    with an error for the names it cannot reach, with no result for the
    names of its zones, with the new zone for any other name. *)
Module FurtherDemo.

Definition serve (T : Type) (request : FurtherRequest T) (a : Demo.Account)
  : (string + T) * Demo.Account :=
  match request in FurtherRequest T return (string + T) * Demo.Account with
  | DeleteDnsRecord _ id =>
      (inr (Response.mk true "{}"),
       Demo.mkAccount (Demo.zones a) (Demo.unreachable a) (Demo.listing a)
         (List.filter (λ record, negb (String.eqb (RemoteDNSRecord.id record) id))
                      (Demo.dnsRecords a))
         (Demo.pageRules a) (Demo.ruleQuota a) (Demo.created a))
  | CreateZone _ name =>
      if Demo.inList name (Demo.unreachable a)
      then (inl "Invalid zone name", a)
      else if Demo.inList name (Demo.zones a)
           then (inr (Response.mk false None), a)
           else (inr (Response.mk true
                        (Some (ZoneDetails.mk ("zone:" +:+ name) name))), a)
  end.

#[global] Instance account_further : FurtherApi Demo.Account := serve.

End FurtherDemo.

(** * Properties *)

(** ** The string primitives on examples *)

Example trim_example :
  Js.trim ("  a.com" +:+ Js.TAB +:+ "v  " +:+ Js.LF) = "a.com" +:+ Js.TAB +:+ "v".
Proof. reflexivity. Qed.

Example split_two_tabs :
  Js.split_runs Js.is_tab ("a" +:+ Js.TAB +:+ Js.TAB +:+ "b") = ["a"; "b"].
Proof. reflexivity. Qed.

Example split_leading_tab :
  Js.split_runs Js.is_tab (Js.TAB +:+ "a") = [EmptyString; "a"].
Proof. reflexivity. Qed.

Example split_lines_example :
  Js.split "010"%char ("a" +:+ Js.LF +:+ "b" +:+ Js.LF) = ["a"; "b"; EmptyString].
Proof. reflexivity. Qed.

Example includes_ex :
  Js.includes "mail._domainkey.example.com" "_domainkey" = true
  ∧ Js.includes "v=DKIM1; k=rsa" "dkim" = false
  ∧ Js.includes "anything" EmptyString = true.
Proof. repeat split; reflexivity. Qed.

Example endsWith_ex :
  Js.endsWith "all.txt" ".txt" = true ∧ Js.endsWith "txt" ".txt" = false.
Proof. split; reflexivity. Qed.

Lemma append_cons c (s t : string) : String c s +:+ t = String c (s +:+ t).
Proof. reflexivity. Qed.

Lemma prefix_app (p s : string) :
  String.prefix p s = true ↔ ∃ rest, s = p +:+ rest.
Proof.
  revert s. induction p as [|c p IH]; intros s.
  - split; [intros _; by exists s | intros _; by destruct s].
  - destruct s as [|c' s]; simpl.
    + split; [done | intros [rest Hrest]; discriminate].
    + destruct (Ascii.ascii_dec c c') as [->|Hne].
      * rewrite IH. split; intros [rest Hrest]; exists rest.
        -- by rewrite append_cons, Hrest.
        -- rewrite append_cons in Hrest. congruence.
      * split; [done | intros [rest Hrest]; rewrite append_cons in Hrest; congruence].
Qed.

(** [includes] is the substring test. *)
Lemma includes_spec (s sub : string) :
  Js.includes s sub = true ↔ ∃ before after, s = before +:+ sub +:+ after.
Proof.
  induction s as [|c s IH]; cbn [Js.includes].
  - rewrite orb_false_r, prefix_app. split.
    + intros [rest Hrest]. by exists EmptyString, rest.
    + intros [before [after Heq]]. destruct before; [by exists after | done].
  - rewrite orb_true_iff, prefix_app, IH. split.
    + intros [[rest Hrest] | [before [after Heq]]].
      * by exists EmptyString, rest.
      * exists (String c before), after. by rewrite append_cons, Heq.
    + intros [before [after Heq]]. destruct before as [|c' before].
      * left. by exists after.
      * right. exists before, after. rewrite append_cons in Heq. congruence.
Qed.

(** ** The monad *)

Section MonadFacts.
Context {R : Type}.


Lemma bind_eq {A B} (m : M R A) (k : A → M R B) st a st1 c1 r st2 c2 c :
  m st = mkOutcome (inr a) st1 c1 →
  k a st1 = mkOutcome r st2 c2 →
  c = c1 ++ c2 →
  bind m k st = mkOutcome r st2 c.
Proof. intros Hm Hk ->. unfold bind. by rewrite Hm; simpl; rewrite Hk. Qed.

Lemma bind_eq_throw {A B} (m : M R A) (k : A → M R B) st error st1 c1 :
  m st = mkOutcome (inl error) st1 c1 →
  bind m k st = mkOutcome (inl error) st1 c1.
Proof. intros Hm. unfold bind. by rewrite Hm. Qed.

Lemma try_eq {A} (m : M R A) handler st a st1 c1 :
  m st = mkOutcome (inr a) st1 c1 →
  try_catch m handler st = mkOutcome (inr a) st1 c1.
Proof. intros Hm. unfold try_catch. by rewrite Hm. Qed.

Lemma try_eq_catch {A} (m : M R A) handler st error st1 c1 r st2 c2 c :
  m st = mkOutcome (inl error) st1 c1 →
  handler error st1 = mkOutcome r st2 c2 →
  c = c1 ++ c2 →
  try_catch m handler st = mkOutcome r st2 c.
Proof. intros Hm Hh ->. unfold try_catch. by rewrite Hm; simpl; rewrite Hh. Qed.

Lemma bind_then {A B} (m : M R A) (k : A → M R B) st a st1 c1 o2 target :
  m st = mkOutcome (inr a) st1 c1 →
  k a st1 = o2 →
  mkOutcome (returned o2) (final o2) (c1 ++ calls o2) = target →
  bind m k st = target.
Proof. intros Hm Hk <-. unfold bind. by rewrite Hm; simpl; rewrite Hk. Qed.

Lemma try_then {A} (m : M R A) handler st error st1 c1 o2 target :
  m st = mkOutcome (inl error) st1 c1 →
  handler error st1 = o2 →
  mkOutcome (returned o2) (final o2) (c1 ++ calls o2) = target →
  try_catch m handler st = target.
Proof. intros Hm Hh <-. unfold try_catch. by rewrite Hm; simpl; rewrite Hh. Qed.

Lemma readRecord_run l (st : State R) record :
  heap st !! l = Some record → readRecord l st = mkOutcome (inr record) st [].
Proof. intros Hl. unfold readRecord. by rewrite Hl. Qed.

Lemma outcome_eta {A} (o : Outcome R A) :
  o = mkOutcome (returned o) (final o) (calls o).
Proof. by destruct o. Qed.

End MonadFacts.

(** ** Zone resolution *)

Section ZoneId.
Context {R : Type} `{Api R}.

(** What [getZoneId] does, by the answer to its one request. *)
Lemma getZoneId_run (domain : string) (st : State R) :
  getZoneId domain st
  = mkOutcome
      (match (api _ (ZoneByName domain) (remote st)).1 with
       | inl errorDetails => inl (Error errorDetails)
       | inr data =>
           match Response.result data with
           | zone :: _ => inr (Zone.id zone)
           | [] => inl (TypeError "Cannot read properties of undefined (reading 'id')")
           end
       end)
      (mkState (api _ (ZoneByName domain) (remote st)).2 (heap st))
      [call (ZoneByName domain)].
Proof.
  unfold getZoneId, bind, cloudflareRequest.
  destruct (api _ (ZoneByName domain) (remote st)) as [[msg|data] remote']; simpl; [done|].
  by destruct (Response.result data).
Qed.

(** C10: for every domain whose lookup is answered with an empty result
    list, [getZoneId] throws the [TypeError] of reading [id] of
    [undefined], which is not the normalised [Error] of the request
    executor; nothing but the lookup itself precedes the failure. *)
Theorem C10_getZoneId_empty_result_TypeError
    (domain : string) (st : State R) (success : bool) (remote' : R) :
  api _ (ZoneByName domain) (remote st) = (inr (Response.mk success []), remote') →
  returned (getZoneId domain st)
  = inl (TypeError "Cannot read properties of undefined (reading 'id')")
  ∧ (∀ m, returned (getZoneId domain st) ≠ inl (Error m))
  ∧ calls (getZoneId domain st) = [call (ZoneByName domain)].
Proof.
  intros Hanswer. rewrite getZoneId_run, Hanswer. simpl. by repeat split.
Qed.

End ZoneId.

(** ** Content filter *)

Section ContentFilter.
Context {R : Type} `{Api R}.

Lemma dnsRecordMatches_spec content type record :
  dnsRecordMatches content type record = true ↔
  if decide (type = "TXT" ∧ content = "dkim") then
    Js.includes (RemoteDNSRecord.content record) "dkim" = true
    ∨ Js.includes (RemoteDNSRecord.name record) "_domainkey" = true
  else Js.includes (RemoteDNSRecord.content record) content = true.
Proof.
  unfold dnsRecordMatches. case_decide as Hd.
  - destruct Hd as [-> ->]. simpl. by rewrite orb_true_iff.
  - destruct (String.eqb_spec type "TXT") as [Hty|Hty];
      destruct (String.eqb_spec content "dkim") as [Hc|Hc]; simpl; try done.
    by destruct Hd.
Qed.

(** C9: of the records the listing answers, the content filter keeps
    exactly those whose value contains the target, except that for type
    TXT and target "dkim" it keeps exactly those whose value contains
    "dkim" or whose host contains "_domainkey"; the kept records stay in
    the order of the listing. *)
Theorem C9_content_filter (zoneId content type : string) (st : State R)
    (data : Response.t (list RemoteDNSRecord.t)) (remote' : R) :
  api _ (ListDnsRecords zoneId type) (remote st) = (inr data, remote') →
  ∃ kept,
    returned (getFilteredDNSRecords zoneId content type st) = inr kept
    ∧ sublist kept (Response.result data)
    ∧ ∀ record,
        record ∈ kept ↔
        record ∈ Response.result data
        ∧ if decide (type = "TXT" ∧ content = "dkim") then
            Js.includes (RemoteDNSRecord.content record) "dkim" = true
            ∨ Js.includes (RemoteDNSRecord.name record) "_domainkey" = true
          else Js.includes (RemoteDNSRecord.content record) content = true.
Proof.
  intros Hanswer.
  exists (List.filter (dnsRecordMatches content type) (Response.result data)).
  split; [|split].
  - unfold getFilteredDNSRecords, bind, cloudflareRequest. by rewrite Hanswer.
  - induction (Response.result data) as [|r l IH]; simpl; [constructor|].
    destruct (dnsRecordMatches content type r); by constructor.
  - intros record. rewrite !list_elem_of_In, filter_In, dnsRecordMatches_spec.
    done.
Qed.

End ContentFilter.

(** The two records of the DKIM example: a TXT record under [_domainkey]
    whose value has no "dkim" in it is kept, a TXT record with neither is
    not. *)
Lemma C9_content_filter_witness :
  ∃ kept,
    returned (getFilteredDNSRecords "zone:a.com" "dkim" "TXT" Demo.start) = inr kept
    ∧ sublist kept (Demo.dnsRecords Demo.account)
    ∧ ∀ record,
        record ∈ kept ↔
        record ∈ Demo.dnsRecords Demo.account
        ∧ if decide ("TXT" = "TXT" ∧ "dkim" = "dkim") then
            Js.includes (RemoteDNSRecord.content record) "dkim" = true
            ∨ Js.includes (RemoteDNSRecord.name record) "_domainkey" = true
          else Js.includes (RemoteDNSRecord.content record) "dkim" = true.
Proof.
  apply (C9_content_filter (R := Demo.Account) "zone:a.com" "dkim" "TXT" Demo.start
           (Response.mk true (Demo.dnsRecords Demo.account)) Demo.account).
  reflexivity.
Defined.

Example dkim_example :
  returned (getFilteredDNSRecords "zone:a.com" "dkim" "TXT" Demo.start)
  = inr [RemoteDNSRecord.mk "r1" "TXT" "mail._domainkey.a.com" "v=DKIM1; k=rsa"].
Proof. reflexivity. Qed.

(** A lookup on a remote account that does not hold the domain. *)
Lemma C10_getZoneId_empty_result_TypeError_witness :
  returned (getZoneId "gone.example" Demo.start)
  = inl (TypeError "Cannot read properties of undefined (reading 'id')")
  ∧ (∀ m, returned (getZoneId "gone.example" Demo.start) ≠ inl (Error m))
  ∧ calls (getZoneId "gone.example" Demo.start) = [call (ZoneByName "gone.example")].
Proof.
  apply (C10_getZoneId_empty_result_TypeError (R := Demo.Account)
           "gone.example" Demo.start true Demo.account).
  reflexivity.
Defined.

(** ** Mapping builder *)

Lemma foldl_cons {A B} (f : A → B → A) (a : A) (x : B) (l : list B) :
  foldl f a (x :: l) = foldl f (f a x) l.
Proof. reflexivity. Qed.

Section MappingBuilder.
Variable fields : string → list string.

Lemma pushed_app old new1 new2 :
  pushed (pushed old new1) new2 = pushed old (new1 ++ new2).
Proof.
  destruct new1 as [|x new1]; [done|].
  destruct new2 as [|y new2]; simpl; [by rewrite app_nil_r|].
  by rewrite <- app_assoc.
Qed.

(** A turn on a line that gives no record to an inherited key does not
    throw. *)
Lemma mappingLine_returns m reports line :
  ownKeysOnly fields [line] = true →
  ∃ m' reports', mappingLine fields (m, reports) line = inr (m', reports').
Proof.
  unfold ownKeysOnly, mappingLine, classify. simpl.
  destruct (Js.is_empty (Js.trim line) || Js.startsWith (Js.trim line) "#");
    [by eauto|].
  destruct (fields (Js.trim line)) as [|d [|v rest]]; simpl; [by eauto..|].
  unfold part; simpl. destruct (isInherited d); simpl; [done | by eauto].
Qed.

Lemma mappingLine_lookup m reports line m' reports' domain :
  mappingLine fields (m, reports) line = inr (m', reports') →
  m' !! domain = pushed (m !! domain) (entriesFor fields domain [line]).
Proof.
  unfold mappingLine, entriesFor, classify. simpl.
  destruct (Js.is_empty (Js.trim line) || Js.startsWith (Js.trim line) "#");
    [by intros [= <- <-]|].
  destruct (fields (Js.trim line)) as [|d [|v rest]]; simpl;
    [by intros [= <- <-]..|].
  unfold part; simpl. destruct (isInherited d); [done|].
  intros [= <- <-]. case_decide as Hd.
  - subst d. simpl. destruct (m !! domain) as [old|] eqn:Hold.
    + by rewrite lookup_insert_eq, Hold.
    + by rewrite !lookup_insert_eq.
  - simpl. destruct (m !! d); by rewrite !lookup_insert_ne.
Qed.

Lemma mappingLine_reports m reports line m' reports' :
  mappingLine fields (m, reports) line = inr (m', reports') →
  reports' = reports ++ malformedReports fields [line].
Proof.
  unfold mappingLine, malformedReports, classify. simpl.
  destruct (Js.is_empty (Js.trim line) || Js.startsWith (Js.trim line) "#");
    [intros [= <- <-]; by rewrite app_nil_r|].
  destruct (fields (Js.trim line)) as [|d [|v rest]]; simpl;
    [by intros [= <- <-]..|].
  unfold part; simpl. destruct (isInherited d); [done|].
  intros [= <- <-]. by rewrite app_nil_r.
Qed.

Lemma entriesFor_cons domain line lines :
  entriesFor fields domain (line :: lines)
  = entriesFor fields domain [line] ++ entriesFor fields domain lines.
Proof.
  unfold entriesFor. simpl.
  destruct (classify fields line) as [| |d v]; try done. by case_decide.
Qed.

Lemma malformedReports_cons line lines :
  malformedReports fields (line :: lines)
  = malformedReports fields [line] ++ malformedReports fields lines.
Proof.
  unfold malformedReports. simpl. by destruct (classify fields line).
Qed.

(** The loop over the lines, from any records map and reports: it runs
    to the last line. *)
Lemma mappingLines_run lines m reports :
  ownKeysOnly fields lines = true →
  ∃ m',
    mappingLines fields lines (m, reports)
    = (inr m', reports ++ malformedReports fields lines)
    ∧ ∀ domain,
        m' !! domain = pushed (m !! domain) (entriesFor fields domain lines).
Proof.
  revert m reports. induction lines as [|line lines IH]; intros m reports Hown.
  - exists m. split; [by rewrite app_nil_r | done].
  - apply andb_prop in Hown as [Hline Hrest].
    destruct (mappingLine_returns m reports line) as [m1 [reports1 Hturn]].
    { unfold ownKeysOnly. simpl. by rewrite Hline. }
    destruct (IH m1 reports1 Hrest) as [m' [Hrun Hlookup]].
    exists m'. cbn [mappingLines]. rewrite Hturn, Hrun. split.
    + rewrite (malformedReports_cons line lines).
      by rewrite (mappingLine_reports _ _ _ _ _ Hturn), app_assoc.
    + intros domain. rewrite (entriesFor_cons domain line lines).
      by rewrite Hlookup, (mappingLine_lookup _ _ _ _ _ domain Hturn), pushed_app.
Qed.

End MappingBuilder.

(** C7 (amended): for every text that can be read and has no line whose
    first field is a property name inherited from [Object.prototype], the
    mapping builder skips the blank lines and the lines that start with
    '#', cuts every other trimmed line into fields on runs of tab
    characters, gives the domain of the first field one apex TXT record
    (empty host, TTL 3600) with the second field as its value, in file
    order, and reports every line with fewer than two such fields without
    stopping: the later lines are parsed all the same. *)
Theorem C7_mapping_builder_tab_fields
    (readFile : string → string + string) (filePath text : string) :
  readFile filePath = inr text →
  ownKeysOnly tabFields (Js.split "010"%char text) = true →
  buildsMapping tabFields readFile filePath text.
Proof.
  intros Hread Hown. unfold buildsMapping, createDomainRecordsMapFromTextFile.
  rewrite Hread.
  destruct (mappingLines_run tabFields (Js.split "010"%char text) ∅ [] Hown)
    as [recordsMap [Hrun Hlookup]].
  rewrite Hrun. exists recordsMap. split; [done|].
  intros domain. rewrite Hlookup, lookup_empty. unfold pushed, keyOf.
  by destruct (entriesFor tabFields domain (Js.split "010"%char text)).
Qed.

Lemma C7_mapping_builder_tab_fields_witness :
  buildsMapping tabFields (λ _, inr Demo.domainsTxt) "domains.txt" Demo.domainsTxt.
Proof.
  apply (C7_mapping_builder_tab_fields
           (λ _, inr Demo.domainsTxt) "domains.txt" Demo.domainsTxt);
    reflexivity.
Defined.

Example domainsTxt_entries :
  entriesFor tabFields "a.com" (Js.split "010"%char Demo.domainsTxt)
  = [txtRecord "google-site-verification=abc";
     txtRecord "v=spf1 include:_spf.google.com ~all"]
  ∧ malformedReports tabFields (Js.split "010"%char Demo.domainsTxt)
    = [invalidLineReport "broken-line"].
Proof. split; reflexivity. Qed.

(** C7 as it is written, with fields cut on runs of white space, fails on
    a line whose two fields are separated by a space: the specification
    makes it a record of [a.com], the code reports it as invalid. *)
Lemma C7_whitespace_fields_counterexample :
  ¬ buildsMapping whitespaceFields (λ _, inr "a.com v=1") "domains.txt" "a.com v=1".
Proof.
  intros [recordsMap [Hrun _]].
  apply (f_equal snd) in Hrun. vm_compute in Hrun. discriminate.
Qed.

(** A line that names an inherited property ends the parsing: the
    function returns [null]. *)
Example inherited_key_line :
  (createDomainRecordsMapFromTextFile
     (λ _, inr ("toString" +:+ Js.TAB +:+ "v=1")) "domains.txt").1 = None.
Proof. reflexivity. Qed.

Example space_separated_line :
  (createDomainRecordsMapFromTextFile (λ _, inr "a.com v=1") "domains.txt").2
  = [invalidLineReport "a.com v=1"]
  ∧ classify whitespaceFields "a.com v=1" = Entry "a.com" "v=1"
  ∧ classify tabFields "a.com v=1" = Malformed
  ∧ processDomainFile_lines "a.com v=1" = ([("a.com", "v=1")], []).
Proof. repeat split; reflexivity. Qed.

(** ** Set-difference reconciler *)

Section OrderedMapFacts.
Context {V : Type}.
Implicit Types m : list (string * V).

Lemma map_set_fresh k (v : V) m :
  k ∉ map fst m → Js.map_set k v m = m ++ [(k, v)].
Proof.
  induction m as [|[k' v'] m IH]; simpl; intros Hk; [done|].
  apply not_elem_of_cons in Hk as [Hne Hk].
  destruct (String.eqb_spec k' k) as [->|_]; [done|]. by rewrite IH.
Qed.

Lemma map_of_entries_from m (l : list (string * V)) :
  NoDup (map fst (m ++ l)) →
  foldl (λ m kv, Js.map_set kv.1 kv.2 m) m l = m ++ l.
Proof.
  revert m. induction l as [|[k v] l IH]; intros m Hnodup.
  - by rewrite app_nil_r.
  - rewrite foldl_cons. simpl. rewrite map_set_fresh.
    + rewrite IH; rewrite <- app_assoc; done.
    + rewrite map_app in Hnodup. apply NoDup_app in Hnodup as (_ & Hdisj & _).
      intros Hin. apply (Hdisj k Hin). simpl. by left.
Qed.

(** A [Map] made from entries with distinct keys holds them as they are. *)
Lemma map_of_entries_NoDup (l : list (string * V)) :
  NoDup (map fst l) → Js.map_of_entries l = l.
Proof. intros Hnodup. unfold Js.map_of_entries. by rewrite map_of_entries_from. Qed.

Lemma map_delete_all (names : list string) m :
  foldl (λ m domain, Js.map_delete domain m) m names
  = filter (λ kv, kv.1 ∉ names) m.
Proof.
  revert m. induction names as [|n names IH]; intros m.
  - simpl. induction m as [|kv m IHm]; [done|].
    rewrite filter_cons_True; [by rewrite <- IHm | apply not_elem_of_nil].
  - rewrite foldl_cons, IH. unfold Js.map_delete. rewrite list_filter_filter.
    apply list_filter_iff. intros kv. rewrite not_elem_of_cons. tauto.
Qed.

End OrderedMapFacts.

Lemma filter_ext_elem {A} (P Q : A → Prop)
    `{∀ x, Decision (P x)} `{∀ x, Decision (Q x)} (l : list A) :
  (∀ x, x ∈ l → P x ↔ Q x) → filter P l = filter Q l.
Proof.
  induction l as [|x l IH]; intros Hext; [done|].
  rewrite !filter_cons.
  destruct (decide (P x)) as [HP|HP]; destruct (decide (Q x)) as [HQ|HQ].
  - f_equal. apply IH. intros y Hy. apply Hext. by right.
  - exfalso. apply HQ, (Hext x); [by left | done].
  - exfalso. apply HP, (Hext x); [by left | done].
  - apply IH. intros y Hy. apply Hext. by right.
Qed.

Lemma filter_all {A} (P : A → Prop) `{∀ x, Decision (P x)} (l : list A) :
  (∀ x, x ∈ l → P x) → filter P l = l.
Proof.
  induction l as [|x l IH]; intros Hall; [done|].
  rewrite filter_cons_True by (apply Hall; by left).
  f_equal. apply IH. intros y Hy. apply Hall. by right.
Qed.

Lemma excludedNames_app files1 files2 :
  excludedNames (files1 ++ files2) = excludedNames files1 ++ excludedNames files2.
Proof. unfold excludedNames. by rewrite map_app, concat_app. Qed.

Lemma subtractFiles_filter (allDomains : list (string * string)) files :
  subtractFiles allDomains files
  = filter (λ kv, kv.1 ∉ excludedNames files) allDomains.
Proof.
  unfold subtractFiles. revert allDomains.
  induction files as [|[file content] files IH]; intros allDomains.
  - simpl. symmetry. apply filter_all. intros kv _. apply not_elem_of_nil.
  - rewrite foldl_cons, IH. unfold excludedNames. simpl.
    destruct (isExclusionFile file).
    + rewrite map_delete_all, list_filter_filter. apply list_filter_iff.
      intros kv. rewrite not_elem_of_app. tauto.
    + done.
Qed.

Lemma entries_filter (excluded : list string) (full : list DomainEntry.t) :
  map (λ kv : string * string, DomainEntry.mk kv.2 kv.1)
      (filter (λ kv, kv.1 ∉ excluded)
              (map (λ domain, (DomainEntry.name domain, DomainEntry.id domain)) full))
  = filter (λ e, DomainEntry.name e ∉ excluded) full.
Proof.
  induction full as [|[id name] full IH]; [done|].
  simpl. rewrite !filter_cons. simpl.
  destruct (decide (name ∉ excluded)); simpl; by rewrite IH.
Qed.

Lemma names_of_entries (full : list DomainEntry.t) :
  map fst (map (λ domain, (DomainEntry.name domain, DomainEntry.id domain)) full)
  = map DomainEntry.name full.
Proof. induction full as [|e full IH]; simpl; [done | by rewrite IH]. Qed.

(** The reconciler as a filter of the snapshot. *)
Lemma filteredDomains_filter (full : list DomainEntry.t) files :
  NoDup (map DomainEntry.name full) →
  filteredDomains full files
  = filter (λ e, DomainEntry.name e ∉ excludedNames files) full.
Proof.
  intros Hnodup. unfold filteredDomains.
  rewrite map_of_entries_NoDup by (by rewrite names_of_entries).
  by rewrite subtractFiles_filter, entries_filter.
Qed.

Lemma names_filter_NoDup (P : DomainEntry.t → Prop) `{∀ e, Decision (P e)}
    (full : list DomainEntry.t) :
  NoDup (map DomainEntry.name full) →
  NoDup (map DomainEntry.name (filter P full)).
Proof.
  induction full as [|e full IH]; [done|]. simpl.
  rewrite NoDup_cons. intros [Hnotin Hnodup]. rewrite filter_cons.
  destruct (decide (P e)); [|by apply IH].
  simpl. rewrite NoDup_cons. split; [|by apply IH].
  intros Hin. apply Hnotin.
  apply list_elem_of_In, in_map_iff in Hin as (e' & Hname & Hin).
  apply list_elem_of_In, in_map_iff. exists e'. split; [done|].
  apply list_elem_of_In. apply list_elem_of_In, list_elem_of_filter in Hin. tauto.
Qed.

(** C8 (amended): for every full snapshot whose names are pairwise
    distinct and every directory of exclusion files, the reconciled list is the
    snapshot, in its order, without the entries whose name some exclusion
    file lists; an exclusion file that lists only names absent from the
    snapshot changes nothing; and reconciling the result again against
    the same files gives the result back. *)
Theorem C8_set_difference (full : list DomainEntry.t)
    (files : list (string * list DomainEntry.t)) :
  NoDup (map DomainEntry.name full) →
  filteredDomains full files
  = filter (λ e, DomainEntry.name e ∉ excludedNames files) full
  ∧ (∀ before file after,
       files = before ++ file :: after →
       (∀ name, name ∈ map DomainEntry.name file.2 →
                name ∉ map DomainEntry.name full) →
       filteredDomains full files = filteredDomains full (before ++ after))
  ∧ filteredDomains (filteredDomains full files) files
    = filteredDomains full files.
Proof.
  intros Hnodup. split; [|split].
  - by apply filteredDomains_filter.
  - intros before file after -> Habsent.
    rewrite !filteredDomains_filter by done.
    apply filter_ext_elem. intros e He.
    change (before ++ file :: after) with (before ++ [file] ++ after).
    rewrite !excludedNames_app, !not_elem_of_app.
    assert (DomainEntry.name e ∉ excludedNames [file]) as Hfile; [|tauto].
    unfold excludedNames. simpl. rewrite app_nil_r.
    destruct (isExclusionFile file.1); [|apply not_elem_of_nil].
    intros Hin. apply (Habsent _ Hin).
    apply list_elem_of_In, in_map. by apply list_elem_of_In.
  - rewrite (filteredDomains_filter full files Hnodup).
    rewrite filteredDomains_filter by (by apply names_filter_NoDup).
    rewrite list_filter_filter. apply list_filter_iff. tauto.
Qed.

Lemma C8_set_difference_witness :
  filteredDomains Demo.snapshot Demo.domainsDir
  = filter (λ e, DomainEntry.name e ∉ excludedNames Demo.domainsDir) Demo.snapshot
  ∧ (∀ before file after,
       Demo.domainsDir = before ++ file :: after →
       (∀ name, name ∈ map DomainEntry.name file.2 →
                name ∉ map DomainEntry.name Demo.snapshot) →
       filteredDomains Demo.snapshot Demo.domainsDir
       = filteredDomains Demo.snapshot (before ++ after))
  ∧ filteredDomains (filteredDomains Demo.snapshot Demo.domainsDir) Demo.domainsDir
    = filteredDomains Demo.snapshot Demo.domainsDir.
Proof.
  apply (C8_set_difference Demo.snapshot Demo.domainsDir).
  apply (bool_decide_unpack _). vm_compute. reflexivity.
Defined.

Example set_difference_example :
  filteredDomains Demo.snapshot Demo.domainsDir = [DomainEntry.mk "2" "b.com"]
  ∧ filteredDomains [DomainEntry.mk "2" "b.com"] Demo.domainsDir
    = [DomainEntry.mk "2" "b.com"].
Proof. split; reflexivity. Qed.

(** C8 as it is written, for every snapshot, fails on a snapshot that
    lists a name twice: the [Map] of line 177 is keyed by the name, so the
    two entries are one key, at the first position and with the last id,
    and the reconciled list is not the snapshot without the excluded
    entries, even when nothing is excluded. *)
Lemma C8_duplicate_name_counterexample :
  ¬ (filteredDomains [DomainEntry.mk "1" "a.com"; DomainEntry.mk "2" "b.com";
                      DomainEntry.mk "7" "a.com"] []
     = filter (λ e, DomainEntry.name e ∉ excludedNames [])
              [DomainEntry.mk "1" "a.com"; DomainEntry.mk "2" "b.com";
               DomainEntry.mk "7" "a.com"]).
Proof. intros Heq. vm_compute in Heq. discriminate. Qed.

(** Two entries of one name are one key of the [Map]: the first position
    with the last id. *)
Example same_name_twice :
  filteredDomains [DomainEntry.mk "1" "a.com"; DomainEntry.mk "2" "b.com";
                   DomainEntry.mk "7" "a.com"] []
  = [DomainEntry.mk "7" "a.com"; DomainEntry.mk "2" "b.com"].
Proof. reflexivity. Qed.

(** The function writes its result in the directory it reads: a second
    run finds the first result among the exclusion files. *)
Example second_run_reads_first_result :
  ∃ dir1 dir2,
    writeDomainsToFileByExclusion Demo.domainsDir "rest.txt" = Some dir1
    ∧ dir1 !! 4 = Some ("rest.txt", [DomainEntry.mk "2" "b.com"])
    ∧ writeDomainsToFileByExclusion dir1 "rest.txt" = Some dir2
    ∧ dir2 !! 4 = Some ("rest.txt", []).
Proof. eexists _, _. repeat split; reflexivity. Qed.

(** ** Bulk provisioner *)

Lemma normalised_idemp domain record :
  normalised domain (normalised domain record) = normalised domain record.
Proof.
  unfold normalised. destruct (isApexHost (DNSRecord.host record)) eqn:Hapex.
  - simpl. by destruct (isApexHost domain).
  - by rewrite Hapex.
Qed.

(** The host of a normalised record is empty only if the domain is. *)
Lemma normalised_host_not_empty domain record :
  domain ≠ EmptyString →
  DNSRecord.host (normalised domain record) ≠ EmptyString.
Proof.
  intros Hdomain. unfold normalised, isApexHost.
  destruct (String.eqb_spec (DNSRecord.host record) "@") as [Hat|Hat]; simpl; [done|].
  by destruct (String.eqb_spec (DNSRecord.host record) EmptyString).
Qed.

Lemma alter_fixed {A} (f : A → A) (l : list A) i x :
  l !! i = Some x → f x = x → alter f i l = l.
Proof.
  intros Hi Hf. apply list_eq. intros j. destruct (decide (i = j)) as [->|Hne].
  - rewrite list_lookup_alter_eq, Hi. simpl. by rewrite Hf.
  - by rewrite list_lookup_alter_ne.
Qed.

Lemma submitted_alter domain zoneId objects l l' :
  submitted domain zoneId (alter (normalised domain) l objects) l'
  = submitted domain zoneId objects l'.
Proof.
  unfold submitted. destruct (decide (l = l')) as [->|Hne].
  - rewrite list_lookup_alter_eq. destruct (objects !! l'); simpl; [|done].
    by rewrite normalised_idemp.
  - by rewrite list_lookup_alter_ne.
Qed.

Lemma normalisedAll_lookup domain records objects l :
  normalisedAll domain records objects !! l
  = if decide (l ∈ records) then normalised domain <$> objects !! l
    else objects !! l.
Proof.
  unfold normalisedAll. revert objects.
  induction records as [|l0 records IH]; intros objects.
  - by rewrite decide_False by apply not_elem_of_nil.
  - rewrite foldl_cons, IH. destruct (decide (l0 = l)) as [->|Hne].
    + rewrite list_lookup_alter_eq.
      rewrite (decide_True (P := l ∈ l :: records)) by (by left).
      case_decide; [|done]. destruct (objects !! l); simpl; [|done].
      by rewrite normalised_idemp.
    + rewrite list_lookup_alter_ne by done.
      destruct (decide (l ∈ records)) as [Hin|Hin].
      * by rewrite decide_True by (by right).
      * rewrite decide_False; [done|]. rewrite not_elem_of_cons. split; [congruence|done].
Qed.

Lemma normalisedAll_length domain records objects :
  length (normalisedAll domain records objects) = length objects.
Proof.
  unfold normalisedAll. revert objects.
  induction records as [|l records IH]; intros objects; [done|].
  by rewrite foldl_cons, IH, length_alter.
Qed.

Section Provisioner.
Context {R : Type} `{Api R}.

Lemma cloudflareRequest_run {T} (request : Request T) (st : State R) :
  cloudflareRequest request st
  = mkOutcome
      (match (api T request (remote st)).1 with
       | inl errorDetails => inl (Error errorDetails)
       | inr data => inr data
       end)
      (mkState (api T request (remote st)).2 (heap st)) [call request].
Proof.
  unfold cloudflareRequest. by destruct (api T request (remote st)) as [[?|?] ?].
Qed.

Lemma insertDNSRecord_run zoneId record (st : State R) :
  insertDNSRecord zoneId record st
  = let request := CreateDnsRecord zoneId (formatRecord record) in
    mkOutcome
      (match (api _ request (remote st)).1 with
       | inl errorDetails => inl (Error errorDetails)
       | inr data => answered data
       end)
      (mkState (api _ request (remote st)).2 (heap st))
      [call request].
Proof.
  unfold insertDNSRecord, try_catch, bind, answered. rewrite cloudflareRequest_run.
  cbn [returned final calls].
  destruct (api _ (CreateDnsRecord zoneId (formatRecord record)) (remote st))
    as [[msg|data] remote']; cbn; [done|].
  destruct (Response.success data); [|done].
  by destruct (String.eqb (Response.result data) "null").
Qed.

Lemma insertDNSRecords_body_run domain zoneId results l (st : State R) record :
  heap st !! l = Some record →
  insertDNSRecords_body domain zoneId results l st
  = let request := CreateDnsRecord zoneId (formatRecord (normalised domain record)) in
    mkOutcome
      (inr (results ++ [recordResult domain (normalised domain record)
                          (api _ request (remote st)).1]))
      (mkState (api _ request (remote st)).2
               (alter (normalised domain) l (heap st)))
      [call request].
Proof.
  intros Hl. unfold insertDNSRecords_body.
  assert (∃ st1 : State R,
            st1 = mkState (remote st) (alter (normalised domain) l (heap st))
            ∧ (if isApexHost (DNSRecord.host record)
               then assignHost l domain else ret tt) st
              = mkOutcome (inr tt) st1 []
            ∧ heap st1 !! l = Some (normalised domain record))
    as (st1 & Hst1 & Hassign & Hl1).
  { eexists. split; [done|]. unfold normalised.
    destruct (isApexHost (DNSRecord.host record)) eqn:Hapex.
    - split.
      + unfold assignHost. do 2 f_equal. apply list_alter_ext; [|done].
        intros r Hr. rewrite Hl in Hr. injection Hr as <-. by rewrite Hapex.
      + simpl. rewrite list_lookup_alter_eq, Hl. simpl. by rewrite Hapex.
    - split.
      + rewrite (alter_fixed _ (heap st) l record Hl) by (by rewrite Hapex).
        by destruct st.
      + simpl. by rewrite (alter_fixed _ (heap st) l record Hl) by (by rewrite Hapex). }
  destruct (api _ (CreateDnsRecord zoneId (formatRecord (normalised domain record)))
                (remote st)) as [answer remote'] eqn:Hanswer.
  assert (insertDNSRecord zoneId (normalised domain record) st1
          = mkOutcome
              (match answer with
               | inl errorDetails => inl (Error errorDetails)
               | inr data => answered data
               end)
              (mkState remote' (heap st1))
              [call (CreateDnsRecord zoneId
                       (formatRecord (normalised domain record)))])
    as Hinsert.
  { rewrite insertDNSRecord_run. subst st1. cbn [remote heap]. by rewrite Hanswer. }
  cbn zeta. cbn [fst snd].
  eapply bind_eq; [by apply readRecord_run | | done].
  eapply bind_eq; [exact Hassign | | done].
  eapply bind_eq; [by apply readRecord_run | | done].
  subst st1. cbn [heap] in *.
  destruct answer as [msg|data]; [|destruct (answered data) as [error|ok] eqn:Hanswered].
  - eapply try_eq_catch; [eapply bind_eq_throw; exact Hinsert | done | done].
  - eapply try_eq_catch; [eapply bind_eq_throw; exact Hinsert | | done].
    unfold recordResult. by rewrite Hanswered.
  - eapply try_eq. eapply bind_eq; [exact Hinsert | | done].
    unfold recordResult. by rewrite Hanswered.
Qed.


Lemma omap_cons {A B} (f : A → option B) (x : A) (l : list A) :
  omap f (x :: l) = match f x with Some y => y :: omap f l | None => omap f l end.
Proof. reflexivity. Qed.

Lemma omap_submitted_alter domain zoneId objects l (records : list nat) :
  omap (submitted domain zoneId (alter (normalised domain) l objects)) records
  = omap (submitted domain zoneId objects) records.
Proof.
  induction records as [|l' records IH]; [done|].
  by rewrite !omap_cons, submitted_alter, IH.
Qed.

Lemma validRefs_cons l records (st : State R) :
  validRefs (l :: records) st → is_Some (heap st !! l) ∧ validRefs records st.
Proof.
  unfold validRefs. rewrite Forall_cons. intros [Hl Hvalid].
  split; [by apply lookup_lt_is_Some | done].
Qed.

Lemma validRefs_length records (st st' : State R) :
  length (heap st') = length (heap st) → validRefs records st → validRefs records st'.
Proof. unfold validRefs. by intros ->. Qed.

(** The record loop of lines 257-286: every record is submitted once, in
    order, normalised for the domain, whatever the fate of the records
    before it, and each gives one result. *)
Lemma insertDNSRecords_loop_run domain zoneId records results (st : State R) :
  validRefs records st →
  ∃ rs remote',
    for_of records results (insertDNSRecords_body domain zoneId) st
    = mkOutcome (inr (results ++ rs))
                (mkState remote' (normalisedAll domain records (heap st)))
                (omap (submitted domain zoneId (heap st)) records)
    ∧ length rs = length records
    ∧ Forall (λ r, OperationResult.domain r = domain
                   ∧ is_Some (OperationResult.record r)) rs.
Proof.
  revert results st. induction records as [|l records IH]; intros results st Hvalid.
  - exists [], (remote st). rewrite app_nil_r. by destruct st.
  - apply validRefs_cons in Hvalid as [[record Hl] Hvalid].
    pose proof (insertDNSRecords_body_run domain zoneId results l st record Hl) as Hbody.
    cbn zeta in Hbody.
    set (request := CreateDnsRecord zoneId (formatRecord (normalised domain record))) in *.
    set (st1 := mkState (api _ request (remote st)).2
                        (alter (normalised domain) l (heap st))) in *.
    destruct (IH (results ++ [recordResult domain (normalised domain record)
                                (api _ request (remote st)).1]) st1)
      as (rs & remote' & Hloop & Hlen & Hall).
    { apply (validRefs_length records st); [|done]. apply length_alter. }
    exists (recordResult domain (normalised domain record)
                         (api _ request (remote st)).1 :: rs), remote'.
    split; [|split].
    + cbn [for_of]. eapply bind_then; [exact Hbody | exact Hloop |].
      subst st1. cbn [returned final calls heap]. f_equal.
      * by rewrite <- app_assoc.
      * rewrite omap_submitted_alter, omap_cons. unfold submitted at 2.
        by rewrite Hl.
    + simpl. by rewrite Hlen.
    + constructor; [|done]. unfold recordResult.
      destruct (api _ request (remote st)).1 as [msg|data]; [by eauto|].
      destruct (answered data); by eauto.
Qed.

Lemma getZoneId_calls domain (st : State R) :
  calls (getZoneId domain st) = [call (ZoneByName domain)].
Proof. by rewrite getZoneId_run. Qed.

Lemma getZoneId_heap domain (st : State R) :
  heap (final (getZoneId domain st)) = heap st.
Proof. by rewrite getZoneId_run. Qed.

(** [insertDNSRecords] for a domain whose zone is found. *)
Lemma insertDNSRecords_resolved domain records (st : State R) zoneId :
  returned (getZoneId domain st) = inr zoneId →
  validRefs records st →
  ∃ rs remote',
    insertDNSRecords domain records st
    = mkOutcome (inr rs)
                (mkState remote' (normalisedAll domain records (heap st)))
                (call (ZoneByName domain)
                   :: omap (submitted domain zoneId (heap st)) records)
    ∧ length rs = length records
    ∧ Forall (λ r, OperationResult.domain r = domain
                   ∧ is_Some (OperationResult.record r)) rs.
Proof.
  intros Hzone Hvalid.
  destruct (insertDNSRecords_loop_run domain zoneId records []
              (final (getZoneId domain st)))
    as (rs & remote' & Hloop & Hlen & Hall).
  { apply (validRefs_length records st); [|done]. by rewrite getZoneId_heap. }
  exists rs, remote'. split; [|done].
  unfold insertDNSRecords. eapply try_eq.
  eapply bind_then; [| exact Hloop |].
  - rewrite (outcome_eta (getZoneId domain st)), Hzone. reflexivity.
  - cbn [returned final calls]. by rewrite getZoneId_calls, getZoneId_heap.
Qed.

(** [insertDNSRecords] for a domain whose zone is not found: one result,
    and no request but the lookup. *)
Lemma insertDNSRecords_failed domain records (st : State R) error :
  returned (getZoneId domain st) = inl error →
  insertDNSRecords domain records st
  = mkOutcome (inr [domainFailure domain error])
              (final (getZoneId domain st)) [call (ZoneByName domain)].
Proof.
  intros Hzone. unfold insertDNSRecords.
  eapply try_then; [eapply bind_eq_throw | reflexivity |].
  - rewrite (outcome_eta (getZoneId domain st)), Hzone. reflexivity.
  - cbn [returned final calls ret]. by rewrite getZoneId_calls.
Qed.


(** [insertDNSRecords] catches whatever is thrown in it. *)
Lemma insertDNSRecords_total domain records (st : State R) :
  ∃ rs, returned (insertDNSRecords domain records st) = inr rs.
Proof.
  unfold insertDNSRecords, try_catch.
  destruct (returned (bind (getZoneId domain) _ st)) eqn:Hinner; simpl; eauto.
Qed.

Lemma manyDomains_body_run results domain records (st : State R) rs :
  returned (insertDNSRecords domain records st) = inr rs →
  manyDomains_body results (domain, records) st
  = mkOutcome (inr (results ++ rs)) (final (insertDNSRecords domain records st))
              (calls (insertDNSRecords domain records st)).
Proof.
  intros Hrs. unfold manyDomains_body. eapply try_eq.
  eapply bind_eq; [|reflexivity|by rewrite app_nil_r].
  rewrite (outcome_eta (insertDNSRecords domain records st)), Hrs. reflexivity.
Qed.

(** The domain loop started with results already collected: they stay in
    front of the results of the loop. *)
Lemma manyDomains_results entries results (st : State R) :
  ∃ rs,
    returned (createDifferentDNSRecordsForManyDomains entries st) = inr rs
    ∧ for_of entries results manyDomains_body st
      = mkOutcome (inr (results ++ rs))
                  (final (createDifferentDNSRecordsForManyDomains entries st))
                  (calls (createDifferentDNSRecordsForManyDomains entries st)).
Proof.
  unfold createDifferentDNSRecordsForManyDomains.
  revert results st. induction entries as [|[domain records] entries IH];
    intros results st.
  - exists []. split; [done|]. by rewrite app_nil_r.
  - destruct (insertDNSRecords_total domain records st) as [rs1 Hrs1].
    set (st1 := final (insertDNSRecords domain records st)).
    destruct (IH rs1 st1) as (rs2 & Hret2 & Hrun2).
    destruct (IH (results ++ rs1) st1) as (rs2' & Hret2' & Hrun2').
    rewrite Hret2 in Hret2'. injection Hret2' as <-.
    assert (for_of ((domain, records) :: entries) [] manyDomains_body st
            = mkOutcome (inr (rs1 ++ rs2))
                (final (for_of entries [] manyDomains_body st1))
                (calls (insertDNSRecords domain records st)
                   ++ calls (for_of entries [] manyDomains_body st1))) as Hnil.
    { cbn [for_of]. eapply bind_then;
        [exact (manyDomains_body_run [] domain records st rs1 Hrs1)
        | exact Hrun2 | done]. }
    exists (rs1 ++ rs2). rewrite Hnil. split; [done|].
    cbn [for_of returned final calls]. eapply bind_then;
      [exact (manyDomains_body_run results domain records st rs1 Hrs1)
      | exact Hrun2' |].
    cbn [returned final calls]. by rewrite app_assoc.
Qed.

(** The domain loop, domain by domain. *)
Lemma manyDomains_cons domain records entries (st : State R) :
  let first := insertDNSRecords domain records st in
  let others := createDifferentDNSRecordsForManyDomains entries (final first) in
  ∃ rs1 rs2,
    returned first = inr rs1
    ∧ returned others = inr rs2
    ∧ createDifferentDNSRecordsForManyDomains ((domain, records) :: entries) st
      = mkOutcome (inr (rs1 ++ rs2)) (final others) (calls first ++ calls others).
Proof.
  intros first others.
  destruct (insertDNSRecords_total domain records st) as [rs1 Hrs1].
  destruct (manyDomains_results entries rs1 (final first)) as (rs2 & Hrs2 & Hrun).
  exists rs1, rs2. split; [done|]. split; [done|].
  unfold createDifferentDNSRecordsForManyDomains at 1. cbn [for_of].
  eapply bind_then;
    [exact (manyDomains_body_run [] domain records st rs1 Hrs1) | exact Hrun | done].
Qed.

Lemma manyDomains_app entries1 entries2 (st : State R) :
  let first := createDifferentDNSRecordsForManyDomains entries1 st in
  let others := createDifferentDNSRecordsForManyDomains entries2 (final first) in
  ∃ rs1 rs2,
    returned first = inr rs1
    ∧ returned others = inr rs2
    ∧ createDifferentDNSRecordsForManyDomains (entries1 ++ entries2) st
      = mkOutcome (inr (rs1 ++ rs2)) (final others) (calls first ++ calls others).
Proof.
  revert st. induction entries1 as [|[domain records] entries1 IH]; intros st.
  - cbn zeta. simpl app.
    destruct (manyDomains_results entries2 [] st) as (rs2 & Hrs2 & _).
    exists [], rs2. split; [done|]. split; [done|].
    rewrite (outcome_eta (createDifferentDNSRecordsForManyDomains entries2 st)) at 1.
    by rewrite Hrs2.
  - cbn zeta.
    destruct (manyDomains_cons domain records entries1 st)
      as (rs1 & rs2 & Hrs1 & Hrs2 & Hcons).
    destruct (manyDomains_cons domain records (entries1 ++ entries2) st)
      as (rs1' & rs3 & Hrs1' & Hrs3 & Hcons').
    cbn zeta in *. rewrite Hrs1 in Hrs1'. injection Hrs1' as <-.
    destruct (IH (final (insertDNSRecords domain records st)))
      as (rs2' & rs4 & Hrs2' & Hrs4 & Happ).
    cbn zeta in *. rewrite Hrs2 in Hrs2'. injection Hrs2' as <-.
    rewrite Happ in Hrs3. injection Hrs3 as <-.
    exists (rs1 ++ rs2), rs4. rewrite Hcons. cbn [returned final calls].
    split; [done|]. split; [done|].
    change (((domain, records) :: entries1) ++ entries2)
      with ((domain, records) :: entries1 ++ entries2).
    rewrite Hcons', Happ. cbn [returned final calls].
    by rewrite !app_assoc.
Qed.


Lemma state_eq (st st' : State R) :
  remote st = remote st' → heap st = heap st' → st = st'.
Proof. destruct st, st'. simpl. by intros -> ->. Qed.

Lemma createSame_entries domains records (st : State R) :
  createSameDNSRecordsForManyDomains domains records st
  = createDifferentDNSRecordsForManyDomains
      (map (λ domain, (domain, records)) domains) st.
Proof. reflexivity. Qed.

(** C4: in a batch where the zone lookup of a domain fails (and, being a
    failed read, leaves the remote account as it was), the bulk
    provisioner gives that domain exactly one failure result, sends no
    request for it but the lookup, so that none of its records is
    attempted, and the results and requests of the domains before and
    after it are those of the batch without that domain. *)
Theorem C4_zone_failure_is_isolated (before after : list string) (domain : string)
    (records : list nat) (st : State R) (error : Exn) :
  let first := createSameDNSRecordsForManyDomains before records st in
  let others := createSameDNSRecordsForManyDomains after records (final first) in
  returned (getZoneId domain (final first)) = inl error →
  remote (final (getZoneId domain (final first))) = remote (final first) →
  ∃ resultsBefore resultsAfter,
    returned first = inr resultsBefore
    ∧ returned others = inr resultsAfter
    ∧ createSameDNSRecordsForManyDomains (before ++ domain :: after) records st
      = mkOutcome
          (inr (resultsBefore ++ [domainFailure domain error] ++ resultsAfter))
          (final others)
          (calls first ++ [call (ZoneByName domain)] ++ calls others)
    ∧ createSameDNSRecordsForManyDomains (before ++ after) records st
      = mkOutcome (inr (resultsBefore ++ resultsAfter)) (final others)
                  (calls first ++ calls others).
Proof.
  intros first others Hfails Hreadonly. subst first others.
  rewrite !createSame_entries, !map_app, map_cons.
  set (entries1 := map (λ domain, (domain, records)) before).
  set (entries2 := map (λ domain, (domain, records)) after).
  destruct (manyDomains_app entries1 entries2 st)
    as (rs1 & rs2 & Hrs1 & Hrs2 & Hwithout).
  destruct (manyDomains_app entries1 ((domain, records) :: entries2) st)
    as (rs1' & rs3 & Hrs1' & Hrs3 & Hwith).
  cbn zeta in *. rewrite Hrs1 in Hrs1'. injection Hrs1' as <-.
  set (st1 := final (createDifferentDNSRecordsForManyDomains entries1 st)) in *.
  destruct (manyDomains_cons domain records entries2 st1)
    as (rd & rs2' & Hrd & Hrs2' & Hcons).
  cbn zeta in *.
  rewrite (insertDNSRecords_failed domain records st1 error Hfails) in Hrd, Hrs2', Hcons.
  cbn [returned final calls] in *.
  assert (final (getZoneId domain st1) = st1) as Hsame.
  { apply state_eq; [done | apply getZoneId_heap]. }
  rewrite Hsame in *. rewrite Hrs2 in Hrs2'.
  injection Hrs2' as <-. injection Hrd as <-.
  rewrite Hcons in Hrs3, Hwith. cbn [returned final calls] in *.
  injection Hrs3 as <-.
  exists rs1, rs2. by rewrite Hwith, Hwithout.
Qed.

(** Once no object of the list denotes the apex, processing a domain
    leaves the objects as they are. *)
Lemma insertDNSRecords_heap_stable domain records (st : State R) :
  validRefs records st →
  (∀ l record, l ∈ records → heap st !! l = Some record →
     isApexHost (DNSRecord.host record) = false) →
  heap (final (insertDNSRecords domain records st)) = heap st.
Proof.
  intros Hvalid Hplain.
  destruct (returned (getZoneId domain st)) as [error|zoneId] eqn:Hzone.
  - rewrite (insertDNSRecords_failed domain records st error Hzone).
    apply getZoneId_heap.
  - destruct (insertDNSRecords_resolved domain records st zoneId Hzone Hvalid)
      as (rs & remote' & -> & _ & _).
    cbn [final heap]. apply list_eq. intros l. rewrite normalisedAll_lookup.
    case_decide as Hl; [|done].
    destruct (heap st !! l) as [record|] eqn:Hrecord; [|done]. simpl.
    unfold normalised. by rewrite (Hplain l record Hl Hrecord).
Qed.

Lemma createSame_heap_stable domains records (st : State R) :
  validRefs records st →
  (∀ l record, l ∈ records → heap st !! l = Some record →
     isApexHost (DNSRecord.host record) = false) →
  heap (final (createSameDNSRecordsForManyDomains domains records st)) = heap st.
Proof.
  revert st. induction domains as [|domain domains IH]; intros st Hvalid Hplain.
  - done.
  - rewrite createSame_entries. simpl map.
    destruct (manyDomains_cons domain records
                (map (λ domain, (domain, records)) domains) st)
      as (rs1 & rs2 & _ & _ & ->).
    cbn [final].
    pose proof (insertDNSRecords_heap_stable domain records st Hvalid Hplain) as Hheap.
    rewrite <- createSame_entries, IH; [done | |].
    + apply (validRefs_length records st); [by rewrite Hheap | done].
    + intros l record Hl. rewrite Hheap. by apply Hplain.
Qed.

(** C2: [insertDNSRecords] writes the domain name into the host of every
    record object of the caller that denotes the apex.  After a first
    domain (with a name that is not itself empty or "@") was processed, no
    object of the list denotes the apex any more, and when
    [createSameDNSRecordsForManyDomains] hands the same list to a later
    domain, the records that were apex records are submitted to the zone
    of that domain with the name of the first domain as host. *)
Theorem C2_shared_records_are_mutated (domain1 domain2 : string)
    (between others : list string) (records : list nat) (st : State R)
    (zone1 zone2 : string) :
  let first := insertDNSRecords domain1 records st in
  let middle := createSameDNSRecordsForManyDomains between records (final first) in
  validRefs records st →
  isApexHost domain1 = false →
  returned (getZoneId domain1 st) = inr zone1 →
  returned (getZoneId domain2 (final middle)) = inr zone2 →
  (∀ l record, l ∈ records → heap st !! l = Some record →
     isApexHost (DNSRecord.host record) = true →
     heap (final first) !! l = Some (DNSRecord.set_host domain1 record))
  ∧ (∀ l record, l ∈ records → heap (final first) !! l = Some record →
       isApexHost (DNSRecord.host record) = false)
  ∧ (∀ l record, l ∈ records → heap st !! l = Some record →
       isApexHost (DNSRecord.host record) = true →
       ∃ body,
         call (CreateDnsRecord zone2 body)
           ∈ calls (createSameDNSRecordsForManyDomains
                      (domain1 :: between ++ domain2 :: others) records st)
         ∧ FormattedRecord.name body = domain1
         ∧ FormattedRecord.content body = DNSRecord.value record).
Proof.
  intros first middle Hvalid Hname Hzone1 Hzone2. subst first middle.
  destruct (insertDNSRecords_resolved domain1 records st zone1 Hzone1 Hvalid)
    as (rs1 & remote1 & Hfirst & _ & _).
  rewrite Hfirst in *. cbn [final heap] in *.
  set (st1 := mkState remote1 (normalisedAll domain1 records (heap st))) in *.
  assert (∀ l record, l ∈ records → heap st !! l = Some record →
            isApexHost (DNSRecord.host record) = true →
            heap st1 !! l = Some (DNSRecord.set_host domain1 record)) as Hassigned.
  { intros l record Hl Hrecord Hapex. subst st1. cbn [heap].
    rewrite normalisedAll_lookup, decide_True, Hrecord by done. simpl.
    unfold normalised. by rewrite Hapex. }
  assert (∀ l record, l ∈ records → heap st1 !! l = Some record →
            isApexHost (DNSRecord.host record) = false) as Hplain.
  { intros l record Hl. subst st1. cbn [heap].
    rewrite normalisedAll_lookup, decide_True by done.
    destruct (heap st !! l) as [record0|]; [|done]. simpl. intros [= <-].
    unfold normalised. destruct (isApexHost (DNSRecord.host record0)) eqn:Hapex; done. }
  split; [done|]. split; [done|].
  intros l record Hl Hrecord Hapex.
  exists (formatRecord (DNSRecord.set_host domain1 record)).
  split; [|done].
  assert (validRefs records st1) as Hvalid1.
  { apply (validRefs_length records st); [|done]. apply normalisedAll_length. }
  set (st2 := final (createSameDNSRecordsForManyDomains between records st1)) in *.
  assert (heap st2 = heap st1) as Hheap by (by apply createSame_heap_stable).
  assert (validRefs records st2) as Hvalid2.
  { apply (validRefs_length records st1); [by rewrite Hheap | done]. }
  destruct (insertDNSRecords_resolved domain2 records st2 zone2 Hzone2 Hvalid2)
    as (rs2 & remote2 & Hsecond & _ & _).
  rewrite createSame_entries. simpl map. rewrite map_app. simpl map.
  destruct (manyDomains_cons domain1 records
              (map (λ domain, (domain, records)) between
                 ++ (domain2, records) :: map (λ domain, (domain, records)) others) st)
    as (r1 & r2 & _ & _ & ->).
  rewrite Hfirst. cbn [final calls]. fold st1.
  destruct (manyDomains_app (map (λ domain, (domain, records)) between)
              ((domain2, records) :: map (λ domain, (domain, records)) others) st1)
    as (r3 & r4 & _ & _ & ->).
  cbn [calls]. rewrite <- createSame_entries. fold st2.
  destruct (manyDomains_cons domain2 records
              (map (λ domain, (domain, records)) others) st2)
    as (r5 & r6 & _ & _ & ->).
  rewrite Hsecond. cbn [final calls].
  apply elem_of_app. right. apply elem_of_app. right.
  apply elem_of_app. left. right.
  apply list_elem_of_omap. exists l. split; [done|].
  unfold submitted. rewrite Hheap, (Hassigned l record Hl Hrecord Hapex). simpl.
  unfold normalised. simpl. by rewrite Hname.
Qed.

End Provisioner.

(** Three domains that share the three record objects of the README; the
    zone of the second is not found. *)
Lemma C2_shared_records_are_mutated_witness :
  let first := insertDNSRecords "a.com" [0; 1; 2] Demo.start in
  (∀ l record, l ∈ [0; 1; 2] → heap Demo.start !! l = Some record →
     isApexHost (DNSRecord.host record) = true →
     heap (final first) !! l = Some (DNSRecord.set_host "a.com" record))
  ∧ (∀ l record, l ∈ [0; 1; 2] → heap (final first) !! l = Some record →
       isApexHost (DNSRecord.host record) = false)
  ∧ (∀ l record, l ∈ [0; 1; 2] → heap Demo.start !! l = Some record →
       isApexHost (DNSRecord.host record) = true →
       ∃ body,
         call (CreateDnsRecord "zone:b.com" body)
           ∈ calls (createSameDNSRecordsForManyDomains
                      ("a.com" :: ["gone.example"] ++ "b.com" :: []) [0; 1; 2]
                      Demo.start)
         ∧ FormattedRecord.name body = "a.com"
         ∧ FormattedRecord.content body = DNSRecord.value record).
Proof.
  apply (C2_shared_records_are_mutated (R := Demo.Account)
           "a.com" "b.com" ["gone.example"] [] [0; 1; 2] Demo.start
           "zone:a.com" "zone:b.com").
  - apply (bool_decide_unpack _). vm_compute. reflexivity.
  - reflexivity.
  - reflexivity.
  - reflexivity.
Defined.

(** Three domains, the lookup of the second fails in transport. *)
Lemma C4_zone_failure_is_isolated_witness :
  let first := createSameDNSRecordsForManyDomains ["a.com"] [0; 1; 2] Demo.start in
  let others := createSameDNSRecordsForManyDomains ["b.com"] [0; 1; 2] (final first) in
  ∃ resultsBefore resultsAfter,
    returned first = inr resultsBefore
    ∧ returned others = inr resultsAfter
    ∧ createSameDNSRecordsForManyDomains
        (["a.com"] ++ "down.example" :: ["b.com"]) [0; 1; 2] Demo.start
      = mkOutcome
          (inr (resultsBefore
                  ++ [domainFailure "down.example" (Error "connect ETIMEDOUT")]
                  ++ resultsAfter))
          (final others)
          (calls first ++ [call (ZoneByName "down.example")] ++ calls others)
    ∧ createSameDNSRecordsForManyDomains (["a.com"] ++ ["b.com"]) [0; 1; 2] Demo.start
      = mkOutcome (inr (resultsBefore ++ resultsAfter)) (final others)
                  (calls first ++ calls others).
Proof.
  apply (C4_zone_failure_is_isolated (R := Demo.Account)
           ["a.com"] ["b.com"] "down.example" [0; 1; 2] Demo.start
           (Error "connect ETIMEDOUT")).
  - reflexivity.
  - reflexivity.
Defined.

(** C1 on the README example, two domains that are given the same three
    records: the apex records of the second domain are submitted to its
    zone with the name of the first domain as host, where C1 has the name
    of the second. *)
Theorem C1_second_domain_gets_first_domain_host :
  map (λ entry, (entry.1, FormattedRecord.name entry.2))
      (Demo.created
         (remote (final (createSameDNSRecordsForManyDomains
                           ["a.com"; "b.com"] [0; 1; 2] Demo.start))))
  = [("zone:a.com", "a.com"); ("zone:a.com", "_dmarc"); ("zone:a.com", "a.com");
     ("zone:b.com", "a.com"); ("zone:b.com", "_dmarc"); ("zone:b.com", "a.com")].
Proof. reflexivity. Qed.

(** The sibling path with a record object of its own for each domain
    submits the apex record of each domain with the name of that domain. *)
Example different_records_are_normalised :
  map (λ entry, (entry.1, FormattedRecord.name entry.2))
      (Demo.created
         (remote (final (createDifferentDNSRecordsForManyDomains
                           [("a.com", [0]); ("b.com", [2])] Demo.start))))
  = [("zone:a.com", "a.com"); ("zone:b.com", "b.com")].
Proof. reflexivity. Qed.

(** ** Batch operations and their results *)

Section Batches.
Context {R : Type} `{Api R}.

(** A handler that returns makes a [try] that returns. *)
Lemma try_catch_total {A} (m : M R A) handler (st : State R) :
  (∀ error st', ∃ a, returned (handler error st') = inr a) →
  ∃ a, returned (try_catch m handler st) = inr a.
Proof.
  intros Hhandler. unfold try_catch.
  destruct (returned (m st)) as [error|a] eqn:Hm; [|by eauto].
  destruct (Hhandler error (final (m st))) as [a Ha]. by eauto.
Qed.






End Batches.



(** [deleteManyZones] on one domain whose zone cannot be deleted: the
    function ends without [return], and the list its loop collects has no
    entry for the failed domain. *)
Example deleteManyZones_returns_no_list :
  ¬ ∃ results : list (Response.t Json),
      (returned (deleteManyZones ["gone.example"] Demo.start) = inr (defined results)
       ∨ returned (deleteManyZones_results ["gone.example"] Demo.start) = inr results)
      ∧ length results = 1.
Proof.
  intros (results & [Hreturned | Hcollected] & Hlength).
  - vm_compute in Hreturned. discriminate.
  - vm_compute in Hcollected. injection Hcollected as <-. discriminate.
Qed.

(** ** Paginated fetcher *)

Lemma pageRequests_length contains from count :
  length (pageRequests contains from count) = count.
Proof.
  revert from. induction count as [|count IH]; intros from; [done|].
  simpl. by rewrite IH.
Qed.

Lemma ceilDiv_covers (N P : Z) : (0 < P → N ≤ ceilDiv N P * P)%Z.
Proof.
  intros HP. unfold ceilDiv.
  pose proof (Z.mul_succ_div_gt (N + P - 1) P HP). lia.
Qed.

Lemma ceilDiv_tight (N P k : Z) : (0 < P → k < ceilDiv N P → k * P < N)%Z.
Proof.
  intros HP Hk. unfold ceilDiv in Hk.
  pose proof (Z.mul_div_le (N + P - 1) P HP). nia.
Qed.

Section Pagination.
Context {R : Type} `{Api R}.
Variables (listing : list Zone.t) (P : Z) (contains : option string).
Variable st : State R.
Hypothesis page_size : (0 < P)%Z.
Hypothesis served :
  ∀ page, api _ (ListZones 50 page contains) (remote st)
          = (inr (servedPage listing P page), remote st).

Lemma getDomains_pages_from (rest : nat) (page : Z) (fuel : nat)
    (allResults : list Zone.t) :
  (1 ≤ page)%Z →
  (page + Z.of_nat rest = pagesNeeded listing P)%Z →
  rest < fuel →
  allResults = take (Z.to_nat ((page - 1) * P)) listing →
  getDomains_pages fuel contains page allResults st
  = mkOutcome (inr (Some listing)) st (pageRequests contains page (S rest)).
Proof.
  unfold pagesNeeded. set (N := Z.of_nat (length listing)).
  revert page fuel allResults.
  induction rest as [|rest IH]; intros page fuel allResults Hpage Hpages Hfuel ->;
    (destruct fuel as [|fuel]; [lia|]); cbn [getDomains_pages].
  - eapply bind_then; [rewrite cloudflareRequest_run, served; reflexivity | reflexivity |].
    cbn [ZonesPage.result ZonesPage.result_info servedPage ResultInfo.page
         ResultInfo.per_page ResultInfo.total_count fst snd].
    fold N. pose proof (ceilDiv_covers N P page_size) as Hcovers.
    destruct (page * P >=? N)%Z eqn:Hlast; rewrite Z.geb_leb in Hlast.
    + apply Z.leb_le in Hlast. cbn. f_equal; [|by destruct st].
      rewrite take_take_drop. do 2 f_equal. apply take_ge. subst N. lia.
    + exfalso. apply Z.leb_gt in Hlast. clearbody N. nia.
  - eapply bind_then; [rewrite cloudflareRequest_run, served; reflexivity | reflexivity |].
    cbn [ZonesPage.result ZonesPage.result_info servedPage ResultInfo.page
         ResultInfo.per_page ResultInfo.total_count fst snd].
    fold N. pose proof (ceilDiv_tight N P page page_size) as Htight.
    destruct (page * P >=? N)%Z eqn:Hlast; rewrite Z.geb_leb in Hlast.
    + exfalso. apply Z.leb_le in Hlast. clearbody N. lia.
    + assert (mkState (remote st) (heap st) = st) as -> by (by destruct st).
      rewrite (IH (page + 1)%Z fuel
                 (take (Z.to_nat ((page - 1) * P)) listing
                    ++ take (Z.to_nat P)
                         (drop (Z.to_nat ((page - 1) * P)) listing))).
      * done.
      * lia.
      * clearbody N. lia.
      * lia.
      * rewrite take_take_drop. f_equal.
        assert (0 ≤ (page - 1) * P)%Z by nia. lia.
Qed.

(** C5 (amended): a listing of [N] items that the remote serves in pages
    of [P] items is fetched with exactly [max 1 (ceil (N / P))] page
    requests, for the pages 1, 2, ... in order; the loop ends (any number
    of turns that is at least that many ends it) and the accumulated
    list is the whole listing in remote order. *)
Theorem C5_paginated_fetch (fuel : nat) :
  Z.to_nat (pagesNeeded listing P) ≤ fuel →
  getDomains_pages fuel contains 1 [] st
  = mkOutcome (inr (Some listing)) st
              (pageRequests contains 1 (Z.to_nat (pagesNeeded listing P)))
  ∧ Z.of_nat (length (calls (getDomains_pages fuel contains 1 [] st)))
    = Z.max 1 (ceilDiv (Z.of_nat (length listing)) P).
Proof.
  intros Hfuel.
  assert (1 ≤ pagesNeeded listing P)%Z as Hpages by (unfold pagesNeeded; lia).
  assert (getDomains_pages fuel contains 1 [] st
          = mkOutcome (inr (Some listing)) st
              (pageRequests contains 1 (Z.to_nat (pagesNeeded listing P)))) as Hrun.
  { replace (Z.to_nat (pagesNeeded listing P))
      with (S (Z.to_nat (pagesNeeded listing P - 1))) by lia.
    apply getDomains_pages_from; [lia | lia | lia | done]. }
  split; [done|]. rewrite Hrun. cbn [calls]. rewrite pageRequests_length.
  unfold pagesNeeded in *. lia.
Qed.

End Pagination.

(** A listing of 120 zones in pages of 50: three requests. *)
Lemma C5_paginated_fetch_witness :
  getDomains_pages 5 None 1 [] Demo.largeStart
  = mkOutcome (inr (Some Demo.manyZones)) Demo.largeStart
              (pageRequests None 1 (Z.to_nat (pagesNeeded Demo.manyZones 50)))
  ∧ Z.of_nat (length (calls (getDomains_pages 5 None 1 [] Demo.largeStart)))
    = Z.max 1 (ceilDiv (Z.of_nat (length Demo.manyZones)) 50).
Proof.
  apply (C5_paginated_fetch (R := Demo.Account) Demo.manyZones 50 None
           Demo.largeStart).
  - reflexivity.
  - intros page. reflexivity.
  - vm_compute. lia.
Defined.

Example three_pages :
  calls (getDomains_pages 5 None 1 [] Demo.largeStart)
  = [call (ListZones 50 1 None); call (ListZones 50 2 None);
     call (ListZones 50 3 None)].
Proof. reflexivity. Qed.

(** C5 as it is written fails on the empty listing: [ceil (0 / 50)] is 0,
    and the first page is requested all the same. *)
Lemma C5_empty_listing_counterexample :
  ¬ ∃ fuel,
      returned (getDomains_pages fuel None 1 [] Demo.start) = inr (Some [])
      ∧ Z.of_nat (length (calls (getDomains_pages fuel None 1 [] Demo.start)))
        = ceilDiv 0 50.
Proof.
  intros (fuel & Hreturned & Hcalls). destruct fuel as [|fuel].
  - discriminate.
  - vm_compute in Hcalls. discriminate.
Qed.

(** ** Redirect replacer *)

Section Redirect.
Context {R : Type} `{Api R}.

Lemma getPageRules_run zoneId (st : State R) :
  getPageRules zoneId st
  = mkOutcome
      (match (api _ (ListPageRules zoneId) (remote st)).1 with
       | inl errorDetails => inl (Error errorDetails)
       | inr data =>
           if Response.success data then inr (Response.result data)
           else inl (Error "Failed to fetch page rules")
       end)
      (mkState (api _ (ListPageRules zoneId) (remote st)).2 (heap st))
      [call (ListPageRules zoneId)].
Proof.
  unfold getPageRules, try_catch, bind. rewrite cloudflareRequest_run.
  cbn [returned final calls].
  destruct (api _ (ListPageRules zoneId) (remote st)) as [[msg|data] remote'];
    cbn; [done|].
  by destruct (Response.success data).
Qed.

(** The requests of the redirect replacement for a domain whose zone has
    a forwarding rule, and what becomes of the remote account. *)
Lemma changeDomainRedirect_replaces (domain newRedirectUrl : string)
    (st : State R) (found : bool) (zone : Zone.t) (zones : list Zone.t)
    (rules : list PageRule.t) (rule : PageRule.t) (deleted : Response.t Json)
    (answer : string + Response.t Json) (remote1 remote2 remote3 remote4 : R) :
  let zoneId := Zone.id zone in
  let run := changeDomainRedirect domain newRedirectUrl st in
  api _ (ZoneByName domain) (remote st)
  = (inr (Response.mk found (zone :: zones)), remote1) →
  api _ (ListPageRules zoneId) remote1 = (inr (Response.mk true rules), remote2) →
  List.find isForwardingRule rules = Some rule →
  api _ (DeletePageRule zoneId (PageRule.id rule)) remote2 = (inr deleted, remote3) →
  api _ (CreatePageRule zoneId (newForwardingRule domain newRedirectUrl)) remote3
  = (answer, remote4) →
  calls run
  = [call (ZoneByName domain);
     call (ListPageRules zoneId);
     call (DeletePageRule zoneId (PageRule.id rule));
     call (CreatePageRule zoneId (newForwardingRule domain newRedirectUrl))]
  ∧ remote (final run) = remote4
  ∧ returned run
    = match answer with
      | inr data =>
          if Response.success data then inr ()
          else inl (ReferenceError "zoneId is not defined")
      | inl _ => inl (ReferenceError "zoneId is not defined")
      end.
Proof.
  intros zoneId run Hzone Hrules Hfind Hdelete Hcreate. subst run.
  assert (getZoneId domain st
          = mkOutcome (inr zoneId) (mkState remote1 (heap st))
                      [call (ZoneByName domain)]) as HgetZone.
  { by rewrite getZoneId_run, Hzone. }
  assert (getPageRules zoneId (mkState remote1 (heap st))
          = mkOutcome (inr rules) (mkState remote2 (heap st))
                      [call (ListPageRules zoneId)]) as HgetRules.
  { rewrite getPageRules_run. cbn [remote heap]. by rewrite Hrules. }
  assert (cloudflareRequest (DeletePageRule zoneId (PageRule.id rule))
            (mkState remote2 (heap st))
          = mkOutcome (inr deleted) (mkState remote3 (heap st))
                      [call (DeletePageRule zoneId (PageRule.id rule))]) as Hdel.
  { rewrite cloudflareRequest_run. cbn [remote heap]. by rewrite Hdelete. }
  assert (cloudflareRequest
            (CreatePageRule zoneId (newForwardingRule domain newRedirectUrl))
            (mkState remote3 (heap st))
          = mkOutcome
              (match answer with
               | inl errorDetails => inl (Error errorDetails)
               | inr data => inr data
               end)
              (mkState remote4 (heap st))
              [call (CreatePageRule zoneId (newForwardingRule domain newRedirectUrl))])
    as Hnew.
  { rewrite cloudflareRequest_run. cbn [remote heap]. by rewrite Hcreate. }
  set (create := CreatePageRule zoneId (newForwardingRule domain newRedirectUrl)) in *.
  set (requests := [call (ZoneByName domain); call (ListPageRules zoneId);
                    call (DeletePageRule zoneId (PageRule.id rule)); call create]).
  unfold changeDomainRedirect.
  set (attempt := bind (getZoneId domain) _).
  assert (∀ result : Exn + (),
            (∀ data, answer = inr data →
               (if negb (Response.success data)
                then throw (Error "Failed to change domain redirect")
                else ret ()) (mkState remote4 (heap st))
               = mkOutcome result (mkState remote4 (heap st)) []) →
            (∀ msg, answer = inl msg → result = inl (Error msg)) →
            attempt st = mkOutcome result (mkState remote4 (heap st)) requests)
    as Hattempt.
  { intros result Hanswered Hfailed. subst attempt.
    eapply bind_eq; [exact HgetZone | | reflexivity].
    eapply bind_eq; [exact HgetRules | | reflexivity].
    rewrite Hfind.
    eapply bind_eq;
      [eapply bind_eq; [exact Hdel | reflexivity | reflexivity] | | reflexivity].
    destruct answer as [msg|data].
    - rewrite (Hfailed msg eq_refl). eapply bind_eq_throw. exact Hnew.
    - eapply bind_eq; [exact Hnew | by apply Hanswered | reflexivity]. }
  destruct answer as [msg|data]; [|destruct (Response.success data) eqn:Hsuccess].
  - rewrite (try_then _ _ _ _ _ _ _ _
               (Hattempt (inl (Error msg)) ltac:(done) ltac:(by intros ? [= <-]))
               eq_refl eq_refl).
    by rewrite app_nil_r.
  - rewrite (try_eq _ _ _ _ _ _
               (Hattempt (inr ())
                  ltac:(intros ? [= <-]; by rewrite Hsuccess) ltac:(done))).
    done.
  - rewrite (try_then _ _ _ _ _ _ _ _
               (Hattempt (inl (Error "Failed to change domain redirect"))
                  ltac:(intros ? [= <-]; by rewrite Hsuccess) ltac:(done))
               eq_refl eq_refl).
    by rewrite app_nil_r.
Qed.

(** C6 (amended): for a domain whose zone has a forwarding rule, the redirect
    replacement sends, after the lookup that resolves the zone, exactly
    the requests: fetch the page rules, delete the first rule that has a
    [forwarding_url] action, by its id, create the new rule, in that
    order.  The new rule forwards every URL under the domain to the new
    URL, with status 301, at priority 1, and is active.  The operation
    returns when the creation succeeds; when the creation fails, by an
    error or by a success flag that is false, it throws, and sends
    nothing after the failed creation: the remote account is left as the
    deletion and the failed creation left it.  For a remote where the
    deletion removes the rule of that id and a failed creation creates
    nothing, a zone whose only forwarding rule was the deleted one is
    then left with no forwarding rule. *)
Theorem C6_redirect_replace_sequence (domain newRedirectUrl : string)
    (st : State R) (found : bool) (zone : Zone.t) (zones : list Zone.t)
    (rules : list PageRule.t) (rule : PageRule.t) (deleted : Response.t Json)
    (answer : string + Response.t Json) (remote1 remote2 remote3 remote4 : R) :
  let zoneId := Zone.id zone in
  let run := changeDomainRedirect domain newRedirectUrl st in
  let formattedDomain :=
    if Js.endsWith domain "/" then Js.dropLast domain else domain in
  let newRule :=
    NewRule.mk [Target.mk "url" "matches" (formattedDomain +:+ "/*")]
               [Action.mk "forwarding_url" newRedirectUrl 301] 1 "active" in
  let failed :=
    match answer with
    | inr data => Response.success data = false
    | inl _ => True
    end in
  api _ (ZoneByName domain) (remote st)
  = (inr (Response.mk found (zone :: zones)), remote1) →
  api _ (ListPageRules zoneId) remote1 = (inr (Response.mk true rules), remote2) →
  List.find isForwardingRule rules = Some rule →
  api _ (DeletePageRule zoneId (PageRule.id rule)) remote2 = (inr deleted, remote3) →
  api _ (CreatePageRule zoneId newRule) remote3 = (answer, remote4) →
  calls run
  = [call (ZoneByName domain);
     call (ListPageRules zoneId);
     call (DeletePageRule zoneId (PageRule.id rule));
     call (CreatePageRule zoneId newRule)]
  ∧ remote (final run) = remote4
  ∧ returned run
    = match answer with
      | inr data =>
          if Response.success data then inr ()
          else inl (ReferenceError "zoneId is not defined")
      | inl _ => inl (ReferenceError "zoneId is not defined")
      end
  ∧ ∀ rulesOf : R → list PageRule.t,
      rulesOf remote3
      = List.filter (λ r, negb (String.eqb (PageRule.id r) (PageRule.id rule))) rules →
      (failed → rulesOf remote4 = rulesOf remote3) →
      Forall (λ r, isForwardingRule r = true → PageRule.id r = PageRule.id rule)
             rules →
      failed →
      returned run = inl (ReferenceError "zoneId is not defined")
      ∧ Forall (λ r, isForwardingRule r = false) (rulesOf (remote (final run))).
Proof.
  intros zoneId run formattedDomain newRule failed Hzone Hrules Hfind Hdelete Hcreate.
  destruct (changeDomainRedirect_replaces domain newRedirectUrl st found zone zones
              rules rule deleted answer remote1 remote2 remote3 remote4
              Hzone Hrules Hfind Hdelete Hcreate) as (Hcalls & Hremote & Hreturned).
  split; [exact Hcalls|]. split; [exact Hremote|]. split; [exact Hreturned|].
  intros rulesOf Hdeleted Hkept Hone Hfailed. split.
  - fold run in Hreturned. rewrite Hreturned. subst failed.
    destruct answer as [msg|data]; [done|]. by rewrite Hfailed.
  - fold run in Hremote. rewrite Hremote, (Hkept Hfailed), Hdeleted.
    apply Forall_forall. intros r Hr.
    apply list_elem_of_In, filter_In in Hr as [Hr Hid].
    rewrite Forall_forall in Hone.
    destruct (isForwardingRule r) eqn:Hforwarding; [|done].
    assert (r ∈ rules) as Hin by (by apply list_elem_of_In).
    rewrite (Hone r Hin Hforwarding), String.eqb_refl in Hid. discriminate.
Qed.

End Redirect.

(** The zone of [a.com] has a forwarding rule and no quota for a new
    one: the old rule is deleted, the creation fails, the operation
    throws, and the zone is left with no forwarding rule. *)
Lemma C6_redirect_replace_sequence_witness :
  let run := changeDomainRedirect "a.com" "https://new.example" Demo.start in
  calls run
  = [call (ZoneByName "a.com");
     call (ListPageRules "zone:a.com");
     call (DeletePageRule "zone:a.com" "rule-1");
     call (CreatePageRule "zone:a.com"
             (NewRule.mk [Target.mk "url" "matches" "a.com/*"]
                [Action.mk "forwarding_url" "https://new.example" 301]
                1 "active"))]
  ∧ remote (final run)
    = Demo.mkAccount ["a.com"; "b.com"] ["down.example"] []
        (Demo.dnsRecords Demo.account) [] 0 []
  ∧ returned run = inl (ReferenceError "zoneId is not defined")
  ∧ Forall (λ r, isForwardingRule r = false)
           (Demo.pageRules (remote (final run))).
Proof.
  destruct (C6_redirect_replace_sequence (R := Demo.Account)
              "a.com" "https://new.example" Demo.start true (Demo.zoneOf "a.com") []
              [Demo.oldRule] Demo.oldRule (Response.mk true "{}")
              (inr (Response.mk false "null"))
              Demo.account Demo.account
              (Demo.mkAccount ["a.com"; "b.com"] ["down.example"] []
                 (Demo.dnsRecords Demo.account) [] 0 [])
              (Demo.mkAccount ["a.com"; "b.com"] ["down.example"] []
                 (Demo.dnsRecords Demo.account) [] 0 []))
    as (Hcalls & Hremote & Hreturned & Hleft); [reflexivity..|].
  split; [exact Hcalls|]. split; [exact Hremote|]. split; [exact Hreturned|].
  apply (Hleft Demo.pageRules).
  - reflexivity.
  - intros _. reflexivity.
  - constructor; [intros _; reflexivity | constructor].
  - reflexivity.
Defined.

(** C6 as it is written, for every domain that has a forwarding rule,
    fails on a zone that has two: the replacement deletes the first one
    only (line 601 finds one rule), so that after the failed creation the
    zone is left with the second forwarding rule. *)
Lemma C6_second_forwarding_rule_counterexample :
  ¬ Forall (λ r, isForwardingRule r = false)
      (Demo.pageRules
         (remote (final (changeDomainRedirect "a.com" "https://new.example"
                           Samples.twoRulesStart)))).
Proof.
  intros Hnone. vm_compute in Hnone.
  apply Forall_cons in Hnone as [Hrule _]. discriminate.
Qed.

Example failed_creation_leaves_no_rule :
  Demo.pageRules
    (remote (final (changeDomainRedirect "a.com" "https://new.example" Demo.start)))
  = [].
Proof. reflexivity. Qed.

(** * Further properties *)

(** ** Fields and trimming *)

Lemma split_runs_from_cons issep in_run s :
  ∃ field fields, Js.split_runs_from issep in_run s = field :: fields.
Proof.
  revert in_run. induction s as [|c s IH]; intros in_run; simpl; [by eauto|].
  destruct (issep c).
  - destruct in_run; [apply IH | by eauto].
  - destruct (IH false) as (field & fields & ->). by eauto.
Qed.

(** No field of [s.split(/C+/)] holds a code unit of the class [C]. *)
Lemma split_runs_fields_clean (issep : ascii → bool) (s : string) :
  Forall (λ field, noChar issep field = true) (Js.split_runs issep s).
Proof.
  unfold Js.split_runs. generalize false as in_run.
  induction s as [|c s IH]; intros in_run; simpl.
  - by repeat constructor.
  - destruct (issep c) eqn:Hc.
    + destruct in_run; [apply IH|]. constructor; [done | apply IH].
    + specialize (IH false).
      destruct (Js.split_runs_from issep false s) as [|field fields]; simpl.
      * repeat constructor. simpl. by rewrite Hc.
      * apply Forall_cons in IH as [Hfield Hfields].
        constructor; [|done]. simpl. by rewrite Hc, Hfield.
Qed.

Lemma split_runs_from_clean issep s :
  endsOutside issep s = true →
  (s ≠ EmptyString →
   Forall (λ field, field ≠ EmptyString) (Js.split_runs_from issep true s))
  ∧ Forall (λ field, field ≠ EmptyString)
           (tail (Js.split_runs_from issep false s)).
Proof.
  induction s as [|c s IH]; intros Hends.
  - split; [done | by constructor].
  - assert (endsOutside issep s = true ∧ (issep c = true → s ≠ EmptyString))
      as [Hends' Hrest].
    { destruct s as [|c' s]; simpl in *; [|by split].
      split; [done|]. intros Hc. by rewrite Hc in Hends. }
    destruct (IH Hends') as [IHrun IHtail]. simpl.
    destruct (issep c) eqn:Hc.
    + split; [intros _|]; by apply IHrun, Hrest.
    + destruct (Js.split_runs_from issep false s) as [|field fields]; simpl in *.
      * split; [intros _|]; by repeat constructor.
      * split; [intros _; by constructor | done].
Qed.

(** The fields of a string that neither starts nor ends with a separator
    are all non-empty. *)
Lemma split_runs_nonempty issep c s :
  issep c = false →
  endsOutside issep (String c s) = true →
  Forall (λ field, field ≠ EmptyString) (Js.split_runs issep (String c s)).
Proof.
  intros Hc Hends. unfold Js.split_runs. simpl. rewrite Hc.
  assert (endsOutside issep s = true) as Hends'.
  { destruct s; simpl in *; [done | done]. }
  destruct (split_runs_from_clean issep s Hends') as [_ Htail].
  destruct (Js.split_runs_from issep false s) as [|field fields]; simpl in *.
  - by repeat constructor.
  - by constructor.
Qed.

Lemma trimStart_starts s :
  match Js.trimStart s with
  | EmptyString => True
  | String c _ => Js.is_ws c = false
  end.
Proof.
  induction s as [|c s IH]; simpl; [done|].
  destruct (Js.is_ws c) eqn:Hc; [done | by simpl].
Qed.

Lemma trimEnd_ends s : endsOutside Js.is_ws (Js.trimEnd s) = true.
Proof.
  induction s as [|c s IH]; simpl; [done|].
  destruct (Js.trimEnd s) as [|c' t] eqn:Ht; simpl.
  - destruct (Js.is_ws c) eqn:Hc; simpl; [done | by rewrite Hc].
  - rewrite andb_false_r. simpl. done.
Qed.

Lemma trimEnd_head c s :
  Js.is_ws c = false →
  ∃ t, Js.trimEnd (String c s) = String c t.
Proof. intros Hc. simpl. rewrite Hc. simpl. by eauto. Qed.

(** A trimmed string is empty or starts and ends outside white space. *)
Lemma trim_clean s :
  Js.trim s = EmptyString
  ∨ ∃ c t, Js.trim s = String c t ∧ Js.is_ws c = false
           ∧ endsOutside Js.is_ws (String c t) = true.
Proof.
  unfold Js.trim. pose proof (trimStart_starts s) as Hstart.
  destruct (Js.trimStart s) as [|c s'] eqn:Hs; [by left|]. right.
  destruct (trimEnd_head c s' Hstart) as [t Ht]. exists c, t.
  split; [done|]. split; [done|]. rewrite <- Ht. apply trimEnd_ends.
Qed.

Lemma is_tab_is_ws c : Js.is_tab c = true → Js.is_ws c = true.
Proof. unfold Js.is_tab. intros Hc. apply Ascii.eqb_eq in Hc. by subst c. Qed.

Lemma endsOutside_weaken (p q : ascii → bool) s :
  (∀ c, q c = true → p c = true) →
  endsOutside p s = true → endsOutside q s = true.
Proof.
  intros Hpq. induction s as [|c s IH]; [done|].
  destruct s as [|c' s]; simpl in *; [|done].
  destruct (p c) eqn:Hp; [done|]. intros _.
  destruct (q c) eqn:Hq; [|done]. by rewrite (Hpq c Hq) in Hp.
Qed.

(** The fields of a trimmed line, cut on tabs or on white space, are
    never empty (unless the line itself is), and hold no separator. *)
Lemma trimmed_fields_clean (line : string) :
  Js.trim line ≠ EmptyString →
  Forall (λ field, field ≠ EmptyString ∧ noChar Js.is_tab field = true)
         (tabFields (Js.trim line))
  ∧ Forall (λ field, field ≠ EmptyString ∧ noChar Js.is_ws field = true)
           (whitespaceFields (Js.trim line)).
Proof.
  intros Hline. destruct (trim_clean line) as [Hempty|(c & t & Htrim & Hc & Hends)];
    [done|].
  rewrite Htrim. split; apply Forall_and; split.
  - apply split_runs_nonempty.
    + destruct (Js.is_tab c) eqn:Htab; [|done]. by rewrite (is_tab_is_ws c Htab) in Hc.
    + apply (endsOutside_weaken Js.is_ws); [apply is_tab_is_ws | exact Hends].
  - apply split_runs_fields_clean.
  - by apply split_runs_nonempty.
  - apply split_runs_fields_clean.
Qed.

(** ** Mapping builder: further properties *)

Lemma append_nil_r (s : string) : s +:+ EmptyString = s.
Proof. induction s as [|c s IH]; [done|]. by rewrite append_cons, IH. Qed.

Lemma append_assoc (s t u : string) : (s +:+ t) +:+ u = s +:+ (t +:+ u).
Proof. induction s as [|c s IH]; [done|]. by rewrite !append_cons, IH. Qed.

Lemma trimStart_space before s :
  allChars Js.is_ws before = true → Js.trimStart (before +:+ s) = Js.trimStart s.
Proof.
  induction before as [|c before IH]; [done|]. cbn [allChars].
  intros [Hc Hrest]%andb_prop. rewrite append_cons. cbn [Js.trimStart].
  rewrite Hc. by apply IH.
Qed.

Lemma trimEnd_all_space after :
  allChars Js.is_ws after = true → Js.trimEnd after = EmptyString.
Proof.
  induction after as [|c after IH]; [done|]. simpl.
  intros [Hc Hrest]%andb_prop. by rewrite (IH Hrest), Hc.
Qed.

Lemma trimEnd_space s after :
  allChars Js.is_ws after = true → Js.trimEnd (s +:+ after) = Js.trimEnd s.
Proof.
  intros Hafter. induction s as [|c s IH].
  - by apply trimEnd_all_space.
  - rewrite append_cons. simpl. by rewrite IH.
Qed.

Lemma trimStart_app s after :
  allChars Js.is_ws after = true →
  Js.trimStart (s +:+ after) = Js.trimStart s +:+ after
  ∨ Js.trimStart s = EmptyString ∧ Js.trimStart (s +:+ after) = EmptyString.
Proof.
  intros Hafter. induction s as [|c s IH].
  - right. split; [done|]. change (EmptyString +:+ after) with after.
    clear -Hafter. induction after as [|c after IH]; [done|].
    simpl in *. apply andb_prop in Hafter as [-> Hrest]. by apply IH.
  - rewrite append_cons. simpl. destruct (Js.is_ws c); [done | by left].
Qed.

(** White space around a line is not part of its trimmed form. *)
Lemma trim_space_around before line after :
  allChars Js.is_ws before = true →
  allChars Js.is_ws after = true →
  Js.trim (before +:+ line +:+ after) = Js.trim line.
Proof.
  intros Hbefore Hafter. unfold Js.trim.
  rewrite trimStart_space by done.
  destruct (trimStart_app line after Hafter) as [->|[Hnone ->]].
  - by apply trimEnd_space.
  - by rewrite Hnone.
Qed.

Section MappingAbort.
Variable fields : string → list string.

(** The loop ends at the first line that gives a record to an inherited
    key. *)
Lemma mappingLines_abort lines acc :
  ownKeysOnly fields lines = false →
  ∃ message reports, mappingLines fields lines acc = (inl message, reports).
Proof.
  revert acc. induction lines as [|line lines IH]; intros [m reports] Hown; [done|].
  unfold ownKeysOnly in Hown. simpl in Hown. apply andb_false_iff in Hown.
  cbn [mappingLines].
  destruct (mappingLine fields (m, reports) line) as [message|acc'] eqn:Hturn;
    [by eauto|].
  destruct Hown as [Hline|Hrest]; [|by apply IH].
  exfalso. revert Hturn. unfold mappingLine, classify in *.
  destruct (Js.is_empty (Js.trim line) || Js.startsWith (Js.trim line) "#"); [done|].
  destruct (fields (Js.trim line)) as [|d [|v rest]]; simpl in *; [done..|].
  unfold part. simpl. by destruct (isInherited d).
Qed.

End MappingAbort.

(** X1: a line whose first field is a property name that objects inherit
    (such as [toString]) ends the parsing: the function returns [null],
    and the records of all the other lines are lost with it. *)
Theorem createDomainRecordsMap_inherited_key_returns_null
    (readFile : string → string + string) (filePath text : string) :
  readFile filePath = inr text →
  ownKeysOnly tabFields (Js.split "010"%char text) = false →
  (createDomainRecordsMapFromTextFile readFile filePath).1 = None.
Proof.
  intros Hread Hown. unfold createDomainRecordsMapFromTextFile. rewrite Hread.
  by destruct (mappingLines_abort tabFields _ (∅, []) Hown) as (message & reports & ->).
Qed.

Lemma createDomainRecordsMap_inherited_key_returns_null_witness :
  (createDomainRecordsMapFromTextFile (λ _, inr Samples.inheritedKeyTxt)
     "domains.txt").1 = None.
Proof.
  apply (createDomainRecordsMap_inherited_key_returns_null
           (λ _, inr Samples.inheritedKeyTxt) "domains.txt" Samples.inheritedKeyTxt);
    reflexivity.
Defined.

Lemma entries_are_verification_records domain lines :
  Forall isVerificationRecord (entriesFor tabFields domain lines)
  ∧ (entriesFor tabFields domain lines ≠ [] →
     domain ≠ EmptyString ∧ noChar Js.is_tab domain = true).
Proof.
  induction lines as [|line lines [IHall IHkey]]; [by split|].
  unfold entriesFor in *. rewrite omap_cons.
  destruct (classify tabFields line) as [| |d v] eqn:Hkind; [by split..|].
  assert (Js.trim line ≠ EmptyString
          ∧ ∃ rest, tabFields (Js.trim line) = d :: v :: rest) as [Hline [rest Hfields]].
  { revert Hkind. unfold classify.
    destruct (Js.trim line) as [|c t] eqn:Htrim; [simpl; discriminate|].
    cbn [Js.is_empty orb].
    destruct (Js.startsWith (String c t) "#"); [done|].
    destruct (tabFields (String c t)) as [|d' [|v' rest]]; [done..|].
    intros [= -> ->]. by eauto. }
  destruct (trimmed_fields_clean line Hline) as [Hfieldsok _].
  rewrite Hfields in Hfieldsok.
  apply Forall_cons in Hfieldsok as [[Hd Hdtab] Hfieldsok].
  apply Forall_cons in Hfieldsok as [[Hv Hvtab] _].
  case_decide as Hdomain; [|by split]. subst d. split.
  - constructor; [|done]. by repeat split.
  - by intros _.
Qed.

Lemma recordsMap_verification_records
    (readFile : string → string + string) (filePath : string)
    (recordsMap : gmap string (list DNSRecord.t)) (reports : list string)
    (domain : string) (records : list DNSRecord.t) :
  createDomainRecordsMapFromTextFile readFile filePath = (Some recordsMap, reports) →
  recordsMap !! domain = Some records →
  domain ≠ EmptyString
  ∧ noChar Js.is_tab domain = true
  ∧ records ≠ []
  ∧ Forall isVerificationRecord records.
Proof.
  unfold createDomainRecordsMapFromTextFile.
  destruct (readFile filePath) as [message|text] eqn:Hread; [done|].
  destruct (ownKeysOnly tabFields (Js.split "010"%char text)) eqn:Hown.
  - destruct (mappingLines_run tabFields _ ∅ [] Hown) as (m & -> & Hlookup).
    intros [= <- <-] Hdomain. rewrite Hlookup, lookup_empty in Hdomain.
    destruct (entries_are_verification_records domain (Js.split "010"%char text))
      as [Hall Hkey].
    unfold pushed in Hdomain.
    destruct (entriesFor tabFields domain (Js.split "010"%char text))
      as [|record entries] eqn:Hentries; [done|].
    injection Hdomain as <-. simpl.
    destruct Hkey as [Hname Htab]; [done|]. by repeat split.
  - by destruct (mappingLines_abort tabFields _ (∅, []) Hown) as (message & rs & ->).
Qed.

(** X2: whenever the mapping builder returns a map, every key of the map
    is a non-empty name without a tab, its list of records is not empty,
    and every record is an apex TXT record with TTL 3600 whose value is
    not empty and has no tab. *)
Theorem createDomainRecordsMap_records_are_verification_records
    (readFile : string → string + string) (filePath : string)
    (recordsMap : gmap string (list DNSRecord.t)) (reports : list string)
    (domain : string) (records : list DNSRecord.t) :
  createDomainRecordsMapFromTextFile readFile filePath = (Some recordsMap, reports) →
  recordsMap !! domain = Some records →
  domain ≠ EmptyString
  ∧ noChar Js.is_tab domain = true
  ∧ records ≠ []
  ∧ Forall isVerificationRecord records.
Proof. apply recordsMap_verification_records. Qed.

Lemma createDomainRecordsMap_records_are_verification_records_witness :
  "a.com" ≠ EmptyString
  ∧ noChar Js.is_tab "a.com" = true
  ∧ [txtRecord "google-site-verification=abc";
     txtRecord "v=spf1 include:_spf.google.com ~all"] ≠ []
  ∧ Forall isVerificationRecord
      [txtRecord "google-site-verification=abc";
       txtRecord "v=spf1 include:_spf.google.com ~all"].
Proof.
  apply (createDomainRecordsMap_records_are_verification_records
           (λ _, inr Demo.domainsTxt) "domains.txt"
           (default ∅ (createDomainRecordsMapFromTextFile
                         (λ _, inr Demo.domainsTxt) "domains.txt").1)
           (createDomainRecordsMapFromTextFile
              (λ _, inr Demo.domainsTxt) "domains.txt").2
           "a.com").
  - vm_compute. reflexivity.
  - vm_compute. reflexivity.
Defined.

Lemma entriesFor_trimmed domain lines lines' :
  map Js.trim lines' = map Js.trim lines →
  entriesFor tabFields domain lines' = entriesFor tabFields domain lines
  ∧ ownKeysOnly tabFields lines' = ownKeysOnly tabFields lines.
Proof.
  revert lines'. induction lines as [|line lines IH]; intros [|line' lines'];
    [done..|].
  intros [= Htrim Hrest]. destruct (IH lines' Hrest) as [IHentries IHown].
  unfold entriesFor, ownKeysOnly, classify in *. rewrite !omap_cons. simpl.
  by rewrite Htrim, IHentries, IHown.
Qed.

(** X3: the map that the mapping builder returns depends on the lines of
    the file only through their trimmed forms: white space around the
    lines (a carriage return before every line feed, an indentation)
    changes nothing. *)
Theorem createDomainRecordsMap_ignores_space_around_lines
    (filePath text text' : string) :
  map Js.trim (Js.split "010"%char text') = map Js.trim (Js.split "010"%char text) →
  (createDomainRecordsMapFromTextFile (λ _, inr text') filePath).1
  = (createDomainRecordsMapFromTextFile (λ _, inr text) filePath).1.
Proof.
  intros Hsame. unfold createDomainRecordsMapFromTextFile.
  pose proof (λ domain, proj1 (entriesFor_trimmed domain _ _ Hsame)) as Hentries.
  pose proof (proj2 (entriesFor_trimmed EmptyString _ _ Hsame)) as Hown.
  destruct (ownKeysOnly tabFields (Js.split "010"%char text)) eqn:Hown1.
  - destruct (mappingLines_run tabFields _ ∅ [] Hown) as (m' & -> & Hlookup').
    destruct (mappingLines_run tabFields _ ∅ [] Hown1) as (m & -> & Hlookup).
    simpl. f_equal. apply map_eq. intros domain.
    by rewrite Hlookup, Hlookup', Hentries.
  - destruct (mappingLines_abort tabFields _ (∅, []) Hown) as (? & ? & ->).
    by destruct (mappingLines_abort tabFields _ (∅, []) Hown1) as (? & ? & ->).
Qed.

Lemma createDomainRecordsMap_ignores_space_around_lines_witness :
  (createDomainRecordsMapFromTextFile (λ _, inr Samples.indentedTxt) "domains.txt").1
  = (createDomainRecordsMapFromTextFile (λ _, inr Demo.domainsTxt) "domains.txt").1.
Proof.
  apply (createDomainRecordsMap_ignores_space_around_lines
           "domains.txt" Demo.domainsTxt Samples.indentedTxt).
  vm_compute. reflexivity.
Defined.

(** ** Set-difference reconciler: further properties *)

Section OrderedMapKeys.
Context {V : Type}.
Implicit Types m : list (string * V).

Lemma map_set_keys k (v : V) m :
  map fst (Js.map_set k v m)
  = if decide (k ∈ map fst m) then map fst m else map fst m ++ [k].
Proof.
  induction m as [|[k' v'] m IH].
  - by rewrite decide_False by apply not_elem_of_nil.
  - cbn [Js.map_set map fst].
    destruct (String.eqb_spec k' k) as [->|Hne]; cbn [map fst].
    + by rewrite decide_True by (by left).
    + rewrite IH. destruct (decide (k ∈ map fst m)) as [Hin|Hin].
      * by rewrite decide_True by (by right).
      * rewrite decide_False; [done|]. rewrite not_elem_of_cons. by split.
Qed.

Lemma map_of_entries_keys_from m (l : list (string * V)) :
  NoDup (map fst m) →
  NoDup (map fst (foldl (λ m kv, Js.map_set kv.1 kv.2 m) m l))
  ∧ ∀ k, k ∈ map fst (foldl (λ m kv, Js.map_set kv.1 kv.2 m) m l)
         ↔ k ∈ map fst m ∨ k ∈ map fst l.
Proof.
  revert m. induction l as [|[k v] l IH]; intros m Hm.
  - split; [done|]. intros k'. simpl. rewrite elem_of_nil. tauto.
  - rewrite foldl_cons. simpl.
    assert (NoDup (map fst (Js.map_set k v m))
            ∧ ∀ k', k' ∈ map fst (Js.map_set k v m) ↔ k' ∈ map fst m ∨ k' = k)
      as [Hset Hkeys].
    { rewrite map_set_keys. case_decide as Hin.
      - split; [done|]. intros k'. split; [tauto|]. by intros [?| ->].
      - split.
        + apply NoDup_app. split; [done|]. split; [|apply NoDup_singleton].
          intros k' Hk' ->%list_elem_of_singleton. done.
        + intros k'. by rewrite elem_of_app, list_elem_of_singleton. }
    destruct (IH _ Hset) as [IHnodup IHkeys]. split; [done|].
    intros k'. rewrite IHkeys, Hkeys, elem_of_cons. tauto.
Qed.

(** The keys of a [Map] are distinct, and they are the keys of its
    entries. *)
Lemma map_of_entries_keys (l : list (string * V)) :
  NoDup (map fst (Js.map_of_entries l))
  ∧ ∀ k, k ∈ map fst (Js.map_of_entries l) ↔ k ∈ map fst l.
Proof.
  destruct (map_of_entries_keys_from [] l) as [Hnodup Hkeys]; [constructor|].
  split; [done|]. intros k. rewrite (Hkeys k). simpl. rewrite elem_of_nil. tauto.
Qed.

End OrderedMapKeys.

Lemma filter_none {A} (P : A → Prop) `{∀ x, Decision (P x)} (l : list A) :
  (∀ x, x ∈ l → ¬ P x) → filter P l = [].
Proof.
  induction l as [|x l IH]; intros Hnone; [done|].
  rewrite filter_cons_False by (apply Hnone; by left).
  apply IH. intros y Hy. apply Hnone. by right.
Qed.

Lemma names_of_map (m : list (string * string)) :
  map DomainEntry.name (map (λ kv : string * string, DomainEntry.mk kv.2 kv.1) m)
  = map fst m.
Proof. induction m as [|kv m IH]; simpl; [done | by rewrite IH]. Qed.

Lemma keys_filter_NoDup (P : string * string → Prop) `{∀ x, Decision (P x)}
    (m : list (string * string)) :
  NoDup (map fst m) → NoDup (map fst (filter P m)).
Proof.
  induction m as [|kv m IH]; [done|]. simpl. rewrite NoDup_cons.
  intros [Hnotin Hnodup]. rewrite filter_cons.
  destruct (decide (P kv)); [|by apply IH].
  simpl. rewrite NoDup_cons. split; [|by apply IH].
  intros Hin. apply Hnotin.
  apply list_elem_of_In, in_map_iff in Hin as (kv' & Hkey & Hin).
  apply list_elem_of_In, in_map_iff. exists kv'. split; [done|].
  apply list_elem_of_In. apply list_elem_of_In, list_elem_of_filter in Hin. tauto.
Qed.

(** The reconciler, for any snapshot: a filter of the [Map] of the
    snapshot. *)
Lemma filteredDomains_general (full : list DomainEntry.t) files :
  filteredDomains full files
  = map (λ kv : string * string, DomainEntry.mk kv.2 kv.1)
        (filter (λ kv, kv.1 ∉ excludedNames files)
                (Js.map_of_entries
                   (map (λ domain, (DomainEntry.name domain, DomainEntry.id domain))
                        full))).
Proof. unfold filteredDomains. by rewrite subtractFiles_filter. Qed.

(** X4: for any snapshot, also one that lists a name several times, the
    reconciled list has every name at most once, and its names are
    exactly the names of the snapshot that no exclusion file lists. *)
Theorem filteredDomains_names (full : list DomainEntry.t)
    (files : list (string * list DomainEntry.t)) :
  NoDup (map DomainEntry.name (filteredDomains full files))
  ∧ ∀ name,
      name ∈ map DomainEntry.name (filteredDomains full files)
      ↔ name ∈ map DomainEntry.name full ∧ name ∉ excludedNames files.
Proof.
  rewrite filteredDomains_general, names_of_map.
  set (entries := map (λ domain, (DomainEntry.name domain, DomainEntry.id domain)) full).
  destruct (map_of_entries_keys entries) as [Hnodup Hkeys]. split.
  - by apply keys_filter_NoDup.
  - intros name. rewrite <- (names_of_entries full). fold entries.
    rewrite <- (Hkeys name). rewrite !list_elem_of_In, !in_map_iff. split.
    + intros ([k v] & <- & Hin). apply list_elem_of_In, list_elem_of_filter in Hin.
      destruct Hin as [Hout Hin]. split; [|by rewrite <- list_elem_of_In].
      exists (k, v). split; [done|]. by apply list_elem_of_In.
    + intros [([k v] & <- & Hin) Hout]. exists (k, v). split; [done|].
      apply list_elem_of_In, list_elem_of_filter.
      split; [by rewrite list_elem_of_In | by apply list_elem_of_In].
Qed.

Lemma excludedNames_Permutation files files' :
  files ≡ₚ files' → excludedNames files ≡ₚ excludedNames files'.
Proof. intros Hperm. unfold excludedNames. by rewrite Hperm. Qed.

(** X5: the order in which the directory lists its files does not change
    the reconciled list. *)
Theorem filteredDomains_file_order (full : list DomainEntry.t)
    (files files' : list (string * list DomainEntry.t)) :
  files ≡ₚ files' →
  filteredDomains full files' = filteredDomains full files.
Proof.
  intros Hperm. rewrite !filteredDomains_general. f_equal.
  apply list_filter_iff. intros kv.
  by rewrite (excludedNames_Permutation _ _ Hperm).
Qed.

Lemma filteredDomains_file_order_witness :
  filteredDomains Demo.snapshot (reverse Demo.domainsDir)
  = filteredDomains Demo.snapshot Demo.domainsDir.
Proof.
  apply (filteredDomains_file_order Demo.snapshot Demo.domainsDir
           (reverse Demo.domainsDir)).
  symmetry. apply reverse_Permutation.
Defined.

(** X6: the function writes its result into the directory it reads its
    exclusion files from.  Run a second time with the same new [.txt]
    output name, it finds its first result among the exclusion files and
    writes the empty list. *)
Theorem writeDomainsToFileByExclusion_second_run_is_empty
    (dir dir1 : list (string * list DomainEntry.t)) (outputFileName : string) :
  isExclusionFile outputFileName = true →
  outputFileName ∉ map fst dir →
  writeDomainsToFileByExclusion dir outputFileName = Some dir1 →
  writeDomainsToFileByExclusion dir1 outputFileName
  = Some (dir ++ [(outputFileName, [])]).
Proof.
  intros Hexclusion Hfresh. unfold writeDomainsToFileByExclusion.
  destruct (list_find (λ file, file.1 = "all.txt") dir) as [[i [n allFile]]|] eqn:Hfind;
    [|done].
  rewrite map_set_fresh by done. intros [= <-].
  rewrite (list_find_app_l _ _ _ _ _ Hfind).
  assert (filteredDomains allFile
            (dir ++ [(outputFileName, filteredDomains allFile dir)]) = []) as ->.
  { rewrite filteredDomains_general, excludedNames_app.
    rewrite filter_none; [done|]. intros [k v] Hin Hout. simpl in Hout.
    apply not_elem_of_app in Hout as [Hout1 Hout2]. apply Hout2.
    unfold excludedNames. simpl. rewrite Hexclusion, app_nil_r.
    rewrite filteredDomains_general, names_of_map.
    apply list_elem_of_In, in_map_iff. exists (k, v). split; [done|].
    apply list_elem_of_In, list_elem_of_filter. by split. }
  f_equal.
  assert (∀ (m : list (string * list DomainEntry.t)) old,
            outputFileName ∉ map fst m →
            Js.map_set outputFileName [] (m ++ [(outputFileName, old)])
            = m ++ [(outputFileName, [])]) as Hset.
  { intros m old. induction m as [|[k v] m IH]; simpl.
    - intros _. by rewrite String.eqb_refl.
    - intros [Hne Hm]%not_elem_of_cons.
      destruct (String.eqb_spec k outputFileName) as [->|_]; [done|]. by rewrite IH. }
  by apply Hset.
Qed.

Lemma writeDomainsToFileByExclusion_second_run_is_empty_witness :
  writeDomainsToFileByExclusion
    (Demo.domainsDir ++ [("result.txt", [DomainEntry.mk "2" "b.com"])]) "result.txt"
  = Some (Demo.domainsDir ++ [("result.txt", [])]).
Proof.
  apply (writeDomainsToFileByExclusion_second_run_is_empty Demo.domainsDir
           (Demo.domainsDir ++ [("result.txt", [DomainEntry.mk "2" "b.com"])])
           "result.txt").
  - reflexivity.
  - apply (bool_decide_unpack _). vm_compute. reflexivity.
  - reflexivity.
Defined.

(** ** Requests and record objects of the bulk provisioner, for any list *)

Section Traces.
Context {R : Type}.

Lemma calls_bind {A B} (m : M R A) (k : A → M R B) st :
  calls (bind m k st)
  = calls (m st)
      ++ match returned (m st) with
         | inr a => calls (k a (final (m st)))
         | inl _ => []
         end.
Proof. unfold bind. destruct (returned (m st)); simpl; by rewrite ?app_nil_r. Qed.

Lemma calls_try_catch {A} (m : M R A) handler st :
  calls (try_catch m handler st)
  = calls (m st)
      ++ match returned (m st) with
         | inl error => calls (handler error (final (m st)))
         | inr _ => []
         end.
Proof. unfold try_catch. destruct (returned (m st)); simpl; by rewrite ?app_nil_r. Qed.

Lemma final_bind {A B} (m : M R A) (k : A → M R B) st :
  final (bind m k st)
  = match returned (m st) with
    | inr a => final (k a (final (m st)))
    | inl _ => final (m st)
    end.
Proof. unfold bind. by destruct (returned (m st)). Qed.

Lemma final_try_catch {A} (m : M R A) handler st :
  final (try_catch m handler st)
  = match returned (m st) with
    | inl error => final (handler error (final (m st)))
    | inr _ => final (m st)
    end.
Proof. unfold try_catch. by destruct (returned (m st)). Qed.

Lemma returned_bind {A B} (m : M R A) (k : A → M R B) st :
  returned (bind m k st)
  = match returned (m st) with
    | inr a => returned (k a (final (m st)))
    | inl error => inl error
    end.
Proof. unfold bind. by destruct (returned (m st)). Qed.

Lemma returned_try_catch {A} (m : M R A) handler st :
  returned (try_catch m handler st)
  = match returned (m st) with
    | inl error => returned (handler error (final (m st)))
    | inr a => inr a
    end.
Proof. unfold try_catch. by destruct (returned (m st)) eqn:Hm. Qed.

End Traces.

Lemma normalised_fmap_idemp domain (o : option DNSRecord.t) :
  normalised domain <$> (normalised domain <$> o) = normalised domain <$> o.
Proof. destruct o; simpl; [|done]. by rewrite normalised_idemp. Qed.

Section AnyList.
Context {R : Type} `{Api R}.

Lemma insertDNSRecords_body_dangling domain zoneId results l (st : State R) :
  heap st !! l = None →
  insertDNSRecords_body domain zoneId results l st
  = mkOutcome (inl (TypeError "Cannot read properties of undefined (reading 'host')"))
              st [].
Proof.
  intros Hl. unfold insertDNSRecords_body. eapply bind_eq_throw.
  unfold readRecord. by rewrite Hl.
Qed.

(** The record loop on any list of references: what it sends and what it
    does to the record objects. *)
Lemma insertDNSRecords_loop_any domain zoneId records results (st : State R) :
  let run := for_of records results (insertDNSRecords_body domain zoneId) st in
  Forall (isSubmission domain records (heap st)) (calls run)
  ∧ length (heap (final run)) = length (heap st)
  ∧ normalisedSome domain records (heap st) (heap (final run)).
Proof.
  revert results st. induction records as [|l records IH]; intros results st run.
  - subst run. simpl. split; [constructor|]. split; [done|]. intros l. by left.
  - subst run. cbn [for_of]. destruct (heap st !! l) as [record|] eqn:Hl.
    + pose proof (insertDNSRecords_body_run domain zoneId results l st record Hl)
        as Hbody. cbn zeta in Hbody.
      rewrite calls_bind, final_bind, Hbody. cbn [returned final calls].
      match goal with
      | |- context [for_of records ?rs _ ?st1] =>
          destruct (IH rs st1) as (IHcalls & IHlength & IHheap)
      end.
      cbn [heap] in *. split; [|split].
      * constructor.
        -- exists zoneId, l, record. split; [by left | done].
        -- eapply Forall_impl; [exact IHcalls|].
           intros c (z & l' & record' & Hl' & Hrecord' & ->).
           destruct (decide (l = l')) as [<-|Hne].
           ++ rewrite list_lookup_alter_eq, Hl in Hrecord'. injection Hrecord' as <-.
              exists z, l, record. rewrite normalised_idemp. split; [by left | done].
           ++ rewrite list_lookup_alter_ne in Hrecord' by done.
              exists z, l', record'. split; [by right | done].
      * by rewrite IHlength, length_alter.
      * intros l'. destruct (IHheap l') as [Hsame|[Hl' Hnorm]].
        -- rewrite Hsame. destruct (decide (l = l')) as [<-|Hne].
           ++ right. split; [by left|]. by rewrite list_lookup_alter_eq.
           ++ left. by rewrite list_lookup_alter_ne.
        -- right. split; [by right|]. rewrite Hnorm.
           destruct (decide (l = l')) as [<-|Hne].
           ++ by rewrite list_lookup_alter_eq, normalised_fmap_idemp.
           ++ by rewrite list_lookup_alter_ne.
    + rewrite calls_bind, final_bind,
        (insertDNSRecords_body_dangling domain zoneId results l st Hl).
      cbn [returned final calls]. split; [constructor|]. split; [done|].
      intros l'. by left.
Qed.

(** [insertDNSRecords] on any list of references: one lookup, then
    creations of normalised record objects only; the objects are
    normalised or left alone. *)
Lemma insertDNSRecords_any domain records (st : State R) :
  let run := insertDNSRecords domain records st in
  (∃ submissions,
     calls run = call (ZoneByName domain) :: submissions
     ∧ Forall (isSubmission domain records (heap st)) submissions)
  ∧ length (heap (final run)) = length (heap st)
  ∧ normalisedSome domain records (heap st) (heap (final run)).
Proof.
  cbn zeta. unfold insertDNSRecords.
  rewrite calls_try_catch, final_try_catch, returned_bind, calls_bind, final_bind.
  rewrite getZoneId_calls.
  destruct (returned (getZoneId domain st)) as [error|zoneId] eqn:Hzone.
  - cbn [ret returned final calls]. rewrite getZoneId_heap.
    split; [exists []; by split|]. split; [done|]. intros l. by left.
  - pose proof (insertDNSRecords_loop_any domain zoneId records []
                  (final (getZoneId domain st))) as (Hcalls & Hlength & Hheap).
    rewrite getZoneId_heap in *.
    set (loop := for_of records [] (insertDNSRecords_body domain zoneId)
                   (final (getZoneId domain st))) in *.
    destruct (returned loop); cbn [ret returned final calls];
      rewrite ?app_nil_r; (split; [by eexists|done]).
Qed.

End AnyList.

Section BatchAnyList.
Context {R : Type} `{Api R}.

Lemma lookupOf_submission domain records objects c :
  isSubmission domain records objects c → lookupOf c = None.
Proof. by intros (z & l & r & _ & _ & ->). Qed.

Lemma omap_lookupOf_submissions domain records objects cs :
  Forall (isSubmission domain records objects) cs → omap lookupOf cs = [].
Proof.
  induction 1 as [|c cs Hc _ IH]; [done|].
  by rewrite omap_cons, (lookupOf_submission _ _ _ _ Hc).
Qed.

(** X7: the bulk record provisioner changes nothing of the caller's
    record objects but hosts: after a batch, every object is as it was,
    or it denoted the apex and has become the same record with the name
    of a domain of the batch, whose list refers to it, as host. *)
Theorem createDifferent_assigns_hosts_only (entries : list (string * list nat))
    (st : State R) :
  hostsAssigned entries (heap st)
    (heap (final (createDifferentDNSRecordsForManyDomains entries st))).
Proof.
  revert st. induction entries as [|[domain records] entries IH]; intros st.
  - split; [done|]. intros l record Hl. by left.
  - destruct (manyDomains_cons domain records entries st)
      as (rs1 & rs2 & _ & _ & ->). cbn [final].
    destruct (insertDNSRecords_any domain records st) as (_ & Hlength & Hheap).
    destruct (IH (final (insertDNSRecords domain records st))) as [IHlength IHheap].
    split; [by rewrite IHlength|].
    intros l record Hl.
    assert (∀ record1,
              heap (final (insertDNSRecords domain records st)) !! l = Some record1 →
              record1 = record ∨ (l ∈ records ∧ isApexHost (DNSRecord.host record) = true
                                  ∧ record1 = DNSRecord.set_host domain record))
      as Hfirst.
    { intros record1 Hl1. destruct (Hheap l) as [Hsame|[Hin Hnorm]].
      - left. rewrite Hsame, Hl in Hl1. by injection Hl1.
      - rewrite Hnorm, Hl in Hl1. injection Hl1 as <-. unfold normalised.
        destruct (isApexHost (DNSRecord.host record)); [by right | by left]. }
    destruct (heap (final (insertDNSRecords domain records st)) !! l)
      as [record1|] eqn:Hl1.
    2:{ apply lookup_ge_None in Hl1. apply lookup_lt_Some in Hl. lia. }
    destruct (Hfirst record1 eq_refl) as [->|(Hin & Hapex & ->)].
    + destruct (IHheap l record Hl1) as [Hsame|(Hapex & d & rs & Hd & Hin & Hset)].
      * by left.
      * right. split; [done|]. exists d, rs. split; [by right | done].
    + right. split; [done|].
      destruct (IHheap l _ Hl1) as [Hsame|(_ & d & rs & Hd & Hin' & Hset)].
      * exists domain, records. split; [by left | done].
      * exists d, rs. split; [by right | done].
Qed.

Lemma manyDomains_requests (entries : list (string * list nat)) (st : State R) :
  omap lookupOf (calls (createDifferentDNSRecordsForManyDomains entries st))
  = map fst entries
  ∧ Forall (λ c, is_Some (lookupOf c)
                 ∨ ∃ domain records objects,
                     (domain, records) ∈ entries
                     ∧ isSubmission domain records objects c)
           (calls (createDifferentDNSRecordsForManyDomains entries st)).
Proof.
  revert st. induction entries as [|[domain records] entries IH]; intros st.
  - split; [done | constructor].
  - destruct (manyDomains_cons domain records entries st)
      as (rs1 & rs2 & _ & _ & ->). cbn [calls].
    destruct (insertDNSRecords_any domain records st)
      as ((submissions & -> & Hsubmissions) & _ & _).
    destruct (IH (final (insertDNSRecords domain records st))) as [IHlookups IHcalls].
    split.
    + rewrite omap_app, omap_cons. simpl lookupOf.
      by rewrite (omap_lookupOf_submissions _ _ _ _ Hsubmissions), IHlookups.
    + apply Forall_app. split; [constructor|].
      * left. by eexists.
      * eapply Forall_impl; [exact Hsubmissions|]. intros c Hc. right.
        exists domain, records, (heap st). split; [by left | done].
      * eapply Forall_impl; [exact IHcalls|].
        intros c [Hlookup|(d & rs & objects & Hd & Hc)]; [by left|].
        right. exists d, rs, objects. split; [by right | done].
Qed.

(** X8: whatever the record objects and the answers of the API, no record
    is submitted with an empty host by a batch whose domain names are not
    empty. *)
Theorem createDifferent_submits_no_empty_host (entries : list (string * list nat))
    (st : State R) (zoneId : string) (body : FormattedRecord.t) :
  Forall (λ entry, entry.1 ≠ EmptyString) entries →
  call (CreateDnsRecord zoneId body)
    ∈ calls (createDifferentDNSRecordsForManyDomains entries st) →
  FormattedRecord.name body ≠ EmptyString.
Proof.
  intros Hnames Hcall.
  destruct (manyDomains_requests entries st) as [_ Hcalls].
  rewrite Forall_forall in Hcalls.
  destruct (Hcalls _ Hcall) as [[d Hlookup]|(d & rs & objects & Hd & Hc)]; [done|].
  destruct Hc as (z & l & record & _ & _ & Heq).
  injection Heq as _ ->. simpl.
  apply normalised_host_not_empty.
  rewrite Forall_forall in Hnames. by apply (Hnames (d, rs)).
Qed.

Lemma manyDomains_unshared (entries : list (string * list nat)) (st : State R) :
  NoDup (concat (map snd entries)) →
  Forall (isBatchRequest entries (heap st))
         (calls (createDifferentDNSRecordsForManyDomains entries st)).
Proof.
  revert st. induction entries as [|[domain records] entries IH]; intros st Hnodup.
  - constructor.
  - simpl in Hnodup. apply NoDup_app in Hnodup as (_ & Hdisjoint & Hnodup).
    destruct (manyDomains_cons domain records entries st)
      as (rs1 & rs2 & _ & _ & ->). cbn [calls].
    destruct (insertDNSRecords_any domain records st)
      as ((submissions & -> & Hsubmissions) & _ & Hheap).
    apply Forall_app. split; [constructor|].
    + left. by eexists.
    + eapply Forall_impl; [exact Hsubmissions|]. intros c Hc. right.
      exists domain, records. split; [by left | done].
    + eapply Forall_impl; [exact (IH _ Hnodup)|].
      intros c [Hlookup|(d & rs & Hd & z & l & record & Hl & Hrecord & ->)]; [by left|].
      right. exists d, rs. split; [by right|]. exists z, l, record.
      split; [done|]. split; [|done].
      destruct (Hheap l) as [Hsame|[Hin _]]; [by rewrite <- Hsame|].
      exfalso. apply (Hdisjoint l Hin).
      apply list_elem_of_In, in_concat. exists rs. split.
      * apply in_map_iff. exists (d, rs). split; [done|]. by apply list_elem_of_In.
      * by apply list_elem_of_In.
Qed.

(** X9: when no record object is shared, neither between two domains nor
    within a list, every record that a batch submits is an object of the
    list of one of its domains, as it was before the batch, normalised
    for that very domain: an apex record is submitted with the name of
    its own domain as host. *)
Theorem createDifferent_unshared_records_are_normalised
    (entries : list (string * list nat)) (st : State R) :
  NoDup (concat (map snd entries)) →
  Forall (isBatchRequest entries (heap st))
         (calls (createDifferentDNSRecordsForManyDomains entries st)).
Proof. apply manyDomains_unshared. Qed.

End BatchAnyList.

(** The README example: the apex TXT record of the shared list, as it is
    submitted for the second domain. *)
Lemma createDifferent_submits_no_empty_host_witness :
  FormattedRecord.name
    (FormattedRecord.mk "TXT" "a.com" "v=spf1 include:_spf.google.com ~all"
       3600 None false)
  ≠ EmptyString.
Proof.
  apply (createDifferent_submits_no_empty_host (R := Demo.Account)
           [("a.com", [0; 1; 2]); ("b.com", [0; 1; 2])] Demo.start "zone:b.com"
           (FormattedRecord.mk "TXT" "a.com" "v=spf1 include:_spf.google.com ~all"
              3600 None false)).
  - by repeat constructor.
  - vm_compute. repeat constructor.
Defined.

(** Two domains, each with record objects of its own. *)
Lemma createDifferent_unshared_records_are_normalised_witness :
  Forall (isBatchRequest [("a.com", [0; 1]); ("b.com", [2])] (heap Demo.start))
         (calls (createDifferentDNSRecordsForManyDomains
                   [("a.com", [0; 1]); ("b.com", [2])] Demo.start)).
Proof.
  apply (createDifferent_unshared_records_are_normalised (R := Demo.Account)
           [("a.com", [0; 1]); ("b.com", [2])] Demo.start).
  apply (bool_decide_unpack _). vm_compute. reflexivity.
Defined.

Section BatchTraces.
Context {R : Type} `{Api R}.

(** The requests of a loop whose body never throws: those of its turns,
    one after the other. *)
Lemma for_of_traces {A S} (P : A → list Call → Prop) (body : S → A → M R S) :
  (∀ s x st, P x (calls (body s x st))) →
  (∀ s x st, ∃ s', returned (body s x st) = inr s') →
  ∀ xs s (st : State R),
    ∃ traces, calls (for_of xs s body st) = concat traces ∧ Forall2 P xs traces.
Proof.
  intros Hcalls Htotal. induction xs as [|x xs IH]; intros s st.
  - by exists [].
  - cbn [for_of]. rewrite calls_bind. destruct (Htotal s x st) as [s' Hs'].
    rewrite Hs'. destruct (IH s' (final (body s x st))) as (traces & -> & Hall).
    exists (calls (body s x st) :: traces). split; [done|]. by constructor.
Qed.

Lemma traces_lookups (xs : list string) (traces : list (list Call)) n :
  Forall2 (λ x trace, omap lookupOf trace = [x] ∧ length trace ≤ n) xs traces →
  omap lookupOf (concat traces) = xs ∧ length (concat traces) ≤ n * length xs.
Proof.
  induction 1 as [|x trace xs traces [Hx Hn] _ [IHx IHn]];
    [split; [done | simpl; lia]|].
  cbn [concat]. rewrite omap_app, Hx, IHx, length_app. split; [done|].
  cbn [length]. lia.
Qed.

Lemma calls_bind_silent {A B} (m : M R A) (k : A → M R B) (st : State R) :
  (∀ a st', calls (k a st') = []) → calls (bind m k st) = calls (m st).
Proof.
  intros Hk. rewrite calls_bind. destruct (returned (m st)); by rewrite ?Hk, app_nil_r.
Qed.

Lemma calls_try_silent {A} (m : M R A) handler (st : State R) :
  (∀ error st', calls (handler error st') = []) →
  calls (try_catch m handler st) = calls (m st).
Proof.
  intros Hh. rewrite calls_try_catch.
  destruct (returned (m st)); by rewrite ?Hh, app_nil_r.
Qed.

Lemma pauseZone_trace domain pause (st : State R) :
  calls (pauseZone domain pause st) = [call (ZoneByName domain)]
  ∨ ∃ zoneId,
      calls (pauseZone domain pause st)
      = [call (ZoneByName domain); call (PatchZone zoneId pause)].
Proof.
  unfold pauseZone. rewrite calls_try_catch, returned_bind, calls_bind, getZoneId_calls.
  destruct (returned (getZoneId domain st)) as [error|zoneId]; [by left|].
  right. exists zoneId. rewrite calls_bind, returned_bind, cloudflareRequest_run.
  cbn [calls returned final].
  destruct (api _ (PatchZone zoneId pause) _).1 as [msg|data]; [done|].
  by destruct (Response.success data).
Qed.

Lemma deleteZone_trace domain (st : State R) :
  calls (deleteZone domain st) = [call (ZoneByName domain)]
  ∨ ∃ zoneId,
      calls (deleteZone domain st)
      = [call (ZoneByName domain); call (DeleteZone zoneId)].
Proof.
  unfold deleteZone. rewrite calls_bind, getZoneId_calls.
  destruct (returned (getZoneId domain st)) as [error|zoneId]; [by left|].
  right. exists zoneId. rewrite calls_bind, cloudflareRequest_run.
  cbn [calls returned final].
  by destruct (api _ (DeleteZone zoneId) _).1 as [msg|data].
Qed.

Lemma changeDomainRedirect_trace domain newRedirectUrl (st : State R) :
  redirectRequests domain newRedirectUrl
    (calls (changeDomainRedirect domain newRedirectUrl st)).
Proof.
  assert (∀ {A} (m : M R A) (st' : State R) cs,
            calls (try_catch m (λ _, throw (ReferenceError "zoneId is not defined")) st')
            = cs ↔ calls (m st') = cs) as Htry.
  { intros A m st' cs. rewrite calls_try_catch.
    destruct (returned (m st')); cbn [throw calls]; by rewrite app_nil_r. }
  unfold redirectRequests, changeDomainRedirect.
  rewrite calls_try_catch, returned_bind, calls_bind, getZoneId_calls.
  destruct (returned (getZoneId domain st)) as [error|zoneId]; [by left|].
  right. exists zoneId. cbn zeta.
  rewrite calls_bind, returned_bind, getPageRules_run. cbn [calls returned final].
  set (st1 := mkState _ _).
  destruct (match (api _ (ListPageRules zoneId) _).1 with
            | inl _ => _ | inr _ => _ end) as [error|rules]; [by left|].
  right. rewrite calls_bind, returned_bind.
  destruct (find isForwardingRule rules) as [rule|].
  - right. exists (PageRule.id rule).
    rewrite calls_bind, returned_bind, final_bind, cloudflareRequest_run.
    cbn [calls returned final ret].
    destruct (api _ (DeletePageRule zoneId (PageRule.id rule)) _).1 as [msg|deleted];
      [by left|].
    right. rewrite calls_bind, returned_bind, cloudflareRequest_run.
    cbn [calls returned final ret].
    destruct (api _ (CreatePageRule zoneId _) _).1 as [msg|data]; [done|].
    by destruct (negb (Response.success data)).
  - left. cbn [ret calls returned final].
    rewrite calls_bind, returned_bind, cloudflareRequest_run.
    cbn [calls returned final ret].
    destruct (api _ (CreatePageRule zoneId _) _).1 as [msg|data]; [done|].
    by destruct (negb (Response.success data)).
Qed.

Lemma redirectRequests_lookups domain newRedirectUrl cs :
  redirectRequests domain newRedirectUrl cs →
  omap lookupOf cs = [domain] ∧ length cs ≤ 4.
Proof.
  intros [->|(zoneId & [->|[->|(ruleId & [->| ->])]])]; simpl; split; (done || lia).
Qed.

Lemma insertDNSRecords_loop_budget domain zoneId records results (st : State R) :
  length (calls (for_of records results (insertDNSRecords_body domain zoneId) st))
  ≤ length records.
Proof.
  revert results st. induction records as [|l records IH]; intros results st.
  - done.
  - cbn [for_of]. rewrite calls_bind. destruct (heap st !! l) as [record|] eqn:Hl.
    + pose proof (insertDNSRecords_body_run domain zoneId results l st record Hl)
        as Hbody. cbn zeta in Hbody. rewrite Hbody. cbn [returned final calls].
      rewrite length_app. simpl.
      match goal with
      | |- context [for_of records ?rs _ ?st1] => specialize (IH rs st1)
      end.
      lia.
    + rewrite (insertDNSRecords_body_dangling domain zoneId results l st Hl).
      simpl. lia.
Qed.

Lemma insertDNSRecords_budget domain records (st : State R) :
  length (calls (insertDNSRecords domain records st)) ≤ 1 + length records.
Proof.
  unfold insertDNSRecords.
  rewrite calls_try_catch, returned_bind, calls_bind, getZoneId_calls.
  destruct (returned (getZoneId domain st)) as [error|zoneId]; [simpl; lia|].
  pose proof (insertDNSRecords_loop_budget domain zoneId records []
                (final (getZoneId domain st))) as Hloop.
  set (loop := for_of _ _ _ _) in *.
  destruct (returned loop); cbn [ret calls]; rewrite ?app_nil_r; simpl; lia.
Qed.

Lemma createSame_budget domains records (st : State R) :
  length (calls (createSameDNSRecordsForManyDomains domains records st))
  ≤ (1 + length records) * length domains.
Proof.
  revert st. induction domains as [|domain domains IH]; intros st; [simpl; lia|].
  rewrite createSame_entries. simpl map.
  destruct (manyDomains_cons domain records
              (map (λ domain, (domain, records)) domains) st)
    as (rs1 & rs2 & _ & _ & ->). cbn [calls].
  rewrite length_app.
  pose proof (insertDNSRecords_budget domain records st).
  specialize (IH (final (insertDNSRecords domain records st))).
  rewrite createSame_entries in IH. simpl length. lia.
Qed.

Lemma pauseManyZones_traces domains pause (st : State R) :
  omap lookupOf (calls (pauseManyZones domains pause st)) = domains
  ∧ length (calls (pauseManyZones domains pause st)) ≤ 2 * length domains.
Proof.
  destruct (for_of_traces
              (λ x trace, omap lookupOf trace = [x] ∧ length trace ≤ 2)
              (pauseManyZones_body pause)) with (xs := domains) (s := @nil OperationResult.t)
    (st := st) as (traces & Hcalls & Hall).
  - intros s x st'. unfold pauseManyZones_body.
    rewrite calls_try_silent, calls_bind_silent by done.
    destruct (pauseZone_trace x pause st') as [->|[zoneId ->]]; simpl; split; (done || lia).
  - intros s x st'. apply try_catch_total. intros error st''. by eexists.
  - unfold pauseManyZones. rewrite Hcalls. by apply traces_lookups.
Qed.

Lemma deleteManyZones_traces domains (st : State R) :
  omap lookupOf (calls (deleteManyZones domains st)) = domains
  ∧ length (calls (deleteManyZones domains st)) ≤ 2 * length domains.
Proof.
  destruct (for_of_traces
              (λ x trace, omap lookupOf trace = [x] ∧ length trace ≤ 2)
              deleteManyZones_body) with (xs := domains) (s := @nil (Response.t Json))
    (st := st) as (traces & Hcalls & Hall).
  - intros s x st'. unfold deleteManyZones_body.
    rewrite calls_try_silent, calls_bind_silent by done.
    destruct (deleteZone_trace x st') as [->|[zoneId ->]]; simpl; split; (done || lia).
  - intros s x st'. apply try_catch_total. intros error st''. by eexists.
  - unfold deleteManyZones, deleteManyZones_results.
    rewrite calls_bind_silent by done. rewrite Hcalls. by apply traces_lookups.
Qed.

Lemma changeManyDomainRedirects_traces domains newRedirectUrl (st : State R) :
  omap lookupOf (calls (changeManyDomainRedirects domains newRedirectUrl st)) = domains
  ∧ length (calls (changeManyDomainRedirects domains newRedirectUrl st))
    ≤ 4 * length domains.
Proof.
  destruct (for_of_traces
              (λ x trace, omap lookupOf trace = [x] ∧ length trace ≤ 4)
              (changeManyDomainRedirects_body newRedirectUrl))
    with (xs := domains) (s := ()) (st := st) as (traces & Hcalls & Hall).
  - intros s x st'. unfold changeManyDomainRedirects_body.
    rewrite calls_try_silent by done.
    apply (redirectRequests_lookups x newRedirectUrl), changeDomainRedirect_trace.
  - intros s x st'. apply try_catch_total. intros error st''. by eexists.
  - unfold changeManyDomainRedirects. rewrite Hcalls. by apply traces_lookups.
Qed.

(** X10: every bulk operation looks up the zone of every domain of its
    list exactly once, in the order of the list, whatever the API answers:
    no failure makes it skip, repeat or reorder a domain. *)
Theorem batches_look_up_each_domain_once (domains : list string)
    (records : list nat) (pause : bool) (newRedirectUrl : string) (st : State R) :
  omap lookupOf (calls (pauseManyZones domains pause st)) = domains
  ∧ omap lookupOf (calls (deleteManyZones domains st)) = domains
  ∧ omap lookupOf (calls (changeManyDomainRedirects domains newRedirectUrl st))
    = domains
  ∧ omap lookupOf (calls (createSameDNSRecordsForManyDomains domains records st))
    = domains.
Proof.
  split; [apply pauseManyZones_traces|].
  split; [apply deleteManyZones_traces|].
  split; [apply changeManyDomainRedirects_traces|].
  rewrite createSame_entries.
  destruct (manyDomains_requests (map (λ domain, (domain, records)) domains) st)
    as [-> _].
  rewrite map_map. simpl. apply map_id.
Qed.

(** X11: the number of requests of a bulk operation is bounded by the size
    of its input, whatever the API answers: two for each domain to pause
    or delete, four for each redirect, and one more than the number of
    records for each domain to provision. *)
Theorem batches_request_budget (domains : list string)
    (records : list nat) (pause : bool) (newRedirectUrl : string) (st : State R) :
  length (calls (pauseManyZones domains pause st)) ≤ 2 * length domains
  ∧ length (calls (deleteManyZones domains st)) ≤ 2 * length domains
  ∧ length (calls (changeManyDomainRedirects domains newRedirectUrl st))
    ≤ 4 * length domains
  ∧ length (calls (createSameDNSRecordsForManyDomains domains records st))
    ≤ (1 + length records) * length domains.
Proof.
  split; [apply pauseManyZones_traces|].
  split; [apply deleteManyZones_traces|].
  split; [apply changeManyDomainRedirects_traces|].
  apply createSame_budget.
Qed.

Lemma getPageRules_calls zoneId (st : State R) :
  calls (getPageRules zoneId st) = [call (ListPageRules zoneId)].
Proof. by rewrite getPageRules_run. Qed.

Lemma cloudflareRequest_calls {T} (request : Request T) (st : State R) :
  calls (cloudflareRequest request st) = [call request].
Proof. by rewrite cloudflareRequest_run. Qed.

(** X12: whatever the API answers, the redirect replacement sends the
    lookup and, only when the lookup has found a zone, the listing of the
    page rules of that zone; only when the listing has answered the
    rules, it sends at most one deletion, of the first forwarding rule of
    the listing and in that zone, and then, unless the deletion failed,
    the creation of the new forwarding rule in that zone, and nothing
    else.  Whatever fails, the caller is thrown the same
    [ReferenceError], in which the cause is lost. *)
Theorem changeDomainRedirect_requests_and_error (domain newRedirectUrl : string)
    (st : State R) :
  let run := changeDomainRedirect domain newRedirectUrl st in
  let lookup := getZoneId domain st in
  let formattedDomain :=
    if Js.endsWith domain "/" then Js.dropLast domain else domain in
  let newRule :=
    NewRule.mk [Target.mk "url" "matches" (formattedDomain +:+ "/*")]
               [Action.mk "forwarding_url" newRedirectUrl 301] 1 "active" in
  match returned lookup with
  | inl _ => calls run = [call (ZoneByName domain)]
  | inr zoneId =>
      let listing := getPageRules zoneId (final lookup) in
      match returned listing with
      | inl _ => calls run = [call (ZoneByName domain); call (ListPageRules zoneId)]
      | inr rules =>
          match List.find isForwardingRule rules with
          | None =>
              calls run
              = [call (ZoneByName domain); call (ListPageRules zoneId);
                 call (CreatePageRule zoneId newRule)]
          | Some rule =>
              let deletion :=
                cloudflareRequest (DeletePageRule zoneId (PageRule.id rule))
                                  (final listing) in
              match returned deletion with
              | inl _ =>
                  calls run
                  = [call (ZoneByName domain); call (ListPageRules zoneId);
                     call (DeletePageRule zoneId (PageRule.id rule))]
              | inr _ =>
                  calls run
                  = [call (ZoneByName domain); call (ListPageRules zoneId);
                     call (DeletePageRule zoneId (PageRule.id rule));
                     call (CreatePageRule zoneId newRule)]
              end
          end
      end
  end
  ∧ (returned run = inr ()
     ∨ returned run = inl (ReferenceError "zoneId is not defined")).
Proof.
  cbn zeta. split.
  2:{ unfold changeDomainRedirect. rewrite returned_try_catch.
      destruct (returned (bind (getZoneId domain) _ st)) as [error|[]];
        [by right | by left]. }
  assert (∀ zoneId (st' : State R),
            calls (bind (cloudflareRequest
                           (CreatePageRule zoneId
                              (newForwardingRule domain newRedirectUrl)))
                     (λ data, if negb (Response.success data)
                              then throw (Error "Failed to change domain redirect")
                              else ret ()) st')
            = [call (CreatePageRule zoneId (newForwardingRule domain newRedirectUrl))])
    as Hcreate.
  { intros zoneId st'. rewrite calls_bind, cloudflareRequest_calls.
    destruct (returned _) as [error|data]; [done|].
    by destruct (negb (Response.success data)). }
  unfold changeDomainRedirect. rewrite calls_try_silent by done.
  rewrite calls_bind, getZoneId_calls.
  destruct (returned (getZoneId domain st)) as [error|zoneId]; [done|].
  rewrite calls_bind, getPageRules_calls.
  destruct (returned (getPageRules zoneId _)) as [error|rules]; [done|].
  cbn zeta. rewrite calls_bind.
  destruct (find isForwardingRule rules) as [rule|].
  - rewrite calls_bind_silent by done. rewrite returned_bind, final_bind.
    rewrite cloudflareRequest_calls.
    destruct (returned (cloudflareRequest (DeletePageRule zoneId (PageRule.id rule)) _))
      as [error|deleted]; [done|].
    cbn [ret returned final]. by rewrite Hcreate.
  - cbn [ret calls returned final]. by rewrite Hcreate.
Qed.

End BatchTraces.

(** ** Paginated fetcher: any remote *)

Section PaginationAny.
Context {R : Type} `{Api R}.

(** X13: whatever the API answers, the page loop asks for consecutive
    pages, starting from its first page, always 50 items a page and with
    the same name filter, and one page for each turn at most: it never
    asks for a page twice and never skips one. *)
Theorem getDomains_pages_asks_consecutive_pages (fuel : nat)
    (contains : option string) (page : Z) (allResults : list Zone.t) (st : State R) :
  let run := getDomains_pages fuel contains page allResults st in
  calls run = pageRequests contains page (length (calls run))
  ∧ length (calls run) ≤ fuel.
Proof.
  cbn zeta. revert page allResults st.
  induction fuel as [|fuel IH]; intros page allResults st; [done|].
  cbn [getDomains_pages]. rewrite calls_bind, cloudflareRequest_run.
  cbn [calls returned final].
  destruct (api _ (ListZones 50 page contains) (remote st)).1 as [msg|data];
    [split; [done | simpl; lia]|].
  destruct (_ >=? _)%Z; [split; [done | simpl; lia]|].
  match goal with
  | |- context [getDomains_pages fuel contains ?p ?acc ?st1] =>
      destruct (IH p acc st1) as [IHcalls IHlength]
  end.
  cbn [app length pageRequests]. split; [by rewrite <- IHcalls | lia].
Qed.

(** X14: the page loop has no bound of its own.  Against a remote whose
    every answer, in every state that it can reach, reports a count
    beyond the page it serves, with counts that JavaScript numbers hold
    exactly, no number of turns ends the loop: it keeps asking, one
    request a turn. *)
Theorem getDomains_pages_never_ends (contains : option string)
    (reachable : R → Prop) :
  (∀ page (remote : R),
     reachable remote →
     ∃ data remote',
       api _ (ListZones 50 page contains) remote = (inr data, remote')
       ∧ reachable remote'
       ∧ safeCounts data = true
       ∧ hasMorePages data = true) →
  ∀ fuel page allResults (st : State R),
    reachable (remote st) →
    returned (getDomains_pages fuel contains page allResults st) = inr None
    ∧ length (calls (getDomains_pages fuel contains page allResults st)) = fuel.
Proof.
  intros Hmore. induction fuel as [|fuel IH]; intros page allResults st Hst; [done|].
  cbn [getDomains_pages].
  rewrite returned_bind, calls_bind, cloudflareRequest_run.
  cbn [calls returned final].
  destruct (Hmore page (remote st) Hst)
    as (data & remote' & -> & Hremote' & _ & Hdata).
  cbn [fst snd]. unfold hasMorePages in Hdata. apply negb_true_iff in Hdata.
  rewrite Hdata.
  match goal with
  | |- context [getDomains_pages fuel contains ?p ?acc ?st1] =>
      destruct (IH p acc st1 Hremote') as [-> IHlength]
  end.
  split; [done|]. cbn [app length]. by rewrite IHlength.
Qed.


End PaginationAny.

(** Seven turns against the remote that always serves the first page. *)
Lemma getDomains_pages_never_ends_witness :
  returned (getDomains_pages 7 None 1 [] (mkState Scripted.stuck [])) = inr None
  ∧ length (calls (getDomains_pages 7 None 1 [] (mkState Scripted.stuck []))) = 7.
Proof.
  apply (getDomains_pages_never_ends (R := Scripted.Remote) None
           (λ remote, remote = Scripted.stuck)).
  - intros page remote ->. eexists _, _.
    split; [reflexivity|]. split; [reflexivity|]. split; reflexivity.
  - reflexivity.
Defined.


Section RedirectNoRule.
Context {R : Type} `{Api R}.

(** X16: for a domain whose zone has page rules but none with a
    [forwarding_url] action, the redirect replacement deletes nothing: it
    sends the lookup, the listing of the rules and the creation of the
    new rule, and returns exactly when the creation is answered with
    success. *)
Theorem changeDomainRedirect_without_rule_deletes_nothing
    (domain newRedirectUrl : string) (st : State R) (found : bool) (zone : Zone.t)
    (zones : list Zone.t) (rules : list PageRule.t)
    (answer : string + Response.t Json) (remote1 remote2 remote3 : R) :
  let zoneId := Zone.id zone in
  let run := changeDomainRedirect domain newRedirectUrl st in
  api _ (ZoneByName domain) (remote st)
  = (inr (Response.mk found (zone :: zones)), remote1) →
  api _ (ListPageRules zoneId) remote1 = (inr (Response.mk true rules), remote2) →
  Forall (λ rule, isForwardingRule rule = false) rules →
  api _ (CreatePageRule zoneId (newForwardingRule domain newRedirectUrl)) remote2
  = (answer, remote3) →
  calls run
  = [call (ZoneByName domain);
     call (ListPageRules zoneId);
     call (CreatePageRule zoneId (newForwardingRule domain newRedirectUrl))]
  ∧ remote (final run) = remote3
  ∧ (returned run = inr () ↔ ∃ data, answer = inr data ∧ Response.success data = true).
Proof.
  intros zoneId run Hzone Hrules Hnone Hcreate. subst run.
  assert (find isForwardingRule rules = None) as Hfind.
  { clear Hrules. induction Hnone as [|rule rules Hrule _ IH]; [done|].
    cbn [find]. by rewrite Hrule. }
  unfold changeDomainRedirect.
  rewrite calls_try_catch, final_try_catch, returned_try_catch.
  rewrite !returned_bind, !calls_bind, !final_bind.
  rewrite getZoneId_run, Hzone. cbn [fst snd Response.result returned final calls].
  fold zoneId.
  rewrite !returned_bind, !calls_bind, !final_bind.
  rewrite getPageRules_run. cbn [remote heap]. rewrite Hrules.
  cbn [fst snd Response.result Response.success returned final calls].
  rewrite Hfind.
  rewrite !returned_bind, !calls_bind, !final_bind.
  cbn [ret returned final calls].
  rewrite cloudflareRequest_run. cbn [remote heap]. rewrite Hcreate.
  cbn [fst snd returned final calls].
  destruct answer as [msg|data]; [|destruct (Response.success data) eqn:Hsuccess];
    cbn [negb ret throw returned final calls remote app].
  - split; [done|]. split; [done|]. split; [done|]. by intros (data & [=] & _).
  - split; [done|]. split; [done|]. split; [by eauto | done].
  - split; [done|]. split; [done|]. split; [done|].
    intros (data' & [= <-] & Hdata'). congruence.
Qed.

End RedirectNoRule.

(** The zone of [a.com] has a caching rule only: it is kept, and the
    forwarding rule is created. *)
Lemma changeDomainRedirect_without_rule_deletes_nothing_witness :
  let run := changeDomainRedirect "a.com" "https://new.example" Samples.plainStart in
  calls run
  = [call (ZoneByName "a.com");
     call (ListPageRules "zone:a.com");
     call (CreatePageRule "zone:a.com"
             (newForwardingRule "a.com" "https://new.example"))]
  ∧ remote (final run)
    = Demo.mkAccount ["a.com"] [] [] []
        [Samples.cacheRule;
         PageRule.mk "new" [Target.mk "url" "matches" "a.com/*"]
           [Action.mk "forwarding_url" "https://new.example" 301] 1 "active"]
        0 []
  ∧ (returned run = inr ()
     ↔ ∃ data : Response.t Json,
         @inr string (Response.t Json) (Response.mk true "{}") = inr data
         ∧ Response.success data = true).
Proof.
  apply (changeDomainRedirect_without_rule_deletes_nothing (R := Demo.Account)
           "a.com" "https://new.example" Samples.plainStart true
           (Demo.zoneOf "a.com") [] [Samples.cacheRule]
           (inr (Response.mk true "{}"))
           Samples.plainAccount Samples.plainAccount
           (Demo.mkAccount ["a.com"] [] [] []
              [Samples.cacheRule;
               PageRule.mk "new" [Target.mk "url" "matches" "a.com/*"]
                 [Action.mk "forwarding_url" "https://new.example" 301] 1 "active"]
              0 [])).
  - reflexivity.
  - reflexivity.
  - by repeat constructor.
  - reflexivity.
Defined.

(** ** porkbun.ts *)

Section PorkbunDrivers.
Import Porkbun.
Context {R : Type} `{Server R}.

Lemma effects_app events1 events2 :
  effects (events1 ++ events2) = effects events1 ++ effects events2.
Proof. apply List.filter_app. Qed.

Lemma processRecord_effects domain content auth recordType (r : R) :
  effects (processRecord domain content auth recordType r).2
  = paced auth recordType [(domain, content)].
Proof.
  unfold processRecord, createDNSRecord.
  by destruct (post _ _ r) as [answer r'].
Qed.

Lemma each_cons {A} (step : A → R → R * list Event) x xs (r : R) :
  each step (x :: xs) r
  = ((each step xs (step x r).1).1, (step x r).2 ++ (each step xs (step x r).1).2).
Proof.
  cbn [each]. destruct (step x r) as [r1 events1]. cbn [fst snd].
  by destruct (each step xs r1) as [r2 events2].
Qed.

Lemma paced_app auth recordType pairs1 pairs2 :
  paced auth recordType (pairs1 ++ pairs2)
  = paced auth recordType pairs1 ++ paced auth recordType pairs2.
Proof. unfold paced. by rewrite map_app, concat_app. Qed.

(** A loop that only appends to the first component of its state. *)
Lemma foldl_appends {A B C} (f : list A * B → C → list A * B) :
  (∀ pairs reports reports' x,
     (f (pairs, reports) x).1 = pairs ++ (f ([], reports') x).1) →
  ∀ xs pairs reports reports',
    (foldl f (pairs, reports) xs).1 = pairs ++ (foldl f ([], reports') xs).1.
Proof.
  intros Hf. induction xs as [|x xs IH]; intros pairs reports reports'.
  - simpl. by rewrite app_nil_r.
  - rewrite !foldl_cons. specialize (Hf pairs reports reports' x).
    destruct (f (pairs, reports) x) as [pairs1 reports1].
    destruct (f ([], reports') x) as [pairs2 reports2]. cbn [fst] in Hf. subst pairs1.
    rewrite (IH (pairs ++ pairs2) reports1 reports'), (IH pairs2 reports2 reports').
    by rewrite app_assoc.
Qed.

Lemma processDomainFile_loop auth recordType text (r : R) :
  effects (each (processDomainFile_line auth recordType)
             (Js.split "010"%char text) r).2
  = paced auth recordType (processDomainFile_lines text).1.
Proof.
  unfold processDomainFile_lines.
  match goal with |- context [foldl ?f _ _] => set (step := f) end.
  assert (∀ pairs reports reports' x,
            (step (pairs, reports) x).1 = pairs ++ (step ([], reports') x).1) as Hstep.
  { intros pairs reports reports' x. unfold step. cbn zeta.
    destruct (Js.is_empty (Js.trim x) || Js.startsWith (Js.trim x) "#");
      [by rewrite app_nil_r|].
    destruct (Js.is_empty (part _ 0) || Js.is_empty (part _ 1)); cbn [fst snd];
      [by rewrite app_nil_r | done]. }
  generalize (Js.split "010"%char text) as lines.
  intros lines. revert r. induction lines as [|line lines IH]; intros r; [done|].
  rewrite each_cons, foldl_cons. cbn [snd]. rewrite effects_app, IH.
  destruct (step ([], []) line) as [pairs1 reports1] eqn:Hline.
  rewrite (foldl_appends step Hstep lines pairs1 reports1 []), paced_app. f_equal.
  apply (f_equal fst) in Hline. cbn [fst] in Hline. subst pairs1.
  unfold processDomainFile_line, step. cbn zeta.
  destruct (Js.is_empty (Js.trim line) || Js.startsWith (Js.trim line) "#"); [done|].
  destruct (Js.is_empty (part _ 0) || Js.is_empty (part _ 1)); cbn [fst snd]; [done|].
  by rewrite processRecord_effects.
Qed.

(** X17: both drivers send one request for each pair, in order, each
    followed by a pause of one second, and what the registrar answers
    changes none of it: a request that fails neither ends the run nor
    changes the requests after it.  The pairs of a file are those of its
    lines that are neither blank nor comments and have two fields. *)
Theorem porkbun_one_paced_request_per_pair (readFile : string → string + string)
    (filepath text : string) (domains : list (string * string)) (auth : Auth.t)
    (recordType : string) (r : R) :
  readFile filepath = inr text →
  effects (processDomainList domains auth recordType r).2
  = paced auth recordType domains
  ∧ effects (processDomainFile readFile filepath auth recordType r).2
    = paced auth recordType (processDomainFile_lines text).1.
Proof.
  intros Hread. split.
  - unfold processDomainList. revert r.
    induction domains as [|[domain content] domains IH]; intros r; [done|].
    rewrite each_cons. cbn [fst snd]. rewrite effects_app, IH.
    by rewrite processRecord_effects.
  - unfold processDomainFile. rewrite Hread. apply processDomainFile_loop.
Qed.

Lemma part_clean issep line i :
  noChar issep (part (Js.split_runs issep line) i) = true.
Proof.
  unfold part. pose proof (split_runs_fields_clean issep line) as Hfields.
  revert i. induction Hfields as [|field fields Hfield _ IH]; intros [|i]; simpl; auto.
Qed.

Lemma is_empty_false s : Js.is_empty s = false → s ≠ EmptyString.
Proof. by destruct s. Qed.

(** X18: every request that the file driver sends sets an apex record of
    the record type, with TTL 600, for a domain name and with a content
    that are not empty and hold no white space: of a line with more than
    two fields, such as a value with a space in it, the content is the
    second field only. *)
Theorem porkbun_file_requests_hold_no_white_space
    (readFile : string → string + string) (filepath : string) (auth : Auth.t)
    (recordType : string) (r : R) :
  Forall (isVerificationRequest auth recordType)
         (processDomainFile readFile filepath auth recordType r).2.
Proof.
  unfold processDomainFile. destruct (readFile filepath) as [message|text];
    [by repeat constructor|].
  generalize (Js.split "010"%char text) as lines. intros lines. revert r.
  induction lines as [|line lines IH]; intros r; [constructor|].
  rewrite each_cons. cbn [snd]. apply Forall_app. split; [|apply IH].
  unfold processDomainFile_line. cbn zeta.
  destruct (Js.is_empty (Js.trim line) || Js.startsWith (Js.trim line) "#");
    [constructor|].
  destruct (Js.is_empty (part _ 0) || Js.is_empty (part _ 1)) eqn:Hfields;
    [by repeat constructor|].
  apply orb_false_iff in Hfields as [Hdomain Hcontent].
  unfold processRecord, createDNSRecord. destruct (post _ _ r) as [answer r'].
  cbn [snd app]. repeat constructor.
  eexists _, _. split; [done|]. split; [done|].
  split; [by apply is_empty_false|]. split; [apply part_clean|].
  split; [by apply is_empty_false | apply part_clean].
Qed.

Lemma each_reports {A} (step : A → R → R * list Event) (e : Event) x xs (r : R) :
  x ∈ xs → (∀ r', (step x r').2 = [e]) → e ∈ (each step xs r).2.
Proof.
  intros Hx He. revert r. induction xs as [|y xs IH]; intros r.
  - by apply elem_of_nil in Hx.
  - rewrite each_cons. cbn [snd]. apply elem_of_app.
    apply elem_of_cons in Hx as [<-|Hx].
    + left. rewrite He. by left.
    + right. by apply IH.
Qed.

(** X19: the file driver does not trim a line before it cuts it into
    fields, so that the first field of an indented line is empty: a line
    that begins with white space, if it is neither blank nor a comment,
    is reported as invalid and no request is sent for it, whatever its
    fields are. *)
Theorem porkbun_indented_line_is_rejected (readFile : string → string + string)
    (filepath text line : string) (auth : Auth.t) (recordType : string) (r : R) :
  readFile filepath = inr text →
  line ∈ Js.split "010"%char text →
  isIndented line = true →
  isRead line = true →
  processDomainFile_line auth recordType line r = (r, [Out (InvalidLine line)])
  ∧ Out (InvalidLine line)
    ∈ (processDomainFile readFile filepath auth recordType r).2.
Proof.
  intros Hread Hline Hindented Hisread.
  assert (∀ r' : R, processDomainFile_line auth recordType line r'
                    = (r', [Out (InvalidLine line)])) as Hturn.
  { intros r'. unfold processDomainFile_line. cbn zeta.
    unfold isRead in Hisread. apply negb_true_iff in Hisread. rewrite Hisread.
    destruct line as [|c rest]; [done|]. cbn [isIndented] in Hindented.
    unfold Js.split_runs. cbn [Js.split_runs_from]. by rewrite Hindented. }
  split; [apply Hturn|].
  unfold processDomainFile. rewrite Hread.
  apply (each_reports _ _ line); [done|]. intros r'. by rewrite Hturn.
Qed.

End PorkbunDrivers.

(** The list of the file (lines 13-17), and a file of four lines of
    which two are read as pairs: [b.com] is of another account, and the
    request for it fails. *)
Lemma porkbun_one_paced_request_per_pair_witness :
  Porkbun.effects (Porkbun.processDomainList
             [("nnn-capital.com", "google-gws-recovery-domain-verification=59108443");
              ("nnn-investing.com", "google-gws-recovery-domain-verification=59134845")]
             Porkbun.Sample.auth "TXT" Porkbun.Sample.registrar).2
  = Porkbun.paced Porkbun.Sample.auth "TXT"
      [("nnn-capital.com", "google-gws-recovery-domain-verification=59108443");
       ("nnn-investing.com", "google-gws-recovery-domain-verification=59134845")]
  ∧ Porkbun.effects (Porkbun.processDomainFile (λ _, inr Porkbun.Sample.domainsTxt) "domains.txt"
               Porkbun.Sample.auth "TXT" Porkbun.Sample.registrar).2
    = Porkbun.paced Porkbun.Sample.auth "TXT" (processDomainFile_lines Porkbun.Sample.domainsTxt).1.
Proof.
  apply (porkbun_one_paced_request_per_pair (R := Porkbun.Sample.Registrar)
           (λ _, inr Porkbun.Sample.domainsTxt) "domains.txt" Porkbun.Sample.domainsTxt).
  reflexivity.
Defined.

Lemma porkbun_indented_line_is_rejected_witness :
  Porkbun.processDomainFile_line Porkbun.Sample.auth "TXT" "  c.com google-site-verification=def"
    Porkbun.Sample.registrar
  = (Porkbun.Sample.registrar, [Porkbun.Out (Porkbun.InvalidLine "  c.com google-site-verification=def")])
  ∧ Porkbun.Out (Porkbun.InvalidLine "  c.com google-site-verification=def")
    ∈ (Porkbun.processDomainFile (λ _, inr Porkbun.Sample.domainsTxt) "domains.txt"
         Porkbun.Sample.auth "TXT" Porkbun.Sample.registrar).2.
Proof.
  apply (porkbun_indented_line_is_rejected (R := Porkbun.Sample.Registrar)
           (λ _, inr Porkbun.Sample.domainsTxt) "domains.txt" Porkbun.Sample.domainsTxt).
  - reflexivity.
  - apply (bool_decide_unpack _). vm_compute. reflexivity.
  - reflexivity.
  - reflexivity.
Defined.

(** ** The script: the mapping builder, then the bulk provisioner *)

Lemma mappingLine_objects_entry (recordsMap : gmap string (list nat))
    objects reports line acc' :
  mappingLine_objects tabFields (recordsMap, objects, reports) line = inr acc' →
  acc'.1 = (recordsMap, objects)
  ∨ ∃ domain value,
      classify tabFields line = Entry domain value
      ∧ acc'.1.2 = objects ++ [txtRecord value]
      ∧ acc'.1.1 !! domain
        = Some (default [] (recordsMap !! domain) ++ [length objects])
      ∧ ∀ other, other ≠ domain → acc'.1.1 !! other = recordsMap !! other.
Proof.
  unfold mappingLine_objects, classify.
  destruct (Js.is_empty (Js.trim line) || Js.startsWith (Js.trim line) "#");
    [intros [= <-]; by left|].
  cbn zeta. destruct (tabFields (Js.trim line)) as [|domain [|value rest]];
    [intros [= <-]; by left..|].
  cbn [length Nat.ltb Nat.leb part nth].
  destruct (isInherited domain); [done|]. intros [= <-]. right.
  exists domain, value. cbn [fst snd]. split; [done|]. split; [done|].
  destruct (recordsMap !! domain) as [ls|] eqn:Hdomain; cbn [default].
  - rewrite Hdomain. cbn [default]. split; [by rewrite lookup_insert_eq|].
    intros other Hother. by rewrite lookup_insert_ne.
  - rewrite lookup_insert_eq. cbn [default]. split; [by rewrite lookup_insert_eq|].
    intros other Hother. by rewrite !lookup_insert_ne.
Qed.

Lemma ownsObjects_step text (recordsMap : gmap string (list nat))
    objects reports line acc' :
  line ∈ Js.split "010"%char text →
  mappingLine_objects tabFields (recordsMap, objects, reports) line = inr acc' →
  ownsObjects text recordsMap objects →
  ownsObjects text acc'.1.1 acc'.1.2.
Proof.
  intros Hline Hturn [Hlists Hdisjoint].
  destruct (mappingLine_objects_entry _ _ _ _ _ Hturn)
    as [->|(domain & value & Hkind & -> & Hdomain & Hothers)]; [by split|].
  set (old := default [] (recordsMap !! domain)) in *.
  assert (NoDup old
          ∧ Forall (λ l, ∃ value, givenBy text domain value
                                  ∧ objects !! l = Some (txtRecord value)) old)
    as [Hnodup Hold].
  { subst old. destruct (recordsMap !! domain) as [ls|] eqn:Hls; cbn [default].
    - by apply Hlists.
    - split; constructor. }
  assert (∀ d ls l, recordsMap !! d = Some ls → l ∈ ls → l < length objects)
    as Hrange.
  { intros d ls l Hls Hl. destruct (Hlists d ls Hls) as [_ Hall].
    rewrite Forall_forall in Hall. destruct (Hall l Hl) as (v & _ & Hv).
    by apply lookup_lt_Some in Hv. }
  assert (∀ l, l ∈ old → l < length objects) as Hrange_old.
  { intros l Hl. rewrite Forall_forall in Hold. destruct (Hold l Hl) as (v & _ & Hv).
    by apply lookup_lt_Some in Hv. }
  split.
  - intros d ls Hls. destruct (decide (d = domain)) as [->|Hne].
    + rewrite Hdomain in Hls. injection Hls as <-. split.
      * apply NoDup_app. split; [done|]. split; [|apply NoDup_singleton].
        intros l Hl Hnew. apply list_elem_of_singleton in Hnew as ->.
        specialize (Hrange_old _ Hl). lia.
      * apply Forall_app. split.
        -- eapply Forall_impl; [exact Hold|]. intros l (v & Hgiven & Hv).
           exists v. split; [done|]. by rewrite lookup_app_l by (by eapply lookup_lt_Some).
        -- constructor; [|constructor]. exists value. split.
           ++ by exists line.
           ++ by rewrite list_lookup_middle.
    + rewrite Hothers in Hls by done. destruct (Hlists d ls Hls) as [Hnd Hall].
      split; [done|]. eapply Forall_impl; [exact Hall|]. intros l (v & Hgiven & Hv).
      exists v. split; [done|]. by rewrite lookup_app_l by (by eapply lookup_lt_Some).
  - assert (∀ d ls l, d ≠ domain → recordsMap !! d = Some ls → l ∈ ls →
                      l ∈ old ++ [length objects] → recordsMap !! domain = Some old)
      as Hmeet.
    { intros d ls l Hne Hls Hl Hin. apply elem_of_app in Hin as [Hin|Hin].
      - subst old. destruct (recordsMap !! domain) as [ls'|]; [done|].
        by apply elem_of_nil in Hin.
      - apply list_elem_of_singleton in Hin as ->.
        specialize (Hrange _ _ _ Hls Hl). lia. }
    intros d1 d2 ls1 ls2 l Hls1 Hls2 Hl1 Hl2.
    destruct (decide (d1 = domain)) as [->|Hne1];
      destruct (decide (d2 = domain)) as [->|Hne2]; [done|..].
    + rewrite Hdomain in Hls1. injection Hls1 as <-.
      rewrite Hothers in Hls2 by done.
      pose proof (Hmeet _ _ _ Hne2 Hls2 Hl2 Hl1) as Hdom.
      apply elem_of_app in Hl1 as [Hl1|Hl1].
      * symmetry. by apply (Hdisjoint d2 domain ls2 old l).
      * apply list_elem_of_singleton in Hl1 as ->.
        specialize (Hrange _ _ _ Hls2 Hl2). lia.
    + rewrite Hdomain in Hls2. injection Hls2 as <-.
      rewrite Hothers in Hls1 by done.
      pose proof (Hmeet _ _ _ Hne1 Hls1 Hl1 Hl2) as Hdom.
      apply elem_of_app in Hl2 as [Hl2|Hl2].
      * by apply (Hdisjoint d1 domain ls1 old l).
      * apply list_elem_of_singleton in Hl2 as ->.
        specialize (Hrange _ _ _ Hls1 Hl1). lia.
    + rewrite Hothers in Hls1, Hls2 by done. by apply (Hdisjoint d1 d2 ls1 ls2 l).
Qed.

Lemma mappingLines_objects_owns text lines
    (acc : gmap string (list nat) * list DNSRecord.t * list string)
    recordsMap objects :
  (∀ line, line ∈ lines → line ∈ Js.split "010"%char text) →
  ownsObjects text acc.1.1 acc.1.2 →
  mappingLines_objects tabFields lines acc = (Some recordsMap, objects) →
  ownsObjects text recordsMap objects.
Proof.
  revert acc. induction lines as [|line lines IH]; intros acc Hlines Hacc.
  - cbn [mappingLines_objects]. by intros [= <- <-].
  - cbn [mappingLines_objects].
    destruct (mappingLine_objects tabFields acc line) as [message|acc'] eqn:Hturn;
      [done|].
    apply IH.
    + intros l Hl. apply Hlines. by right.
    + destruct acc as [[m os] rs]. eapply ownsObjects_step; [|exact Hturn|exact Hacc].
      apply Hlines. by left.
Qed.

Lemma createDomainRecordsMap_objects_owns readFile filePath objects0
    recordsMap objects :
  createDomainRecordsMap_objects readFile filePath objects0
  = (Some recordsMap, objects) →
  ∃ text, readFile filePath = inr text ∧ ownsObjects text recordsMap objects.
Proof.
  unfold createDomainRecordsMap_objects.
  destruct (readFile filePath) as [message|text]; [done|]. intros Hrun.
  exists text. split; [done|].
  eapply mappingLines_objects_owns; [|  |exact Hrun]; [done|].
  split.
  - intros domain ls Hls. cbn [fst snd] in Hls. by rewrite lookup_empty in Hls.
  - intros d1 d2 ls1 ls2 l Hls1. cbn [fst snd] in Hls1.
    by rewrite lookup_empty in Hls1.
Qed.

Lemma ownsObjects_unshared text (recordsMap : gmap string (list nat)) objects
    (keys : list string) :
  ownsObjects text recordsMap objects →
  NoDup keys →
  NoDup (concat (map snd (map (λ domain, (domain, default [] (recordsMap !! domain)))
                              keys))).
Proof.
  intros [Hlists Hdisjoint]. induction 1 as [|key keys Hkey _ IH]; [constructor|].
  cbn [map concat snd]. apply NoDup_app. split; [|split; [|exact IH]].
  - destruct (recordsMap !! key) as [ls|] eqn:Hls; [|constructor].
    by apply (Hlists key ls).
  - intros l Hl Hrest.
    apply list_elem_of_In, in_concat in Hrest as (ls' & Hls' & Hl').
    rewrite map_map in Hls'. apply in_map_iff in Hls' as (key' & <- & Hkey').
    cbn [snd] in Hl'.
    destruct (recordsMap !! key) as [ls|] eqn:Hls; [|by apply elem_of_nil in Hl].
    destruct (recordsMap !! key') as [ls'|] eqn:Hls'; [|done].
    cbn [default] in *. apply list_elem_of_In in Hl', Hkey'.
    rewrite (Hdisjoint key key' ls ls' l Hls Hls' Hl Hl') in Hkey. done.
Qed.

Section Script.
Context {R : Type} `{Api R}.

(** X20: the script of the file hands the map of the mapping builder to
    [createDifferentDNSRecordsForManyDomains].  Every record of the map
    is an object of its own, so that, whatever the API answers and in
    whatever order [Object.keys] lists the domains, every record that is
    submitted is a TXT record with TTL 3600, not proxied, whose content
    is a value that a line of the file gives to a domain, and whose name
    is that domain. *)
Theorem script_provisions_values_under_their_own_domains
    (readFile : string → string + string)
    (objectKeys : gmap string (list nat) → list string) (st : State R)
    (zoneId : string) (body : FormattedRecord.t) :
  listsOwnKeys objectKeys →
  call (CreateDnsRecord zoneId body)
    ∈ calls (provisionFromFile readFile objectKeys st) →
  ∃ text domain value,
    readFile "domains.txt" = inr text
    ∧ givenBy text domain value
    ∧ body = FormattedRecord.mk "TXT" domain value 3600 None false.
Proof.
  intros Hkeys. unfold provisionFromFile.
  destruct (createDomainRecordsMap_objects readFile "domains.txt" (heap st))
    as [[recordsMap|] objects] eqn:Hmap;
    [|intros Hcall; by apply elem_of_nil in Hcall].
  destruct (createDomainRecordsMap_objects_owns _ _ _ _ _ Hmap) as (text & Hread & Howns).
  destruct (Hkeys recordsMap) as [Hnodup Hown].
  intros Hcall.
  pose proof (manyDomains_unshared _ (mkState (remote st) objects)
                (ownsObjects_unshared text recordsMap objects _ Howns Hnodup))
    as Hcalls.
  rewrite Forall_forall in Hcalls.
  destruct (Hcalls _ Hcall) as [[d Hlookup]|(d & rs & Hd & Hc)]; [done|].
  destruct Hc as (z & l & record & Hl & Hrecord & Heq).
  injection Heq as _ ->.
  apply list_elem_of_In, in_map_iff in Hd as (key & [= -> <-] & Hkey).
  destruct (recordsMap !! d) as [ls|] eqn:Hls; [|by apply elem_of_nil in Hl].
  cbn [default heap] in *.
  destruct Howns as [Hlists _]. destruct (Hlists d ls Hls) as [_ Hall].
  rewrite Forall_forall in Hall. destruct (Hall l Hl) as (value & Hgiven & Hvalue).
  rewrite Hvalue in Hrecord. injection Hrecord as <-.
  by exists text, d, value.
Qed.

End Script.

(** Two domains with one value each, and an account that has both. *)
Lemma script_provisions_values_under_their_own_domains_witness :
  ∃ text domain value,
    (λ _ : string, @inr string string Samples.twoDomainsTxt) "domains.txt" = inr text
    ∧ givenBy text domain value
    ∧ FormattedRecord.mk "TXT" "b.com" "google-site-verification=def" 3600 None false
      = FormattedRecord.mk "TXT" domain value 3600 None false.
Proof.
  apply (script_provisions_values_under_their_own_domains (R := Demo.Account)
           (λ _, inr Samples.twoDomainsTxt)
           (λ recordsMap, (map_to_list recordsMap).*1)
           Demo.start "zone:b.com").
  - intros recordsMap. split; [apply NoDup_fst_map_to_list|].
    intros domain Hdomain. apply list_elem_of_fmap in Hdomain as ([d ls] & -> & Hin).
    apply elem_of_map_to_list in Hin. by eexists.
  - vm_compute. repeat constructor.
Defined.

(** ** Content filter: the empty target *)

Section ContentFilterEmpty.
Context {R : Type} `{Api R}.

Lemma includes_empty (s : string) : Js.includes s EmptyString = true.
Proof. by destruct s. Qed.

(** X21: every string contains the empty string, so that the content
    filter with the empty target, which the script uses to remove all the
    MX records of a domain, keeps every record that the listing answers. *)
Theorem content_filter_empty_target_keeps_all (zoneId type : string)
    (st : State R) (data : Response.t (list RemoteDNSRecord.t)) (remote' : R) :
  api _ (ListDnsRecords zoneId type) (remote st) = (inr data, remote') →
  returned (getFilteredDNSRecords zoneId EmptyString type st)
  = inr (Response.result data).
Proof.
  intros Hanswer. unfold getFilteredDNSRecords, bind, cloudflareRequest.
  rewrite Hanswer. cbn. f_equal.
  induction (Response.result data) as [|record records IH]; [done|].
  cbn [List.filter]. unfold dnsRecordMatches at 1.
  rewrite andb_false_r, includes_empty. by rewrite IH.
Qed.

End ContentFilterEmpty.

Lemma content_filter_empty_target_keeps_all_witness :
  returned (getFilteredDNSRecords "zone:a.com" EmptyString "MX" Demo.start)
  = inr (Demo.dnsRecords Demo.account).
Proof.
  apply (content_filter_empty_target_keeps_all (R := Demo.Account)
           "zone:a.com" "MX" Demo.start
           (Response.mk true (Demo.dnsRecords Demo.account)) Demo.account).
  reflexivity.
Defined.

(** ** Record deletion and zone creation *)

Section AsyncFacts.
Context {R : Type}.

Lemma sent_andThen {A B} (m : Async R A) (k : A → Async R B) (st : State R) :
  sent (andThen m k st)
  = sent (m st)
      ++ match result (m st) with
         | inr a => sent (k a (after (m st)))
         | inl _ => []
         end.
Proof. unfold andThen. destruct (result (m st)); simpl; by rewrite ?app_nil_r. Qed.

Lemma result_andThen {A B} (m : Async R A) (k : A → Async R B) (st : State R) :
  result (andThen m k st)
  = match result (m st) with
    | inr a => result (k a (after (m st)))
    | inl error => inl error
    end.
Proof. unfold andThen. by destruct (result (m st)). Qed.

Lemma after_andThen {A B} (m : Async R A) (k : A → Async R B) (st : State R) :
  after (andThen m k st)
  = match result (m st) with
    | inr a => after (k a (after (m st)))
    | inl _ => after (m st)
    end.
Proof. unfold andThen. by destruct (result (m st)). Qed.

Lemma sent_attempt {A} (m : Async R A) handler (st : State R) :
  (∀ error st', sent (handler error st') = []) →
  sent (attempt m handler st) = sent (m st).
Proof.
  intros Hh. unfold attempt. destruct (result (m st)); simpl; [|done].
  by rewrite Hh, app_nil_r.
Qed.

Lemma result_attempt {A} (m : Async R A) handler (st : State R) :
  result (attempt m handler st)
  = match result (m st) with
    | inl error => result (handler error (after (m st)))
    | inr a => inr a
    end.
Proof. unfold attempt. by destruct (result (m st)) eqn:Hm. Qed.

Lemma sent_await {A} (m : M R A) (st : State R) :
  sent (await m st) = map known (calls (m st)).
Proof. reflexivity. Qed.

Lemma result_await {A} (m : M R A) (st : State R) :
  result (await m st) = returned (m st).
Proof. reflexivity. Qed.

Lemma after_await {A} (m : M R A) (st : State R) :
  after (await m st) = final (m st).
Proof. reflexivity. Qed.

(** The requests of a loop whose turns never throw. *)
Lemma forEach_sent {A S} (body : S → A → Async R S) (requests : A → list Sent) :
  (∀ s x st, sent (body s x st) = requests x) →
  (∀ s x st, ∃ s', result (body s x st) = inr s') →
  ∀ xs s (st : State R),
    sent (forEach xs s body st) = concat (map requests xs)
    ∧ ∃ s', result (forEach xs s body st) = inr s'.
Proof.
  intros Hsent Htotal. induction xs as [|x xs IH]; intros s st.
  - split; [done | by eexists].
  - cbn [forEach]. rewrite sent_andThen, result_andThen.
    destruct (Htotal s x st) as [s' Hs']. rewrite Hs', Hsent.
    destruct (IH s' (after (body s x st))) as [-> Hresult]. by split.
Qed.

End AsyncFacts.

Section FurtherFacts.
Context {R : Type} `{Api R} `{FurtherApi R}.

Lemma getFilteredDNSRecords_calls zoneId content type (st : State R) :
  calls (getFilteredDNSRecords zoneId content type st)
  = [call (ListDnsRecords zoneId type)].
Proof.
  unfold getFilteredDNSRecords. rewrite calls_bind, cloudflareRequest_run.
  cbn [calls returned]. by destruct (api _ _ _).1.
Qed.

Lemma deleteDNSRecord_sent dnsRecord zoneId (st : State R) :
  sent (deleteDNSRecord dnsRecord zoneId st) = [deletionOf zoneId dnsRecord].
Proof.
  unfold deleteDNSRecord. rewrite sent_andThen. unfold furtherRequest at 1 2.
  destruct (furtherApi _ _ (remote st)) as [[msg|data] remote']; cbn; [done|].
  by destruct (Response.success data).
Qed.

(** The deletion loop of lines 551-558: every record is asked to be
    deleted, whatever becomes of the ones before it. *)
Lemma deletions_sent zoneId (dnsRecords : list RemoteDNSRecord.t) (st : State R) :
  let loop :=
    forEach dnsRecords tt
      (λ _ dnsRecord,
         attempt (let+ _ := deleteDNSRecord dnsRecord zoneId in pure tt)
                 (λ error, pure tt)) st in
  sent loop = map (deletionOf zoneId) dnsRecords ∧ result loop = inr ().
Proof.
  cbn zeta.
  destruct (forEach_sent
              (λ _ dnsRecord,
                 attempt (let+ _ := deleteDNSRecord dnsRecord zoneId in pure tt)
                         (λ error, pure tt))
              (λ dnsRecord, [deletionOf zoneId dnsRecord]))
    with (xs := dnsRecords) (s := ()) (st := st) as [Hsent [[] Hresult]].
  - intros s x st'. rewrite sent_attempt by done. rewrite sent_andThen.
    rewrite deleteDNSRecord_sent.
    destruct (result (deleteDNSRecord x zoneId st')); by rewrite ?app_nil_r.
  - intros s x st'. rewrite result_attempt, result_andThen.
    destruct (result (deleteDNSRecord x zoneId st')); by eexists.
  - split; [|done]. rewrite Hsent. clear.
    induction dnsRecords as [|r rs IH]; [done|]. simpl. by rewrite IH.
Qed.

(** X22: when the zone of the domain is found and its records are listed,
    [deleteFilteredDNSRecords] asks for the deletion of exactly the
    records that the content filter keeps, each once, in the order of the
    listing, by the id of the record and in the zone that was found; a
    deletion that fails does not keep the later ones from being asked
    for, and the function returns. *)
Theorem deleteFilteredDNSRecords_deletes_the_kept_records
    (domain content type : string) (st : State R) (found : bool) (zone : Zone.t)
    (zones : list Zone.t) (data : Response.t (list RemoteDNSRecord.t))
    (remote1 remote2 : R) :
  let zoneId := Zone.id zone in
  let run := deleteFilteredDNSRecords domain content type st in
  api _ (ZoneByName domain) (remote st)
  = (inr (Response.mk found (zone :: zones)), remote1) →
  api _ (ListDnsRecords zoneId type) remote1 = (inr data, remote2) →
  sent run
  = known (call (ZoneByName domain))
      :: known (call (ListDnsRecords zoneId type))
      :: map (deletionOf zoneId)
           (List.filter (dnsRecordMatches content type) (Response.result data))
  ∧ result run = inr ().
Proof.
  intros zoneId run Hzone Hlist. subst run. unfold deleteFilteredDNSRecords.
  rewrite sent_andThen, result_andThen, !sent_await, !result_await, !after_await.
  rewrite getZoneId_run, Hzone.
  cbn [fst snd Response.result returned final calls map].
  fold zoneId.
  rewrite sent_andThen, result_andThen, !sent_await, !result_await, !after_await.
  assert (getFilteredDNSRecords zoneId content type (mkState remote1 (heap st))
          = mkOutcome
              (inr (List.filter (dnsRecordMatches content type) (Response.result data)))
              (mkState remote2 (heap st)) [call (ListDnsRecords zoneId type)]) as ->.
  { unfold getFilteredDNSRecords, bind, cloudflareRequest. cbn [remote heap].
    by rewrite Hlist. }
  cbn [returned final calls map].
  destruct (deletions_sent zoneId
              (List.filter (dnsRecordMatches content type) (Response.result data))
              (mkState remote2 (heap st))) as [-> ->].
  done.
Qed.

(** X23: [deleteFilteredDNSRecords] throws only for a read that failed,
    and then it has asked for no deletion: whatever the API answers, a run
    that throws has sent no deletion request. *)
Theorem deleteFilteredDNSRecords_throws_before_any_deletion
    (domain content type : string) (st : State R) (error : Exn) :
  result (deleteFilteredDNSRecords domain content type st) = inl error →
  List.filter isDeletion (sent (deleteFilteredDNSRecords domain content type st)) = [].
Proof.
  unfold deleteFilteredDNSRecords.
  rewrite sent_andThen, result_andThen, !sent_await, !result_await, !after_await.
  rewrite getZoneId_calls.
  destruct (returned (getZoneId domain st)) as [error1|zoneId]; [done|].
  rewrite sent_andThen, result_andThen, !sent_await, !result_await, !after_await.
  rewrite getFilteredDNSRecords_calls.
  destruct (returned (getFilteredDNSRecords zoneId content type _))
    as [error2|dnsRecords]; [done|].
  match goal with
  | |- context [forEach dnsRecords tt ?body ?st1] =>
      destruct (deletions_sent zoneId dnsRecords st1) as [_ ->]
  end.
  discriminate.
Qed.

Lemma deleteFilteredDNSRecords_lookup domain content type (st : State R) :
  ∃ rest,
    sent (deleteFilteredDNSRecords domain content type st)
    = known (call (ZoneByName domain)) :: rest
    ∧ Forall (λ s, ∀ d, s ≠ known (call (ZoneByName d))) rest.
Proof.
  unfold deleteFilteredDNSRecords.
  rewrite sent_andThen, !sent_await, !result_await, !after_await, getZoneId_calls.
  destruct (returned (getZoneId domain st)) as [error1|zoneId];
    [exists []; by split|].
  rewrite sent_andThen, !sent_await, !result_await, !after_await.
  rewrite getFilteredDNSRecords_calls.
  destruct (returned (getFilteredDNSRecords zoneId content type _))
    as [error2|dnsRecords].
  - eexists. split; [reflexivity|]. by repeat constructor.
  - match goal with
    | |- context [forEach dnsRecords tt ?body ?st1] =>
        destruct (deletions_sent zoneId dnsRecords st1) as [-> _]
    end.
    eexists. split; [reflexivity|]. constructor; [done|].
    apply Forall_forall. intros s Hs d ->.
    apply list_elem_of_In, in_map_iff in Hs as (r & Hr & _). discriminate.
Qed.

(** X24: [deleteManyFilteredDNSRecords] goes through every domain
    whatever the API answers: it never throws, and it looks up the zone
    of every domain of its list exactly once, in the order of the list; a
    domain whose zone or records cannot be read does not keep the later
    ones from being processed. *)
Theorem deleteManyFilteredDNSRecords_goes_through_every_domain
    (domains : list string) (content type : string) (st : State R) :
  result (deleteManyFilteredDNSRecords domains content type st) = inr ()
  ∧ omap lookupSent (sent (deleteManyFilteredDNSRecords domains content type st))
    = domains.
Proof.
  unfold deleteManyFilteredDNSRecords. revert st.
  induction domains as [|domain domains IH]; intros st; [done|].
  cbn [forEach]. rewrite result_andThen, sent_andThen.
  assert (result (attempt (deleteFilteredDNSRecords domain content type)
                          (λ _, pure ()) st) = inr ()) as ->.
  { rewrite result_attempt.
    by destruct (result (deleteFilteredDNSRecords domain content type st)) as [?|[]]. }
  rewrite sent_attempt by done.
  destruct (IH (after (attempt (deleteFilteredDNSRecords domain content type)
                               (λ _, pure ()) st))) as [-> IHsent].
  split; [done|]. rewrite omap_app, IHsent.
  destruct (deleteFilteredDNSRecords_lookup domain content type st)
    as (rest & -> & Hrest).
  rewrite omap_cons. cbn [lookupSent lookupOf]. f_equal.
  assert (omap lookupSent rest = []) as ->; [|done].
  clear -Hrest. induction Hrest as [|s rest Hs _ IH]; [done|].
  rewrite omap_cons, IH. destruct s as [[T request]|T request]; [|done].
  destruct request; try done. by destruct (Hs domain).
Qed.

(** The creation loop of lines 498-505, for a remote that answers a
    creation by the name alone. *)
Lemma createManyZones_loop ACCOUNT_ID (reachable : R → Prop)
    (answers : string → string + Response.t (option ZoneDetails.t))
    (domains : list string) results (st : State R) :
  (∀ name remote,
     reachable remote →
     ∃ remote',
       furtherApi _ (CreateZone ACCOUNT_ID name) remote = (answers name, remote')
       ∧ reachable remote') →
  reachable (remote st) →
  let loop :=
    forEach domains results
      (λ results domain,
         attempt (let+ created := createZone ACCOUNT_ID domain in
                  pure (results ++ [created]))
                 (λ error, pure results)) st in
  sent loop = map (λ domain, further (CreateZone ACCOUNT_ID domain)) domains
  ∧ result loop = inr (results ++ omap (λ domain, keptAnswer (answers domain)) domains).
Proof.
  intros Hanswers. cbn zeta. revert results st.
  induction domains as [|domain domains IH]; intros results st Hst.
  - by rewrite app_nil_r.
  - cbn [forEach]. rewrite sent_andThen, result_andThen.
    assert (∀ created : Response.t (option ZoneDetails.t),
              Response.mk (Response.success created) (Response.result created)
              = created) as Heta by (by intros []).
    destruct (Hanswers domain (remote st) Hst) as (remote' & Hanswer & Hremote').
    assert (attempt (let+ created := createZone ACCOUNT_ID domain in
                     pure (results ++ [created]))
                    (λ _, pure results) st
            = mkRun (inr (results ++ match keptAnswer (answers domain) with
                                     | Some created => [created]
                                     | None => []
                                     end))
                    (mkState remote' (heap st))
                    [further (CreateZone ACCOUNT_ID domain)]) as ->.
    { unfold attempt, andThen, createZone, andThen, furtherRequest.
      rewrite Hanswer. destruct (answers domain) as [msg|data]; cbn.
      - by rewrite app_nil_r.
      - by rewrite Heta. }
    cbn [result after sent].
    destruct (IH (results ++ match keptAnswer (answers domain) with
                             | Some created => [created]
                             | None => []
                             end) (mkState remote' (heap st)) Hremote') as [-> ->].
    split; [done|]. rewrite omap_cons, <- app_assoc.
    by destruct (keptAnswer (answers domain)).
Qed.

(** X25: against a remote that answers a zone creation by the name alone,
    [createManyZones] asks for the creation of every domain of its list,
    in order, whatever the answers.  A creation that fails by an error is
    dropped from its list without a trace; a creation that is answered
    with no [result] is kept until the end, where taking it apart throws:
    then the caller gets no list at all, although every creation has been
    asked for. *)
Theorem createManyZones_drops_errors_and_throws_on_null (ACCOUNT_ID : string)
    (reachable : R → Prop)
    (answers : string → string + Response.t (option ZoneDetails.t))
    (domains : list string) (st : State R) :
  (∀ name remote,
     reachable remote →
     ∃ remote',
       furtherApi _ (CreateZone ACCOUNT_ID name) remote = (answers name, remote')
       ∧ reachable remote') →
  reachable (remote st) →
  sent (createManyZones ACCOUNT_ID domains st)
  = map (λ domain, further (CreateZone ACCOUNT_ID domain)) domains
  ∧ result (createManyZones ACCOUNT_ID domains st)
    = mapOrThrow createdZone (omap (λ domain, keptAnswer (answers domain)) domains).
Proof.
  intros Hanswers Hst. unfold createManyZones. rewrite sent_andThen, result_andThen.
  destruct (createManyZones_loop ACCOUNT_ID reachable answers domains [] st
              Hanswers Hst) as [-> ->].
  cbn [app].
  destruct (mapOrThrow createdZone _); cbn; by rewrite app_nil_r.
Qed.

End FurtherFacts.

(** The SPF record of [a.com] is deleted, the DKIM record is not. *)
Lemma deleteFilteredDNSRecords_deletes_the_kept_records_witness :
  let run := deleteFilteredDNSRecords "a.com" "spf" "TXT" Demo.start in
  sent run
  = known (call (ZoneByName "a.com"))
      :: known (call (ListDnsRecords "zone:a.com" "TXT"))
      :: map (deletionOf "zone:a.com")
           (List.filter (dnsRecordMatches "spf" "TXT")
              (Demo.dnsRecords Demo.account))
  ∧ result run = inr ().
Proof.
  apply (deleteFilteredDNSRecords_deletes_the_kept_records (R := Demo.Account)
           "a.com" "spf" "TXT" Demo.start true (Demo.zoneOf "a.com") []
           (Response.mk true (Demo.dnsRecords Demo.account))
           Demo.account Demo.account);
    reflexivity.
Defined.

Example spf_record_is_deleted :
  sent (deleteFilteredDNSRecords "a.com" "spf" "TXT" Demo.start)
  = [known (call (ZoneByName "a.com"));
     known (call (ListDnsRecords "zone:a.com" "TXT"));
     further (DeleteDnsRecord "zone:a.com" "r2")].
Proof. reflexivity. Qed.

(** A domain that is not in the account: the lookup finds no zone. *)
Lemma deleteFilteredDNSRecords_throws_before_any_deletion_witness :
  List.filter isDeletion
    (sent (deleteFilteredDNSRecords "gone.example" "spf" "TXT" Demo.start))
  = [].
Proof.
  apply (deleteFilteredDNSRecords_throws_before_any_deletion (R := Demo.Account)
           "gone.example" "spf" "TXT" Demo.start
           (TypeError "Cannot read properties of undefined (reading 'id')")).
  reflexivity.
Defined.

(** Three domains: a new one, one that cannot be reached, and one that
    the account has already. *)
Lemma createManyZones_drops_errors_and_throws_on_null_witness :
  sent (createManyZones "account-1" ["new.example"; "down.example"; "a.com"]
          Demo.start)
  = map (λ domain, further (CreateZone "account-1" domain))
        ["new.example"; "down.example"; "a.com"]
  ∧ result (createManyZones "account-1" ["new.example"; "down.example"; "a.com"]
              Demo.start)
    = mapOrThrow createdZone
        (omap (λ domain,
                 keptAnswer (FurtherDemo.serve _ (CreateZone "account-1" domain)
                               Demo.account).1)
              ["new.example"; "down.example"; "a.com"]).
Proof.
  apply (createManyZones_drops_errors_and_throws_on_null (R := Demo.Account)
           "account-1" (λ remote, remote = Demo.account)
           (λ domain, (FurtherDemo.serve _ (CreateZone "account-1" domain)
                         Demo.account).1)
           ["new.example"; "down.example"; "a.com"] Demo.start).
  - intros name remote ->. exists Demo.account. split; [|reflexivity].
    unfold furtherApi, FurtherDemo.account_further, FurtherDemo.serve.
    destruct (Demo.inList name (Demo.unreachable Demo.account)); [reflexivity|].
    destruct (Demo.inList name (Demo.zones Demo.account)); reflexivity.
  - reflexivity.
Defined.

Example taken_name_loses_the_list :
  result (createManyZones "account-1" ["new.example"; "down.example"; "a.com"]
            Demo.start)
  = inl (TypeError "Cannot destructure property 'id' of 'result' as it is null.")
  ∧ result (createManyZones "account-1" ["new.example"; "down.example"] Demo.start)
    = inr [CreatedZone.mk true "zone:new.example" "new.example"].
Proof. split; reflexivity. Qed.
